(** * tile-downloader: the tile-cache materialization core of [src/main.js]

    A shallow embedding of the download engine of the ArcGIS tile viewer
    and downloader: the extent-to-range mapper [tileRangeForExtent], the
    cache key namer [toArcGISNames], the world-file content, the per-tile
    task of [downloadAllLevelsForArcGIS] and its bounded pool, and the
    filter of native levels applied when the descriptor is loaded.

    Number model.  JavaScript numbers are modelled by exact arithmetic:
    values produced by [Math.floor] and loop indices are integers ([Z]),
    every other number is a rational ([Q]).  Rounding, overflow, [NaN] and
    the infinities of binary64 are outside the model.

    Effect model.  The destination directory is a finite map from
    (level directory, file name) to content, the server a function from
    urls to responses, and the rejections of creating and writing
    file-system calls an oracle on the rank of the call.  An awaited
    computation is a function of the world that resolves or rejects; the
    tasks of a level, which awaiting interleaves, are run to their end
    one after the other.  The pool that starts them is a transition
    system of its own ([Pool]). *)

From Stdlib Require Import ZArith QArith Qround Qabs Lia Lqa Ascii String.
From stdpp Require Import base strings list gmap.

Local Open Scope string_scope.
Local Open Scope Z_scope.

(** ** JavaScript strings *)

Module JSString.

(** [String.prototype.toUpperCase], on the ASCII letters. *)
Definition upperChar (c : ascii) : ascii :=
  let n := nat_of_ascii c in
  if ((97 <=? n)%nat && (n <=? 122)%nat)%bool then ascii_of_nat (n - 32) else c.

Fixpoint toUpperCase (s : string) : string :=
  match s with
  | EmptyString => EmptyString
  | String c r => String (upperChar c) (toUpperCase r)
  end.

(** The first [n] characters of [cur] followed by [pad] repeated. *)
Fixpoint fill (n : nat) (pad cur : string) : string :=
  match n with
  | O => EmptyString
  | S n' =>
      match cur with
      | String c r => String c (fill n' pad r)
      | EmptyString =>
          match pad with
          | String c r => String c (fill n' pad r)
          | EmptyString => EmptyString
          end
      end
  end.

(** [String.prototype.padStart(targetLength, padString)]. *)
Definition padStart (targetLength : nat) (padString s : string) : string :=
  let len := String.length s in
  if (targetLength <=? len)%nat then s
  else match padString with
       | EmptyString => s
       | _ => fill (targetLength - len) padString padString +:+ s
       end.

(** [Array.prototype.join(sep)] on an array of strings. *)
Fixpoint join (sep : string) (parts : list string) : string :=
  match parts with
  | [] => EmptyString
  | [p] => p
  | p :: rest => p +:+ sep +:+ join sep rest
  end.

Fixpoint zeros (n : nat) : string :=
  match n with
  | O => EmptyString
  | S n' => String "0" (zeros n')
  end.

End JSString.

(** ** Integers to text: [Number.prototype.toString(radix)] *)

Module JSNumber.
Import JSString.

(** Digit characters [0-9a-z] as [toString(radix)] emits them. *)
Definition digitChar (d : Z) : ascii :=
  if d <? 10 then ascii_of_nat (48 + Z.to_nat d) else ascii_of_nat (87 + Z.to_nat d).

(** Digits of a non-negative integer, most significant first, pushed
    in front of [acc]. *)
Fixpoint digitsOf (fuel : nat) (radix n : Z) (acc : string) : string :=
  match fuel with
  | O => acc
  | S fuel' =>
      let acc' := String (digitChar (n mod radix)) acc in
      if n / radix =? 0 then acc' else digitsOf fuel' radix (n / radix) acc'
  end.

Definition natToString (radix n : Z) : string :=
  digitsOf (S (Z.to_nat (Z.log2 n))) radix n EmptyString.

(** [n.toString(radix)] for an integral number [n]. *)
Definition toStringRadix (radix n : Z) : string :=
  if n <? 0 then String "-" (natToString radix (- n)) else natToString radix n.

(** Exactly [k] digits of [n], most significant first. *)
Fixpoint fixedDigits (k : nat) (radix n : Z) (acc : string) : string :=
  match k with
  | O => acc
  | S k' => fixedDigits k' radix (n / radix) (String (digitChar (n mod radix)) acc)
  end.

End JSNumber.

(** ** Cache key namer *)

Record ArcGISNames := { L : string; R : string; C : string }.

(** [toArcGISNames(z, x, y)] *)
Definition toArcGISNames (z x y : Z) : ArcGISNames :=
  {| L := "L" +:+ JSString.padStart 2 "0" (JSNumber.toStringRadix 10 z);
     R := "R" +:+ JSString.toUpperCase (JSString.padStart 8 "0" (JSNumber.toStringRadix 16 y));
     C := "C" +:+ JSString.toUpperCase (JSString.padStart 8 "0" (JSNumber.toStringRadix 16 x)) |}.

(** ** Pyramid descriptor, tile grid and extent *)

(** One entry of [tileInfo.lods]. *)
Record Lod := { level : Z; resolution : Q; scale : Q }.

Record Origin := { origin_x : Q; origin_y : Q; origin_wkid : Z }.

(** What [tileGrid.getTileSize()] returns: a number or an array of
    numbers.  An empty array (whose element 0 is [undefined]) has no
    counterpart in the number model. *)
Inductive TileSize :=
| SizeNumber (n : Q)
| SizeArray (first : Q) (rest : list Q).

Record TileInfo := {
  dpi : Q;
  lods : list Lod;
  origin : Origin;
  tile_size : TileSize;
  wkid : Z
}.

Record Metadata := {
  url : string;
  name : option string;
  nativeLevels : option Q;
  tileInfo : TileInfo
}.

(** The [TileGrid] built from the metadata, through its two getters. *)
Record TileGrid := {
  getOrigin : Q * Q;
  getResolutions : list Q;
  getTileSize : TileSize
}.

Definition tileGridOf (metadata : Metadata) : TileGrid :=
  {| getOrigin := (origin_x (origin (tileInfo metadata)), origin_y (origin (tileInfo metadata)));
     getResolutions := map resolution (lods (tileInfo metadata));
     getTileSize := tile_size (tileInfo metadata) |}.

(** [if (Array.isArray(tileSize)) tileSize = tileSize[0]] *)
Definition firstDimension (tileSize : TileSize) : Q :=
  match tileSize with
  | SizeNumber n => n
  | SizeArray first _ => first
  end.

(** [[xmin, ymin, xmax, ymax]] *)
Record Extent := { xmin : Q; ymin : Q; xmax : Q; ymax : Q }.

Record TileRange := { minX : Z; maxX : Z; minY : Z; maxY : Z }.

(** [tileRangeForExtent(extent, resolution)], the grid made explicit. *)
Definition tileRangeForExtent (tileGrid : TileGrid) (extent : Extent) (resolution : Q)
  : TileRange :=
  let '(originX, originY) := getOrigin tileGrid in
  let tileSize := firstDimension (getTileSize tileGrid) in
  {| minX := Qfloor ((xmin extent - originX) / (resolution * tileSize))%Q;
     maxX := Qfloor ((xmax extent - originX) / (resolution * tileSize))%Q;
     minY := Qfloor ((originY - ymax extent) / (resolution * tileSize))%Q;
     maxY := Qfloor ((originY - ymin extent) / (resolution * tileSize))%Q |}.

(** The mapper as section 4.1 of the specification words it: a tile
    width, a column index for a ground x and a row index for a ground y. *)
Module RangeSpec.






End RangeSpec.

(** ** Numbers to text and back *)

(** The line feed of ["\n"]. *)
Definition LF : string := String "010"%char EmptyString.

(** The double quote. *)
Definition DQ : string := String "034"%char EmptyString.

Section NumberText.

(** [Number::toString] of a value that is not an integer below [10^21]
    in magnitude: the shortest digits that read back as the same
    binary64 value.  It depends on the floating-point neighbours of the
    value, so it is left to the host. *)
Variable renderOther : Q -> string.

(** [String(q)], as template literals and [join] apply it to a number. *)
Definition Number_toString (q : Q) : string :=
  let r := Qred q in
  if ((Z.pos (Qden r) =? 1) && (Z.abs (Qnum r) <? 10 ^ 21))%bool
  then JSNumber.toStringRadix 10 (Qnum r)
  else renderOther q.

(** Puts the decimal point before the last [f] digits of [m], with
    zeros in front when [m] is too short. *)
Definition pointBefore (f : nat) (m : string) : string :=
  match f with
  | O => m
  | _ =>
      let k := String.length m in
      let m' := if (k <=? f)%nat then JSString.zeros (f + 1 - k) +:+ m else m in
      let k' := String.length m' in
      substring 0 (k' - f) m' +:+ "." +:+ substring (k' - f) f m'
  end.

(** [Number.prototype.toFixed(fractionDigits)]: the integer nearest to
    [|x| * 10^f], the larger one on a tie, printed with [f] digits
    after the point. *)
Definition toFixed (fractionDigits : nat) (x : Q) : string :=
  let s := if Qle_bool 0 x then EmptyString else "-" in
  let ax := Qabs x in
  if Qle_bool (inject_Z (10 ^ 21)) ax then s +:+ Number_toString ax
  else
    let n := Qfloor (ax * inject_Z (10 ^ Z.of_nat fractionDigits) + (1 # 2))%Q in
    s +:+ pointBefore fractionDigits (JSNumber.natToString 10 n).

(** [StringToNumber] on the decimal literals that [toFixed] returns:
    sign, digits, fraction and exponent.  [None] stands for [NaN]. *)
Definition digitValue (c : ascii) : option Z :=
  let n := nat_of_ascii c in
  if ((48 <=? n)%nat && (n <=? 57)%nat)%bool then Some (Z.of_nat n - 48) else None.

Fixpoint readDigits (s : string) (acc : Z) (count : nat) : Z * nat * string :=
  match s with
  | EmptyString => (acc, count, s)
  | String c r =>
      match digitValue c with
      | Some d => readDigits r (10 * acc + d) (S count)
      | None => (acc, count, s)
      end
  end.

Definition readSign (s : string) : bool * string :=
  match s with
  | String "-" r => (true, r)
  | String "+" r => (false, r)
  | _ => (false, s)
  end.

Definition readExponent (s : string) : option Z :=
  match s with
  | EmptyString => Some 0
  | String c r =>
      if (Ascii.eqb c "e" || Ascii.eqb c "E")%bool then
        let '(neg, r1) := readSign r in
        match readDigits r1 0 0 with
        | (e, S _, EmptyString) => Some (if neg then - e else e)
        | _ => None
        end
      else None
  end.

Definition StringToNumber (s : string) : option Q :=
  let '(neg, s1) := readSign s in
  let '(ip, ni, s2) := readDigits s1 0 0 in
  let '(fp, nf, s3) :=
    match s2 with
    | String "." r => readDigits r 0 0
    | _ => (0, O, s2)
    end in
  match (ni + nf)%nat, readExponent s3 with
  | S _, Some e =>
      let mant := (inject_Z (ip * 10 ^ Z.of_nat nf + fp) / inject_Z (10 ^ Z.of_nat nf))%Q in
      let v := (mant * Qpower (inject_Z 10) e)%Q in
      Some (if neg then Qopp v else v)
  | _, _ => None
  end.

(** [-s] for a string [s], converted to text again by [join]. *)
Definition negatedText (s : string) : string :=
  match StringToNumber s with
  | Some v => Number_toString (Qopp v)
  | None => "NaN"
  end.

(** ** Georeference sidecar *)

(** The array joined into [worldFileContent], for the tile [(x, y)]. *)
Definition worldFileLines (metadata : Metadata) (tileSize resolution : Q) (x y : Z)
  : list string :=
  [ toFixed 6 resolution;
    "0";
    "0";
    negatedText (toFixed 6 resolution);
    Number_toString (origin_x (origin (tileInfo metadata)) + inject_Z x * resolution * tileSize)%Q;
    Number_toString (origin_y (origin (tileInfo metadata)) - inject_Z y * resolution * tileSize)%Q ].

Definition worldFileContent (metadata : Metadata) (tileSize resolution : Q) (x y : Z)
  : string :=
  JSString.join LF (worldFileLines metadata tileSize resolution x y).

End NumberText.

(** ** The world of a run: files, network, counters and logs *)

(** How [fetch(url)] settles: the promise rejects, or a response. *)
Inductive FetchResult :=
| NetworkError
| Response (ok : bool) (contentType : option string) (body : string).

(** Why an awaited promise rejected. *)
Inductive Exn := FetchFailed | FileSystemFailed.

Record World := {
  (** files under [_alllayers], by level directory and file name *)
  files : gmap (string * string) string;
  (** urls passed to [fetch], latest first *)
  fetched : list string;
  (** arguments of the [console.warn] calls, latest first *)
  warned : list (list string);
  downloadedTiles : Z;
  downloadedLevelTiles : Z;
  (** [setProgress(fraction, message)] calls, latest first *)
  progress : list (Q * string);
  (** creating and writing file-system calls made so far *)
  ioCalls : nat
}.

Definition setFiles (f : gmap (string * string) string) (w : World) : World :=
  {| files := f; fetched := fetched w; warned := warned w;
     downloadedTiles := downloadedTiles w; downloadedLevelTiles := downloadedLevelTiles w;
     progress := progress w; ioCalls := ioCalls w |}.

Definition setFetched (l : list string) (w : World) : World :=
  {| files := files w; fetched := l; warned := warned w;
     downloadedTiles := downloadedTiles w; downloadedLevelTiles := downloadedLevelTiles w;
     progress := progress w; ioCalls := ioCalls w |}.

Definition setWarned (l : list (list string)) (w : World) : World :=
  {| files := files w; fetched := fetched w; warned := l;
     downloadedTiles := downloadedTiles w; downloadedLevelTiles := downloadedLevelTiles w;
     progress := progress w; ioCalls := ioCalls w |}.

Definition setDownloadedTiles (n : Z) (w : World) : World :=
  {| files := files w; fetched := fetched w; warned := warned w;
     downloadedTiles := n; downloadedLevelTiles := downloadedLevelTiles w;
     progress := progress w; ioCalls := ioCalls w |}.

Definition setDownloadedLevelTiles (n : Z) (w : World) : World :=
  {| files := files w; fetched := fetched w; warned := warned w;
     downloadedTiles := downloadedTiles w; downloadedLevelTiles := n;
     progress := progress w; ioCalls := ioCalls w |}.

Definition setProgressLog (l : list (Q * string)) (w : World) : World :=
  {| files := files w; fetched := fetched w; warned := warned w;
     downloadedTiles := downloadedTiles w; downloadedLevelTiles := downloadedLevelTiles w;
     progress := l; ioCalls := ioCalls w |}.

Definition tick (w : World) : World :=
  {| files := files w; fetched := fetched w; warned := warned w;
     downloadedTiles := downloadedTiles w; downloadedLevelTiles := downloadedLevelTiles w;
     progress := progress w; ioCalls := S (ioCalls w) |}.

(** An asynchronous computation, awaited to its end: it resolves with a
    value or rejects, and leaves the world as it made it either way. *)
Definition M (A : Type) : Type := World -> (Exn + A) * World.

Definition ret {A} (a : A) : M A := fun w => (inr a, w).

Definition throw {A} (e : Exn) : M A := fun w => (inl e, w).

Definition bind {A B} (m : M A) (k : A -> M B) : M B :=
  fun w =>
    match m w with
    | (inr a, w') => k a w'
    | (inl e, w') => (inl e, w')
    end.

Notation "'let*' x ':=' m 'in' k" := (bind m (fun x => k))
  (at level 10, x name, m at level 100, k at level 200).
Notation "m ';;' k" := (bind m (fun _ => k))
  (at level 100, k at level 200, right associativity).

(** [try { body } catch (err) { handler }] around an awaited body. *)
Definition tryCatch (body : M unit) (handler : Exn -> World -> World) : World -> World :=
  fun w =>
    match body w with
    | (inr _, w') => w'
    | (inl e, w') => handler e w'
    end.

(** What a postcondition asks of a computation started in [w]: [Qv] of
    the value and the world when it resolves, [Qe] when it rejects. *)
Definition wp {A} (m : M A) (Qv : A -> World -> Prop) (Qe : Exn -> World -> Prop)
    (w : World) : Prop :=
  match m w with
  | (inr a, w') => Qv a w'
  | (inl e, w') => Qe e w'
  end.

(** *** Counters and logs *)

Definition incrDownloadedTiles : M unit :=
  fun w => (inr tt, setDownloadedTiles (downloadedTiles w + 1) w).

Definition incrDownloadedLevelTiles : M unit :=
  fun w => (inr tt, setDownloadedLevelTiles (downloadedLevelTiles w + 1) w).

Definition getDownloadedTiles : M Z := fun w => (inr (downloadedTiles w), w).

Definition getDownloadedLevelTiles : M Z := fun w => (inr (downloadedLevelTiles w), w).

(** [setProgress(fraction, message)] with a non-empty message. *)
Definition setProgress (fraction : Q) (message : string) : M unit :=
  fun w => (inr tt, setProgressLog ((fraction, message) :: progress w) w).

Definition console_warn (args : list string) (w : World) : World :=
  setWarned (args :: warned w) w.

(** A file handle: its directory and its name. *)
Definition FileHandle : Type := string * string.

(** An open writable stream: its file and the swap data written so far. *)
Record Writable := { target : FileHandle; swap : string }.

(** ** [downloadAllLevelsForArcGIS] *)

Section Download.

Variable renderOther : Q -> string.
(** The tile server, as [fetch] sees it. *)
Variable network : string -> FetchResult.
(** Which creating and writing file-system calls reject, by their rank
    among such calls. *)
Variable rejects : nat -> bool.
Variable metadata : Metadata.
(** [vectorSource.getExtent()] *)
Variable bbox : Extent.

(** *** File System Access API *)

(** A creating or writing call settles as [rejects] says. *)
Definition fallible : M unit :=
  fun w =>
    if rejects (ioCalls w) then (inl FileSystemFailed, tick w) else (inr tt, tick w).

(** [dir.getFileHandle(name, { create: false }).then(() => true).catch(() => false)] *)
Definition fileExists (dir name : string) : M bool :=
  fun w => (inr (bool_decide (is_Some (files w !! (dir, name)))), w).

(** [dir.getFileHandle(name, { create: true })]: an empty file appears
    when there was none. *)
Definition touch (handle : FileHandle) (fs : gmap (string * string) string)
  : gmap (string * string) string :=
  match fs !! handle with
  | Some _ => fs
  | None => <[handle := EmptyString]> fs
  end.

Definition getFileHandle (dir name : string) : M FileHandle :=
  fallible ;;
  fun w => (inr (dir, name), setFiles (touch (dir, name) (files w)) w).

(** [handle.createWritable()]: an empty swap file. *)
Definition createWritable (handle : FileHandle) : M Writable :=
  fallible ;; ret {| target := handle; swap := EmptyString |}.

(** [writable.write(data)] *)
Definition write (writable : Writable) (data : string) : M Writable :=
  fallible ;; ret {| target := target writable; swap := swap writable +:+ data |}.

(** [writable.close()]: the swap data replaces the file. *)
Definition close (writable : Writable) : M unit :=
  fallible ;;
  fun w => (inr tt, setFiles (<[target writable := swap writable]> (files w)) w).

(** [body.pipeTo(writable)]: writes the body and closes the stream. *)
Definition pipeTo (body : string) (writable : Writable) : M unit :=
  fallible ;;
  fun w => (inr tt, setFiles (<[target writable := swap writable +:+ body]> (files w)) w).

(** [dir.getDirectoryHandle(name, { create: true })]; directories
    themselves are not part of the file map. *)
Definition getDirectoryHandle (name : string) : M string :=
  fallible ;; ret name.

(** [fetch(url)] *)
Definition fetch (url : string) : M FetchResult :=
  fun w =>
    let w' := setFetched (url :: fetched w) w in
    match network url with
    | NetworkError => (inl FetchFailed, w')
    | resp => (inr resp, w')
    end.

(** *** The run *)

Definition tileGrid : TileGrid := tileGridOf metadata.

Definition tileSize : Q := firstDimension (getTileSize tileGrid).

Definition tileCount (range : TileRange) : Z :=
  (maxX range - minX range + 1) * (maxY range - minY range + 1).

(** [metadata.tileInfo.lods.reduce(..., 0)] *)
Definition totalTiles : Z :=
  fold_left
    (fun acc lod => acc + tileCount (tileRangeForExtent tileGrid bbox (resolution lod)))
    (lods (tileInfo metadata)) 0.

Definition tileUrl (lod : Lod) (x y : Z) : string :=
  url metadata +:+ "/" +:+ JSNumber.toStringRadix 10 (level lod) +:+ "/"
    +:+ JSNumber.toStringRadix 10 y +:+ "/" +:+ JSNumber.toStringRadix 10 x.

Definition levelCount : string :=
  JSNumber.toStringRadix 10 (Z.of_nat (length (lods (tileInfo metadata)))).

Definition levelStartMessage (lod : Lod) : string :=
  "Downloading tiles for LOD Level: " +:+ JSNumber.toStringRadix 10 (level lod)
    +:+ " (" +:+ JSNumber.toStringRadix 10 totalTiles
    +:+ " tiles) [" +:+ levelCount +:+ " levels]".

Definition levelMessage (lod : Lod) (downloadedLevelTiles totalLevelTiles : Z) : string :=
  "Downloading tiles for LOD Level: " +:+ JSNumber.toStringRadix 10 (level lod)
    +:+ " (" +:+ JSNumber.toStringRadix 10 downloadedLevelTiles
    +:+ "/" +:+ JSNumber.toStringRadix 10 totalLevelTiles
    +:+ " tiles) [" +:+ levelCount +:+ " levels]".

(** [`${R}${C}.${ext}`] *)
Definition filePath (names : ArcGISNames) (ext : string) : string :=
  R names +:+ C names +:+ "." +:+ ext.

(** [imageFileType === "png" ? "pgw" : "jgw"] *)
Definition worldFileExt (imageFileType : option string) : string :=
  if bool_decide (imageFileType = Some "png") then "pgw" else "jgw".

(** [contentType === "image/png" ? "png" : "jpeg"] *)
Definition imageTypeOf (contentType : option string) : string :=
  if bool_decide (contentType = Some "image/png") then "png" else "jpeg".

(** The body of the [try] block of one tile task. *)
Definition tileBody (Ldir : string) (lod : Lod) (totalLevelTiles : Z) (x y : Z) : M unit :=
  let names := toArcGISNames (level lod) x y in
  let* pngExists := fileExists Ldir (filePath names "png") in
  let* jpegExists := fileExists Ldir (filePath names "jpeg") in
  let imageFileType : option string :=
    if pngExists then Some "png" else if jpegExists then Some "jpeg" else None in
  let* imageFileType :=
    if (negb pngExists && negb jpegExists)%bool then
      let* resp := fetch (tileUrl lod x y) in
      match resp with
      | Response true contentType body =>
          let imageFileType := imageTypeOf contentType in
          let* fileHandle := getFileHandle Ldir (filePath names imageFileType) in
          let* writable := createWritable fileHandle in
          pipeTo body writable ;;
          ret (Some imageFileType)
      | _ => ret imageFileType
      end
    else ret imageFileType in
  let* worldFileHandle :=
    getFileHandle Ldir (filePath names (worldFileExt imageFileType)) in
  let worldFileContent :=
    worldFileContent renderOther metadata tileSize (resolution lod) x y in
  let* worldFileWritable := createWritable worldFileHandle in
  let* worldFileWritable := write worldFileWritable worldFileContent in
  close worldFileWritable ;;
  incrDownloadedTiles ;;
  incrDownloadedLevelTiles ;;
  let* downloadedTiles := getDownloadedTiles in
  let* downloadedLevelTiles := getDownloadedLevelTiles in
  setProgress (inject_Z downloadedTiles / inject_Z totalTiles)
    (levelMessage lod downloadedLevelTiles totalLevelTiles).

(** One task handed to the pool: the [try] body and its [catch]. *)
Definition tileTask (Ldir : string) (lod : Lod) (totalLevelTiles : Z) (x y : Z)
  : World -> World :=
  tryCatch (tileBody Ldir lod totalLevelTiles x y)
    (fun _ => console_warn ["Missing tile:"; tileUrl lod x y]).

(** The integers [lo], [lo + 1], ..., [hi] of a counting loop. *)
Definition upTo (lo hi : Z) : list Z :=
  map (fun i => lo + Z.of_nat i) (seq 0 (Z.to_nat (hi - lo + 1))).

(** The tiles of the nested [for] loops, in submission order. *)
Definition tilesOf (range : TileRange) : list (Z * Z) :=
  x ← upTo (minX range) (maxX range);
  y ← upTo (minY range) (maxY range);
  [(x, y)].

Definition levelDirName (lod : Lod) : string :=
  "L" +:+ JSString.padStart 2 "0" (JSNumber.toStringRadix 10 (level lod)).

(** The tasks of one level, each run to its end, one after the other
    in submission order: what [await Promise.all(tasks)] waits for. *)
Definition runTasks (Ldir : string) (lod : Lod) (totalLevelTiles : Z)
    (tiles : list (Z * Z)) (w : World) : World :=
  fold_left (fun w '(x, y) => tileTask Ldir lod totalLevelTiles x y w) tiles w.

(** [`EPSG:${metadata.tileInfo.spatialReference.wkid}`] *)
Definition tilesEPSG : string :=
  "EPSG:" +:+ JSNumber.toStringRadix 10 (wkid (tileInfo metadata)).

Definition scriptContent : string :=
  "#!/bin/bash" +:+ LF
  +:+ "# This script converts all tiles in this directory to a single raster using GDAL." +:+ LF
  +:+ "find . -type f \( -name " +:+ DQ +:+ "*.png" +:+ DQ +:+ " -o -name " +:+ DQ
  +:+ "*.jpeg" +:+ DQ +:+ " \) > filelist.txt" +:+ LF
  +:+ "gdalbuildvrt -addalpha -input_file_list filelist.txt mosaic.vrt" +:+ LF
  +:+ "gdal_translate -of GTiff -a_srs " +:+ tilesEPSG +:+ " mosaic.vrt mosaic.tiff" +:+ LF
  +:+ "rm filelist.txt" +:+ LF
  +:+ "rm mosaic.vrt" +:+ LF.

(** One turn of the [for await (const lod of ...)] loop. *)
Definition runLevel (lod : Lod) : M unit :=
  let range := tileRangeForExtent tileGrid bbox (resolution lod) in
  let* Ldir := getDirectoryHandle (levelDirName lod) in
  let totalLevelTiles := tileCount range in
  (fun w => (inr tt, setDownloadedLevelTiles 0 w)) ;;
  setProgress 0 (levelStartMessage lod) ;;
  (fun w => (inr tt, runTasks Ldir lod totalLevelTiles (tilesOf range) w)) ;;
  let* scriptHandle := getFileHandle Ldir "convert.sh" in
  let* scriptWritable := createWritable scriptHandle in
  let* scriptWritable := write scriptWritable scriptContent in
  close scriptWritable.

Fixpoint forEachLevel (levels : list Lod) : M unit :=
  match levels with
  | [] => ret tt
  | lod :: rest => runLevel lod ;; forEachLevel rest
  end.

(** [downloadAllLevelsForArcGIS()]: both alerts are left out, and the
    picker either hands over a directory or rejects. *)
Definition downloadAllLevelsForArcGIS (hasDirectoryPicker : bool) : M unit :=
  if negb hasDirectoryPicker then ret tt
  else
    fallible ;;
    let* allLayers := getDirectoryHandle "_alllayers" in
    (fun w => (inr tt, setDownloadedTiles 0 w)) ;;
    forEachLevel (lods (tileInfo metadata)).

End Download.

(** The cache key of a tile of a level. *)
Definition tileNames (lod : Lod) (x y : Z) : ArcGISNames := toArcGISNames (level lod) x y.

(** The image format the two probes of a task find in a directory. *)
Definition probed (Ldir : string) (names : ArcGISNames) (fs : gmap (string * string) string)
  : option string :=
  if bool_decide (is_Some (fs !! (Ldir, filePath names "png"))) then Some "png"
  else if bool_decide (is_Some (fs !! (Ldir, filePath names "jpeg"))) then Some "jpeg"
  else None.

(** The sum over all levels, as section 4.6 of the specification words
    the total. *)
Definition sumOverLevels (count : Lod -> Z) (levels : list Lod) : Z :=
  foldr Z.add 0 (map count levels).

(** The progress log grew from [w] to [w'] by reports over [total]. *)
Definition reportsOver (total : Z) (w w' : World) : Prop :=
  exists new,
    progress w' = (new ++ progress w)%list
    /\ Forall (fun entry : Q * string =>
                 fst entry = 0%Q
                 \/ exists done, fst entry = (inject_Z done / inject_Z total)%Q) new.

(** ** The bounded pool and the level barrier *)

Module Pool.













End Pool.

(** ** The namer as section 4.2 of the specification words it *)

Module NameSpec.

(** The digits [0-9]. *)
Definition decimalDigit (d : Z) : ascii := ascii_of_nat (48 + Z.to_nat d).

(** The digits [0-9A-F]. *)
Definition upperHexDigit (d : Z) : ascii :=
  if d <? 10 then ascii_of_nat (48 + Z.to_nat d) else ascii_of_nat (55 + Z.to_nat d).

(** Exactly [width] digits, most significant first. *)
Fixpoint fixedWidth (digit : Z -> ascii) (radix : Z) (width : nat) (n : Z) : string :=
  match width with
  | O => EmptyString
  | S w => String (digit ((n / radix ^ Z.of_nat w) mod radix)) (fixedWidth digit radix w n)
  end.

Definition zeroPad (n : Z) (width : nat) : string := fixedWidth decimalDigit 10 width n.

Definition upperHex (n : Z) (width : nat) : string := fixedWidth upperHexDigit 16 width n.

Definition nameFor (level x y : Z) : ArcGISNames :=
  {| L := "L" +:+ zeroPad level 2;
     R := "R" +:+ upperHex y 8;
     C := "C" +:+ upperHex x 8 |}.

Definition isDecimalDigit (c : ascii) : bool :=
  let n := nat_of_ascii c in ((48 <=? n)%nat && (n <=? 57)%nat)%bool.

Definition isUpperHexDigit (c : ascii) : bool :=
  let n := nat_of_ascii c in
  (((48 <=? n)%nat && (n <=? 57)%nat) || ((65 <=? n)%nat && (n <=? 70)%nat))%bool.

Fixpoint allChars (p : ascii -> bool) (s : string) : bool :=
  match s with
  | EmptyString => true
  | String c r => (p c && allChars p r)%bool
  end.

(** The number a digit stands for. *)
Definition digitOf (c : ascii) : Z :=
  let n := Z.of_nat (nat_of_ascii c) in
  if n <? 58 then n - 48 else n - 55.

(** The number a digit string stands for in the given radix. *)
Fixpoint valueFrom (radix : Z) (s : string) (acc : Z) : Z :=
  match s with
  | EmptyString => acc
  | String c r => valueFrom radix r (radix * acc + digitOf c)
  end.

(** Reads [L], [R] and [C] back: level, then x, then y. *)
Definition decode (names : ArcGISNames) : Z * Z * Z :=
  (valueFrom 10 (substring 1 2 (L names)) 0,
   valueFrom 16 (substring 1 8 (C names)) 0,
   valueFrom 16 (substring 1 8 (R names)) 0).

End NameSpec.

(** ** The worked examples of the specification *)

Definition exampleExtent : Extent :=
  {| xmin := 100; ymin := 100; xmax := 600; ymax := 600 |}.

(** A pyramid of one level of resolution 1 with origin [(0,0)] and
    tiles of 256 pixels. *)
Definition exampleMetadata : Metadata :=
  {| url := "https://tiles.example/arcgis/tile";
     name := None;
     nativeLevels := None;
     tileInfo :=
       {| dpi := 96;
          lods := [ {| level := 0; resolution := 1; scale := 3780 |} ];
          origin := {| origin_x := 0; origin_y := 0; origin_wkid := 3857 |};
          tile_size := SizeArray 256 [256%Q];
          wkid := 3857 |} |}.

(** An extent south of the origin: over [threeLevels] it holds the
    tiles [(5,5)] and [(5,6)] of level 2, two tiles of level 1 and one
    of level 0. *)
Definition southExtent : Extent :=
  {| xmin := 1300; ymin := -1700; xmax := 1500; ymax := -1300 |}.

(** Its grid: origin [(0,0)], resolution 1, tiles of 256 pixels. *)
Definition exampleGrid : TileGrid := tileGridOf exampleMetadata.

(** The same grid with three levels, the finest of resolution 1. *)
Definition threeLevels : Metadata :=
  {| url := "https://tiles.example/arcgis/tile";
     name := None;
     nativeLevels := None;
     tileInfo :=
       {| dpi := 96;
          lods := [ {| level := 0; resolution := 4; scale := 15120 |};
                    {| level := 1; resolution := 2; scale := 7560 |};
                    {| level := 2; resolution := 1; scale := 3780 |} ];
          origin := {| origin_x := 0; origin_y := 0; origin_wkid := 3857 |};
          tile_size := SizeArray 256 [256%Q];
          wkid := 3857 |} |}.

Definition level2 : Lod := {| level := 2; resolution := 1; scale := 3780 |}.

(** A destination directory with nothing in it, before any request. *)
Definition emptyWorld : World :=
  {| files := ∅; fetched := []; warned := []; downloadedTiles := 0;
     downloadedLevelTiles := 0; progress := []; ioCalls := 0 |}.

(** No file-system call rejects. *)
Definition noFaults (rank : nat) : bool := false.

(** A server that answers 404 to every request. *)
Definition notFound (url : string) : FetchResult := Response false None "Not Found".

(** A server that has the tile of row 6, column 5 of level 2 as a PNG
    and answers 404 to every other request. *)
Definition onlyRow6 (url : string) : FetchResult :=
  if String.eqb url "https://tiles.example/arcgis/tile/2/6/5"
  then Response true (Some "image/png") "PNG-2-6-5"
  else Response false None "Not Found".

(** A server that serves every tile as a PNG. *)
Definition servesPng (url : string) : FetchResult :=
  Response true (Some "image/png") "PNG".

(** A renderer for the numbers [Number_toString] leaves to the host;
    the examples never reach it. *)
Definition noRender (q : Q) : string := "NaN".

(** ** Loading the pyramid descriptor *)

(** [lod.level < data.nativeLevels] *)
Definition belowNativeLevels (n : Q) (lod : Lod) : bool :=
  negb (Qle_bool n (inject_Z (level lod))).

(** The last [then] of the chain that loads [spec.json]:
    [if (!data.nativeLevels) return data], which holds without
    [nativeLevels] and with a [nativeLevels] of zero ([NaN], the other
    falsy number, is outside the number model); otherwise the [lods]
    are filtered and the other fields copied. *)
Definition keepNativeLevels (data : Metadata) : Metadata :=
  match nativeLevels data with
  | None => data
  | Some n =>
      if Qeq_bool n 0 then data
      else
        let nativeLods := List.filter (belowNativeLevels n) (lods (tileInfo data)) in
        {| url := url data;
           name := name data;
           nativeLevels := nativeLevels data;
           tileInfo :=
             {| dpi := dpi (tileInfo data);
                lods := nativeLods;
                origin := origin (tileInfo data);
                tile_size := tile_size (tileInfo data);
                wkid := wkid (tileInfo data) |} |}
  end.

(** ** Notions for the properties of a run *)

(** The ground corner written on lines 5 and 6 of the world file of the
    tile [(x, y)]. *)
Definition upperLeft (metadata : Metadata) (sizePx resolution : Q) (x y : Z) : Q * Q :=
  ((origin_x (origin (tileInfo metadata)) + inject_Z x * resolution * sizePx)%Q,
   (origin_y (origin (tileInfo metadata)) - inject_Z y * resolution * sizePx)%Q).


(** The files a task may create or write: the image and the world file
    of its tile, under either suffix. *)
Definition tileFiles (Ldir : string) (names : ArcGISNames) : list FileHandle :=
  (fun ext => (Ldir, filePath names ext)) <$> ["png"; "jpeg"; "pgw"; "jgw"].

(** The directory [fs'] is [fs] but for the files [keys], which may
    have been created or rewritten; no file was removed. *)
Definition writesOnly (keys : list FileHandle) (fs fs' : gmap (string * string) string)
  : Prop :=
  forall k, (k ∉ keys -> fs' !! k = fs !! k) /\ (is_Some (fs !! k) -> is_Some (fs' !! k)).

(** The directory map [fs'] is [fs] but for files of the directories
    [dirs], which may have been created or rewritten; no file was
    removed. *)
Definition writesInto (dirs : list string) (fs fs' : gmap (string * string) string) : Prop :=
  forall k, (k.1 ∉ dirs -> fs' !! k = fs !! k) /\ (is_Some (fs !! k) -> is_Some (fs' !! k)).

(** Reads a zero-padded numeral back, with its sign if it has one:
    the inverse of [toString(radix)] followed by [padStart]. *)
Fixpoint readSigned (radix : Z) (s : string) (negative : bool) (acc : Z) : Z :=
  match s with
  | EmptyString => if negative then - acc else acc
  | String c r =>
      if Ascii.eqb c "-" then readSigned radix r true acc
      else readSigned radix r negative (radix * acc + NameSpec.digitOf c)
  end.







(** Every report that took the progress log from [w] to [w'] shows a
    fraction between 0 and 1 and a message that is not empty. *)
Definition reportsWithin (w w' : World) : Prop :=
  exists new,
    progress w' = (new ++ progress w)%list
    /\ Forall (fun entry : Q * string =>
                 (0 <= fst entry)%Q /\ (fst entry <= 1)%Q /\ snd entry <> EmptyString) new.

(** The tasks the loops of a level submit. *)
Definition levelTiles (metadata : Metadata) (bbox : Extent) (lod : Lod) : list (Z * Z) :=
  tilesOf (tileRangeForExtent (tileGrid metadata) bbox (resolution lod)).

(** At most [n] tiles are counted in [w], and every report since [w0]
    is within bounds. *)
Definition counted (n : Z) (w0 w : World) : Prop :=
  0 <= downloadedTiles w <= n /\ reportsWithin w0 w.

(** From [w0] to [w] at most [n] requests were made, each for a tile
    that the loops of one of the [levels] submit. *)
Definition requested (metadata : Metadata) (bbox : Extent) (levels : list Lod) (n : Z)
    (w0 w : World) : Prop :=
  exists new,
    fetched w = (new ++ fetched w0)%list
    /\ Z.of_nat (length new) <= n
    /\ Forall (fun u => exists lod x y,
                 lod ∈ levels /\ (x, y) ∈ levelTiles metadata bbox lod
                 /\ u = tileUrl metadata lod x y) new.

(** What a task that runs to its end makes of a level directory: the
    image of the tile if it had to be fetched and the server had it,
    and the world file beside it. *)
Definition settled (renderOther : Q -> string) (network : string -> FetchResult)
    (metadata : Metadata) (Ldir : string) (lod : Lod) (x y : Z)
    (fs : gmap (string * string) string) : gmap (string * string) string :=
  let names := tileNames lod x y in
  let content :=
    worldFileContent renderOther metadata (tileSize metadata) (resolution lod) x y in
  match probed Ldir names fs with
  | Some imageFileType =>
      <[(Ldir, filePath names (worldFileExt (Some imageFileType))) := content]> fs
  | None =>
      match network (tileUrl metadata lod x y) with
      | Response true contentType body =>
          <[(Ldir, filePath names (worldFileExt (Some (imageTypeOf contentType)))) := content]>
            (<[(Ldir, filePath names (imageTypeOf contentType)) := body]> fs)
      | _ => <[(Ldir, filePath names "jgw") := content]> fs
      end
  end.

(** Columns and rows whose hexadecimal text fits eight characters. *)
Definition fitsEight (n : Z) : Prop := - 16 ^ 7 < n < 16 ^ 8.

(** ** Further worked inputs *)

(** A destination directory that already holds the tile of level 2,
    column 5, row 5 as a PNG, beside a world file from another run. *)
Definition resumedWorld : World :=
  setFiles {[ ("L02", "R00000005C00000005.png") := "PNG";
              ("L02", "R00000005C00000005.pgw") := "stale" ]} emptyWorld.

(** The third creating or writing call of a run rejects. *)
Definition thirdCallFails (rank : nat) : bool := Nat.eqb rank 2.


(** A pyramid of three levels of which two are native. *)
Definition twoNative : Metadata :=
  {| url := url threeLevels; name := Some "Ortho"; nativeLevels := Some 2%Q;
     tileInfo := tileInfo threeLevels |}.

(** * Properties *)

(** ** Extent-to-range mapper *)



Lemma Qfloor_div_mono (w a b : Q) :
  (0 < w)%Q -> (a <= b)%Q -> Qfloor (a / w) <= Qfloor (b / w).
Proof.
  intros Hw Hab. apply Qfloor_resp_le.
  unfold Qdiv. apply Qmult_le_compat_r; [exact Hab |].
  apply Qlt_le_weak, Qinv_lt_0_compat, Hw.
Qed.



(** C3, as stated, fails: with origin [(0,0)], tile size 256 and
    resolution 1 the rows of the extent [(100,100,600,600)] are
    [-3 .. -1], the row index growing southward from the origin. *)
Lemma tileRangeForExtent_example_rows :
  tileRangeForExtent exampleGrid exampleExtent 1
    = {| minX := 0; maxX := 2; minY := -3; maxY := -1 |}
  /\ tileRangeForExtent exampleGrid exampleExtent 1
    <> {| minX := 0; maxX := 2; minY := 0; maxY := 2 |}.
Proof. split; [reflexivity | discriminate]. Qed.

(** C3, amended. For origin [(0,0)], tile size 256, resolution 1 and
    the extent [(100,100,600,600)] the mapper returns [minX = 0],
    [maxX = 2], [minY = -3], [maxY = -1]. *)
Theorem tileRangeForExtent_example :
  tileRangeForExtent exampleGrid exampleExtent 1
    = {| minX := 0; maxX := 2; minY := -3; maxY := -1 |}.
Proof. reflexivity. Qed.

(** ** Cache key namer *)

Section NamerFacts.
  Import JSString JSNumber.

Lemma fill_zeros n : fill n "0" "0" = zeros n /\ fill n "0" EmptyString = zeros n.
Proof.
  induction n as [|n [IH1 IH2]]; [split; reflexivity |].
  split; cbn [fill zeros]; f_equal; assumption.
Qed.

Lemma append_nil (b : string) : EmptyString +:+ b = b.
Proof. reflexivity. Qed.

Lemma append_cons (ch : ascii) (a b : string) : String ch a +:+ b = String ch (a +:+ b).
Proof. reflexivity. Qed.

Lemma append_assoc (a b c : string) : (a +:+ b) +:+ c = a +:+ (b +:+ c).
Proof.
  induction a as [|ch a IH]; [reflexivity |].
  rewrite !append_cons. f_equal. exact IH.
Qed.

Lemma length_append (a b : string) :
  String.length (a +:+ b) = (String.length a + String.length b)%nat.
Proof.
  induction a as [|ch a IH]; [reflexivity |].
  rewrite append_cons. cbn [String.length]. rewrite IH. reflexivity.
Qed.

Lemma zeros_snoc k acc : zeros k +:+ String "0" acc = zeros (S k) +:+ acc.
Proof.
  induction k as [|k IH]; [reflexivity |].
  change (zeros (S k)) with (String "0" (zeros k)) at 1.
  rewrite append_cons, IH. reflexivity.
Qed.

Lemma fixedDigits_zero radix k acc :
  radix <> 0 -> fixedDigits k radix 0 acc = zeros k +:+ acc.
Proof.
  intros Hr. revert acc. induction k as [|k IH]; intros acc; [reflexivity |].
  cbn [fixedDigits]. rewrite Z.mod_0_l, Z.div_0_l by exact Hr.
  rewrite IH. apply zeros_snoc.
Qed.

Lemma digitsOf_S fuel radix n acc :
  digitsOf (S fuel) radix n acc =
  if n / radix =? 0 then String (digitChar (n mod radix)) acc
  else digitsOf fuel radix (n / radix) (String (digitChar (n mod radix)) acc).
Proof. reflexivity. Qed.

Lemma digitsOf_fixedDigits radix :
  2 <= radix ->
  forall fuel k n acc,
    0 <= n < radix ^ Z.of_nat (S fuel) ->
    n < radix ^ Z.of_nat (S k) ->
    exists d,
      digitsOf (S fuel) radix n acc = d +:+ acc
      /\ (String.length d <= S k)%nat
      /\ zeros (S k - String.length d) +:+ d +:+ acc = fixedDigits (S k) radix n acc.
Proof.
  intros Hr. induction fuel as [|fuel IH]; intros k n acc Hn Hk.
  - assert (Hq : n / radix = 0) by (apply Z.div_small; rewrite Z.pow_1_r in Hn; lia).
    exists (String (digitChar (n mod radix)) EmptyString).
    cbn [digitsOf fixedDigits]. rewrite Hq. cbn [Z.eqb].
    repeat split; [cbn; lia |].
    rewrite fixedDigits_zero by lia. cbn [String.length].
    replace (S k - 1)%nat with k by lia. reflexivity.
  - rewrite digitsOf_S. destruct (Z.eqb_spec (n / radix) 0) as [Hq | Hq].
    + exists (String (digitChar (n mod radix)) EmptyString).
      repeat split; [cbn; lia |].
      cbn [fixedDigits]. rewrite Hq, fixedDigits_zero by lia. cbn [String.length].
      replace (S k - 1)%nat with k by lia. reflexivity.
    + assert (Hn' : 0 <= n / radix < radix ^ Z.of_nat (S fuel)).
      { split; [apply Z.div_pos; lia |].
        apply Z.div_lt_upper_bound; [lia |].
        rewrite <- Z.pow_succ_r by lia. rewrite <- Nat2Z.inj_succ. lia. }
      destruct k as [|k].
      { exfalso. apply Hq, Z.div_small. rewrite Z.pow_1_r in Hk. lia. }
      assert (Hk' : n / radix < radix ^ Z.of_nat (S k)).
      { apply Z.div_lt_upper_bound; [lia |].
        rewrite <- Z.pow_succ_r by lia. rewrite <- Nat2Z.inj_succ. lia. }
      destruct (IH k (n / radix) (String (digitChar (n mod radix)) acc) Hn' Hk')
        as (d & Hd & Hlen & Hfix).
      exists (d +:+ String (digitChar (n mod radix)) EmptyString).
      rewrite Hd, append_assoc. rewrite ?append_cons, ?append_nil.
      repeat split.
      * rewrite length_append. cbn [String.length]. lia.
      * rewrite length_append. cbn [String.length].
        replace (S (S k) - (String.length d + 1))%nat with (S k - String.length d)%nat by lia.
        rewrite ?append_assoc, ?append_cons, ?append_nil.
        rewrite Hfix. reflexivity.
Qed.

Lemma append_nil_r (a : string) : a +:+ EmptyString = a.
Proof.
  induction a as [|ch a IH]; [reflexivity |].
  rewrite append_cons, IH. reflexivity.
Qed.

Lemma padStart_natToString radix k n :
  2 <= radix -> 0 <= n < radix ^ Z.of_nat (S k) ->
  padStart (S k) "0" (natToString radix n) = fixedDigits (S k) radix n EmptyString.
Proof.
  intros Hr Hn. unfold natToString.
  assert (Hfuel : 0 <= n < radix ^ Z.of_nat (S (Z.to_nat (Z.log2 n)))).
  { split; [lia |].
    rewrite Nat2Z.inj_succ, Z2Nat.id by apply Z.log2_nonneg.
    destruct (Z.eq_dec n 0) as [-> | Hn0].
    - apply Z.pow_pos_nonneg; cbn; lia.
    - apply Z.lt_le_trans with (2 ^ Z.succ (Z.log2 n)).
      + apply Z.log2_spec. lia.
      + apply Z.pow_le_mono_l. lia. }
  destruct (digitsOf_fixedDigits radix Hr _ k n EmptyString Hfuel (proj2 Hn))
    as (d & Hd & Hlen & Hfix).
  rewrite Hd, append_nil_r. rewrite append_nil_r in Hfix. rewrite <- Hfix.
  unfold padStart. destruct (Nat.leb_spec (S k) (String.length d)) as [Hle | Hlt].
  - replace (S k - String.length d)%nat with 0%nat by lia. reflexivity.
  - rewrite (proj1 (fill_zeros _)). reflexivity.
Qed.

Lemma upperChar_digitChar d :
  0 <= d < 16 -> upperChar (digitChar d) = NameSpec.upperHexDigit d.
Proof.
  intros Hd.
  assert (H : d = 0 \/ d = 1 \/ d = 2 \/ d = 3 \/ d = 4 \/ d = 5 \/ d = 6 \/ d = 7 \/
              d = 8 \/ d = 9 \/ d = 10 \/ d = 11 \/ d = 12 \/ d = 13 \/ d = 14 \/ d = 15)
    by lia.
  repeat (destruct H as [-> | H]; [reflexivity |]). subst d. reflexivity.
Qed.

Lemma digitChar_decimal d :
  0 <= d < 10 -> digitChar d = NameSpec.decimalDigit d.
Proof.
  intros Hd. unfold digitChar, NameSpec.decimalDigit.
  destruct (Z.ltb_spec d 10); [reflexivity | lia].
Qed.

Lemma toUpperCase_padStart_hex n :
  0 <= n < 2 ^ 32 ->
  toUpperCase (padStart 8 "0" (toStringRadix 16 n)) = NameSpec.upperHex n 8.
Proof.
  intros Hn. unfold toStringRadix.
  destruct (Z.ltb_spec n 0) as [Hneg | _]; [lia |].
  rewrite padStart_natToString by (change (16 ^ Z.of_nat 8) with (2 ^ 32); lia).
  cbn [fixedDigits toUpperCase]. unfold NameSpec.upperHex. cbn [NameSpec.fixedWidth].
  rewrite !upperChar_digitChar by (apply Z.mod_pos_bound; lia).
  change (16 ^ Z.of_nat 0) with 1. rewrite Z.div_1_r.
  repeat match goal with
         | |- String _ _ = String _ _ => f_equal
         | |- NameSpec.upperHexDigit _ = NameSpec.upperHexDigit _ =>
             apply (f_equal (fun v => NameSpec.upperHexDigit (v mod 16)))
         end;
    rewrite ?Zdiv.Zdiv_Zdiv by lia; reflexivity.
Qed.

Lemma padStart_decimal n :
  0 <= n <= 99 -> padStart 2 "0" (toStringRadix 10 n) = NameSpec.zeroPad n 2.
Proof.
  intros Hn. unfold toStringRadix.
  destruct (Z.ltb_spec n 0) as [Hneg | _]; [lia |].
  rewrite padStart_natToString by (change (10 ^ Z.of_nat 2) with 100; lia).
  cbn [fixedDigits]. unfold NameSpec.zeroPad. cbn [NameSpec.fixedWidth].
  rewrite !digitChar_decimal by (apply Z.mod_pos_bound; lia).
  change (10 ^ Z.of_nat 0) with 1. change (10 ^ Z.of_nat 1) with 10.
  rewrite Z.div_1_r. reflexivity.
Qed.

Lemma digitOf_upperHexDigit d : 0 <= d < 16 -> NameSpec.digitOf (NameSpec.upperHexDigit d) = d.
Proof.
  intros Hd.
  assert (H : d = 0 \/ d = 1 \/ d = 2 \/ d = 3 \/ d = 4 \/ d = 5 \/ d = 6 \/ d = 7 \/
              d = 8 \/ d = 9 \/ d = 10 \/ d = 11 \/ d = 12 \/ d = 13 \/ d = 14 \/ d = 15)
    by lia.
  repeat (destruct H as [-> | H]; [reflexivity |]). subst d. reflexivity.
Qed.

Lemma digitOf_decimalDigit d : 0 <= d < 10 -> NameSpec.digitOf (NameSpec.decimalDigit d) = d.
Proof.
  intros Hd.
  assert (H : d = 0 \/ d = 1 \/ d = 2 \/ d = 3 \/ d = 4 \/ d = 5 \/ d = 6 \/ d = 7 \/
              d = 8 \/ d = 9) by lia.
  repeat (destruct H as [-> | H]; [reflexivity |]). subst d. reflexivity.
Qed.

Lemma valueFrom_upperHex n :
  0 <= n < 2 ^ 32 -> NameSpec.valueFrom 16 (NameSpec.upperHex n 8) 0 = n.
Proof.
  intros Hn. unfold NameSpec.upperHex. cbn [NameSpec.fixedWidth NameSpec.valueFrom].
  rewrite !digitOf_upperHexDigit by (apply Z.mod_pos_bound; lia).
  change (16 ^ Z.of_nat 0) with 1. change (16 ^ Z.of_nat 1) with 16.
  change (16 ^ Z.of_nat 2) with 256. change (16 ^ Z.of_nat 3) with 4096.
  change (16 ^ Z.of_nat 4) with 65536. change (16 ^ Z.of_nat 5) with 1048576.
  change (16 ^ Z.of_nat 6) with 16777216. change (16 ^ Z.of_nat 7) with 268435456.
  change (2 ^ 32) with 4294967296 in Hn.
  Z.div_mod_to_equations. lia.
Qed.

Lemma valueFrom_zeroPad n :
  0 <= n <= 99 -> NameSpec.valueFrom 10 (NameSpec.zeroPad n 2) 0 = n.
Proof.
  intros Hn. unfold NameSpec.zeroPad. cbn [NameSpec.fixedWidth NameSpec.valueFrom].
  rewrite !digitOf_decimalDigit by (apply Z.mod_pos_bound; lia).
  change (10 ^ Z.of_nat 0) with 1. change (10 ^ Z.of_nat 1) with 10.
  Z.div_mod_to_equations. lia.
Qed.

Lemma isUpperHexDigit_upperHexDigit d :
  0 <= d < 16 -> NameSpec.isUpperHexDigit (NameSpec.upperHexDigit d) = true.
Proof.
  intros Hd.
  assert (H : d = 0 \/ d = 1 \/ d = 2 \/ d = 3 \/ d = 4 \/ d = 5 \/ d = 6 \/ d = 7 \/
              d = 8 \/ d = 9 \/ d = 10 \/ d = 11 \/ d = 12 \/ d = 13 \/ d = 14 \/ d = 15)
    by lia.
  repeat (destruct H as [-> | H]; [reflexivity |]). subst d. reflexivity.
Qed.

Lemma isDecimalDigit_decimalDigit d :
  0 <= d < 10 -> NameSpec.isDecimalDigit (NameSpec.decimalDigit d) = true.
Proof.
  intros Hd.
  assert (H : d = 0 \/ d = 1 \/ d = 2 \/ d = 3 \/ d = 4 \/ d = 5 \/ d = 6 \/ d = 7 \/
              d = 8 \/ d = 9) by lia.
  repeat (destruct H as [-> | H]; [reflexivity |]). subst d. reflexivity.
Qed.

Lemma upperHex_shape n :
  String.length (NameSpec.upperHex n 8) = 8%nat
  /\ NameSpec.allChars NameSpec.isUpperHexDigit (NameSpec.upperHex n 8) = true.
Proof.
  split; [reflexivity |].
  unfold NameSpec.upperHex. cbn [NameSpec.fixedWidth NameSpec.allChars].
  rewrite !isUpperHexDigit_upperHexDigit by (apply Z.mod_pos_bound; lia).
  reflexivity.
Qed.

Lemma zeroPad_shape n :
  String.length (NameSpec.zeroPad n 2) = 2%nat
  /\ NameSpec.allChars NameSpec.isDecimalDigit (NameSpec.zeroPad n 2) = true.
Proof.
  split; [reflexivity |].
  unfold NameSpec.zeroPad. cbn [NameSpec.fixedWidth NameSpec.allChars].
  rewrite !isDecimalDigit_decimalDigit by (apply Z.mod_pos_bound; lia).
  reflexivity.
Qed.

Lemma toArcGISNames_nameFor level x y :
  0 <= level <= 99 -> 0 <= x < 2 ^ 32 -> 0 <= y < 2 ^ 32 ->
  toArcGISNames level x y = NameSpec.nameFor level x y.
Proof.
  intros Hl Hx Hy. unfold toArcGISNames, NameSpec.nameFor.
  rewrite padStart_decimal, !toUpperCase_padStart_hex by assumption.
  reflexivity.
Qed.

Lemma decode_nameFor level x y :
  0 <= level <= 99 -> 0 <= x < 2 ^ 32 -> 0 <= y < 2 ^ 32 ->
  NameSpec.decode (NameSpec.nameFor level x y) = (level, x, y).
Proof.
  intros Hl Hx Hy.
  pose proof (valueFrom_zeroPad level Hl) as HL.
  pose proof (valueFrom_upperHex x Hx) as HX.
  pose proof (valueFrom_upperHex y Hy) as HY.
  unfold NameSpec.decode, NameSpec.nameFor. cbn [L R C].
  unfold NameSpec.zeroPad, NameSpec.upperHex in *.
  cbn [NameSpec.fixedWidth] in *.
  rewrite !append_cons, !append_nil. cbn [substring].
  rewrite HL, HX, HY. reflexivity.
Qed.

End NamerFacts.

(** Outside the index space of eight hexadecimal digits the key grows
    or carries a sign; nothing is truncated. *)
Example toArcGISNames_out_of_range :
  toArcGISNames 12 (-10) 4294967296
  = {| L := "L12"; R := "R100000000"; C := "C000000-A" |}.
Proof. reflexivity. Qed.

(** C5. For a level in [0..99] and [x], [y] in [0 .. 2^32 - 1] the namer
    returns ["L"] and the level on two decimal digits, ["R"] and [y] on
    eight upper-case hexadecimal digits, ["C"] and [x] likewise; the
    three numbers are read back from the key, so the namer is injective
    there; and [toArcGISNames 3 10 255] is [L03], [R000000FF],
    [C0000000A]. *)
Theorem toArcGISNames_format (level x y : Z) :
  0 <= level <= 99 -> 0 <= x < 2 ^ 32 -> 0 <= y < 2 ^ 32 ->
  toArcGISNames level x y = NameSpec.nameFor level x y
  /\ (String.length (NameSpec.zeroPad level 2) = 2%nat
      /\ NameSpec.allChars NameSpec.isDecimalDigit (NameSpec.zeroPad level 2) = true)
  /\ (String.length (NameSpec.upperHex y 8) = 8%nat
      /\ NameSpec.allChars NameSpec.isUpperHexDigit (NameSpec.upperHex y 8) = true)
  /\ (String.length (NameSpec.upperHex x 8) = 8%nat
      /\ NameSpec.allChars NameSpec.isUpperHexDigit (NameSpec.upperHex x 8) = true)
  /\ NameSpec.decode (toArcGISNames level x y) = (level, x, y)
  /\ (forall level' x' y',
        0 <= level' <= 99 -> 0 <= x' < 2 ^ 32 -> 0 <= y' < 2 ^ 32 ->
        toArcGISNames level x y = toArcGISNames level' x' y' ->
        level = level' /\ x = x' /\ y = y')
  /\ toArcGISNames 3 10 255 = {| L := "L03"; R := "R000000FF"; C := "C0000000A" |}.
Proof.
  intros Hl Hx Hy.
  assert (Hdec : NameSpec.decode (toArcGISNames level x y) = (level, x, y))
    by (rewrite toArcGISNames_nameFor by assumption; apply decode_nameFor; assumption).
  split; [apply toArcGISNames_nameFor; assumption |].
  split; [apply zeroPad_shape |].
  split; [apply upperHex_shape |].
  split; [apply upperHex_shape |].
  split; [exact Hdec |].
  split; [| reflexivity].
  intros level' x' y' Hl' Hx' Hy' E.
  rewrite E, toArcGISNames_nameFor, decode_nameFor in Hdec by assumption.
  injection Hdec as -> -> ->. repeat split.
Qed.

(** A witness: the key of level 3, column 10, row 255. *)
Lemma toArcGISNames_format_witness :
  0 <= 3 <= 99 /\ 0 <= 10 < 2 ^ 32 /\ 0 <= 255 < 2 ^ 32
  /\ (toArcGISNames 3 10 255 = NameSpec.nameFor 3 10 255
      /\ (String.length (NameSpec.zeroPad 3 2) = 2%nat
          /\ NameSpec.allChars NameSpec.isDecimalDigit (NameSpec.zeroPad 3 2) = true)
      /\ (String.length (NameSpec.upperHex 255 8) = 8%nat
          /\ NameSpec.allChars NameSpec.isUpperHexDigit (NameSpec.upperHex 255 8) = true)
      /\ (String.length (NameSpec.upperHex 10 8) = 8%nat
          /\ NameSpec.allChars NameSpec.isUpperHexDigit (NameSpec.upperHex 10 8) = true)
      /\ NameSpec.decode (toArcGISNames 3 10 255) = (3, 10, 255)
      /\ (forall level' x' y',
            0 <= level' <= 99 -> 0 <= x' < 2 ^ 32 -> 0 <= y' < 2 ^ 32 ->
            toArcGISNames 3 10 255 = toArcGISNames level' x' y' ->
            3 = level' /\ 10 = x' /\ 255 = y')
      /\ toArcGISNames 3 10 255 = {| L := "L03"; R := "R000000FF"; C := "C0000000A" |}).
Proof.
  assert (H1 : 0 <= 3 <= 99) by lia.
  assert (H2 : 0 <= 10 < 2 ^ 32) by (change (2 ^ 32) with 4294967296; lia).
  assert (H3 : 0 <= 255 < 2 ^ 32) by (change (2 ^ 32) with 4294967296; lia).
  exact (conj H1 (conj H2 (conj H3 (toArcGISNames_format 3 10 255 H1 H2 H3)))).
Defined.

(** ** Reasoning about awaited computations *)

Section Wp.

Variable rejects : nat -> bool.

Lemma wp_ret {A} (a : A) Qv Qe w : Qv a w -> wp (ret a) Qv Qe w.
Proof. intros H. exact H. Qed.

Lemma wp_bind {A B} (m : M A) (k : A -> M B) Qv Qe w :
  wp m (fun a => wp (k a) Qv Qe) Qe w -> wp (bind m k) Qv Qe w.
Proof.
  unfold wp, bind. destruct (m w) as [[e | a] w']; intros H; exact H.
Qed.

Lemma wp_fallible Qv Qe w :
  (rejects (ioCalls w) = true -> Qe FileSystemFailed (tick w)) ->
  (rejects (ioCalls w) = false -> Qv tt (tick w)) ->
  wp (fallible rejects) Qv Qe w.
Proof.
  intros He Hv. unfold wp, fallible.
  destruct (rejects (ioCalls w)); [apply He | apply Hv]; reflexivity.
Qed.

Lemma wp_fileExists dir name Qv Qe w :
  Qv (bool_decide (is_Some (files w !! (dir, name)))) w ->
  wp (fileExists dir name) Qv Qe w.
Proof. intros H. exact H. Qed.

Lemma wp_getFileHandle dir name Qv Qe w :
  (rejects (ioCalls w) = true -> Qe FileSystemFailed (tick w)) ->
  (rejects (ioCalls w) = false ->
   Qv (dir, name) (setFiles (touch (dir, name) (files w)) (tick w))) ->
  wp (getFileHandle rejects dir name) Qv Qe w.
Proof.
  intros He Hv. unfold getFileHandle. apply wp_bind, wp_fallible; [exact He |].
  intros Hr. exact (Hv Hr).
Qed.

Lemma wp_createWritable handle Qv Qe w :
  (rejects (ioCalls w) = true -> Qe FileSystemFailed (tick w)) ->
  (rejects (ioCalls w) = false ->
   Qv {| target := handle; swap := EmptyString |} (tick w)) ->
  wp (createWritable rejects handle) Qv Qe w.
Proof.
  intros He Hv. unfold createWritable. apply wp_bind, wp_fallible; [exact He |].
  intros Hr. apply wp_ret, Hv, Hr.
Qed.

Lemma wp_write writable data Qv Qe w :
  (rejects (ioCalls w) = true -> Qe FileSystemFailed (tick w)) ->
  (rejects (ioCalls w) = false ->
   Qv {| target := target writable; swap := swap writable +:+ data |} (tick w)) ->
  wp (write rejects writable data) Qv Qe w.
Proof.
  intros He Hv. unfold write. apply wp_bind, wp_fallible; [exact He |].
  intros Hr. apply wp_ret, Hv, Hr.
Qed.

Lemma wp_close writable Qv Qe w :
  (rejects (ioCalls w) = true -> Qe FileSystemFailed (tick w)) ->
  (rejects (ioCalls w) = false ->
   Qv tt (setFiles (<[target writable := swap writable]> (files w)) (tick w))) ->
  wp (close rejects writable) Qv Qe w.
Proof.
  intros He Hv. unfold close. apply wp_bind, wp_fallible; [exact He |].
  intros Hr. exact (Hv Hr).
Qed.

Lemma wp_pipeTo body writable Qv Qe w :
  (rejects (ioCalls w) = true -> Qe FileSystemFailed (tick w)) ->
  (rejects (ioCalls w) = false ->
   Qv tt (setFiles (<[target writable := swap writable +:+ body]> (files w)) (tick w))) ->
  wp (pipeTo rejects body writable) Qv Qe w.
Proof.
  intros He Hv. unfold pipeTo. apply wp_bind, wp_fallible; [exact He |].
  intros Hr. exact (Hv Hr).
Qed.

Lemma wp_fetch network url Qv Qe w :
  (network url = NetworkError -> Qe FetchFailed (setFetched (url :: fetched w) w)) ->
  (forall ok contentType body,
     network url = Response ok contentType body ->
     Qv (Response ok contentType body) (setFetched (url :: fetched w) w)) ->
  wp (fetch network url) Qv Qe w.
Proof.
  intros He Hv. unfold wp, fetch.
  destruct (network url) as [| ok contentType body] eqn:E; [apply He | apply Hv]; reflexivity.
Qed.

Lemma wp_incrDownloadedTiles Qv Qe w :
  Qv tt (setDownloadedTiles (downloadedTiles w + 1) w) -> wp incrDownloadedTiles Qv Qe w.
Proof. intros H. exact H. Qed.

Lemma wp_incrDownloadedLevelTiles Qv Qe w :
  Qv tt (setDownloadedLevelTiles (downloadedLevelTiles w + 1) w) ->
  wp incrDownloadedLevelTiles Qv Qe w.
Proof. intros H. exact H. Qed.

Lemma wp_getDownloadedTiles Qv Qe w :
  Qv (downloadedTiles w) w -> wp getDownloadedTiles Qv Qe w.
Proof. intros H. exact H. Qed.

Lemma wp_getDownloadedLevelTiles Qv Qe w :
  Qv (downloadedLevelTiles w) w -> wp getDownloadedLevelTiles Qv Qe w.
Proof. intros H. exact H. Qed.

Lemma wp_setProgress fraction message Qv Qe w :
  Qv tt (setProgressLog ((fraction, message) :: progress w) w) ->
  wp (setProgress fraction message) Qv Qe w.
Proof. intros H. exact H. Qed.

End Wp.

(** One step of a computation: the rule of its head call. *)
Ltac wp_step :=
  lazymatch goal with
  | |- wp (bind _ _) _ _ _ => apply wp_bind
  | |- wp (ret _) _ _ _ => apply wp_ret
  | |- wp (fileExists _ _) _ _ _ => apply wp_fileExists
  | |- wp (getFileHandle _ _ _) _ _ _ => apply wp_getFileHandle; intros _
  | |- wp (createWritable _ _) _ _ _ => apply wp_createWritable; intros _
  | |- wp (write _ _ _) _ _ _ => apply wp_write; intros _
  | |- wp (close _ _) _ _ _ => apply wp_close; intros _
  | |- wp (pipeTo _ _ _) _ _ _ => apply wp_pipeTo; intros _
  | |- wp (fetch _ _) _ _ _ => apply wp_fetch; [intros ?Hnet | intros ?ok ?contentType ?data ?Hnet]
  | |- wp incrDownloadedTiles _ _ _ => apply wp_incrDownloadedTiles
  | |- wp incrDownloadedLevelTiles _ _ _ => apply wp_incrDownloadedLevelTiles
  | |- wp getDownloadedTiles _ _ _ => apply wp_getDownloadedTiles
  | |- wp getDownloadedLevelTiles _ _ _ => apply wp_getDownloadedLevelTiles
  | |- wp (setProgress _ _) _ _ _ => apply wp_setProgress
  end;
  cbv beta iota.

(** Both branches of a conditional. *)
Ltac wp_if :=
  lazymatch goal with
  | |- wp (if ?b then _ else _) _ _ _ => destruct b
  end;
  cbv beta iota.

(** ** Files of one tile *)

Lemma filePath_inj names ext1 ext2 :
  filePath names ext1 = filePath names ext2 -> ext1 = ext2.
Proof.
  unfold filePath. intros E.
  apply (inj (String.app _)) in E. apply (inj (String.app _)) in E.
  apply (inj (String.app _)) in E. exact E.
Qed.

Lemma handle_ne (Ldir : string) names ext1 ext2 :
  ext1 <> ext2 -> (Ldir, filePath names ext1) <> (Ldir, filePath names ext2).
Proof. intros Hne E. injection E as E. apply Hne, (filePath_inj names), E. Qed.

Lemma lookup_touch_eq (k : FileHandle) (fs : gmap (string * string) string) :
  touch k fs !! k = Some (default EmptyString (fs !! k)).
Proof.
  unfold touch. destruct (fs !! k) eqn:E; [exact E | apply lookup_insert_eq].
Qed.

Lemma lookup_touch_ne (k k' : FileHandle) (fs : gmap (string * string) string) :
  k <> k' -> touch k fs !! k' = fs !! k'.
Proof.
  intros Hne. unfold touch. destruct (fs !! k); [reflexivity | apply lookup_insert_ne, Hne].
Qed.

Lemma touch_present (k : FileHandle) (fs : gmap (string * string) string) :
  is_Some (fs !! k) -> touch k fs = fs.
Proof. intros [v Hv]. unfold touch. rewrite Hv. reflexivity. Qed.

Lemma insert_touch (k : FileHandle) (v : string) (fs : gmap (string * string) string) :
  <[k := v]> (touch k fs) = <[k := v]> fs.
Proof.
  unfold touch. destruct (fs !! k); [reflexivity | apply insert_insert_eq].
Qed.

(** Projections of an updated world. *)
Ltac world_simpl :=
  cbn [files fetched warned downloadedTiles downloadedLevelTiles progress ioCalls
       tick setFiles setFetched setWarned setDownloadedTiles setDownloadedLevelTiles
       setProgressLog target swap console_warn].

(** Lookups of the files of one tile in an updated directory. *)
Ltac files_lookup :=
  repeat first
    [ rewrite lookup_insert_eq
    | rewrite lookup_insert_ne by (apply handle_ne; discriminate)
    | rewrite lookup_touch_eq
    | rewrite lookup_touch_ne by (apply handle_ne; discriminate) ].

(** ** The task of one tile *)

Section TaskFacts.

Variable renderOther : Q -> string.
Variable network : string -> FetchResult.
Variable rejects : nat -> bool.
Variable metadata : Metadata.
Variable bbox : Extent.

Local Abbreviation body := (tileBody renderOther network rejects metadata bbox).
Local Abbreviation task := (tileTask renderOther network rejects metadata bbox).

Lemma tileBody_counters Ldir lod totalLevelTiles x y w :
  wp (body Ldir lod totalLevelTiles x y)
    (fun _ w' =>
       downloadedTiles w' = downloadedTiles w + 1
       /\ downloadedLevelTiles w' = downloadedLevelTiles w + 1
       /\ warned w' = warned w)
    (fun _ w' =>
       downloadedTiles w' = downloadedTiles w
       /\ downloadedLevelTiles w' = downloadedLevelTiles w
       /\ warned w' = warned w)
    w.
Proof.
  unfold tileBody. cbv zeta.
  repeat wp_step.
  repeat match goal with
         | |- context [bool_decide (is_Some (files ?w0 !! ?k))] =>
             destruct (bool_decide (is_Some (files w0 !! k)))
         end;
    cbn [negb andb]; repeat first [wp_step | wp_if].
  all: try (cbn [downloadedTiles downloadedLevelTiles warned tick setFiles setFetched
                  setDownloadedTiles setDownloadedLevelTiles setProgressLog];
            repeat split; reflexivity).
Qed.

(** C10. A task whose body throws (a rejected fetch, a rejected
    file-system call) leaves [downloadedTiles] and [downloadedLevelTiles]
    as they were, and its handler logs the warning; a task whose body
    runs to its end adds exactly one to each counter and logs nothing. *)
Theorem tileTask_counters Ldir lod totalLevelTiles x y w :
  match body Ldir lod totalLevelTiles x y w with
  | (inr _, _) =>
      downloadedTiles (task Ldir lod totalLevelTiles x y w) = downloadedTiles w + 1
      /\ downloadedLevelTiles (task Ldir lod totalLevelTiles x y w)
         = downloadedLevelTiles w + 1
      /\ warned (task Ldir lod totalLevelTiles x y w) = warned w
  | (inl _, _) =>
      downloadedTiles (task Ldir lod totalLevelTiles x y w) = downloadedTiles w
      /\ downloadedLevelTiles (task Ldir lod totalLevelTiles x y w) = downloadedLevelTiles w
      /\ warned (task Ldir lod totalLevelTiles x y w)
         = ["Missing tile:"; tileUrl metadata lod x y] :: warned w
  end.
Proof.
  pose proof (tileBody_counters Ldir lod totalLevelTiles x y w) as H.
  unfold wp in H. unfold tileTask, tryCatch.
  destruct (body Ldir lod totalLevelTiles x y w) as [[e | []] w'].
  - destruct H as (H1 & H2 & H3). cbn [console_warn setWarned downloadedTiles
      downloadedLevelTiles warned]. rewrite H1, H2, H3. auto.
  - exact H.
Qed.

Lemma tileBody_fetched_format Ldir lod totalLevelTiles x y w contentType data :
  files w !! (Ldir, filePath (tileNames lod x y) "png") = None ->
  files w !! (Ldir, filePath (tileNames lod x y) "jpeg") = None ->
  network (tileUrl metadata lod x y) = Response true contentType data ->
  wp (body Ldir lod totalLevelTiles x y)
    (fun _ w' =>
       let content :=
         worldFileContent renderOther metadata (tileSize metadata) (resolution lod) x y in
       if bool_decide (contentType = Some "image/png")
       then files w' !! (Ldir, filePath (tileNames lod x y) "png") = Some data
            /\ files w' !! (Ldir, filePath (tileNames lod x y) "jpeg") = None
            /\ files w' !! (Ldir, filePath (tileNames lod x y) "pgw") = Some content
            /\ files w' !! (Ldir, filePath (tileNames lod x y) "jgw")
               = files w !! (Ldir, filePath (tileNames lod x y) "jgw")
       else files w' !! (Ldir, filePath (tileNames lod x y) "jpeg") = Some data
            /\ files w' !! (Ldir, filePath (tileNames lod x y) "png") = None
            /\ files w' !! (Ldir, filePath (tileNames lod x y) "jgw") = Some content
            /\ files w' !! (Ldir, filePath (tileNames lod x y) "pgw")
               = files w !! (Ldir, filePath (tileNames lod x y) "pgw"))
    (fun _ _ => True)
    w.
Proof.
  intros Hpng Hjpeg Hnet. unfold tileBody. cbv zeta. fold (tileNames lod x y).
  repeat wp_step. rewrite Hpng, Hjpeg.
  change (bool_decide (is_Some (@None string))) with false. cbn [negb andb].
  wp_step. wp_step; [rewrite Hnet in *; discriminate |].
  rewrite Hnet in *. match goal with H : Response _ _ _ = Response _ _ _ |- _ =>
    injection H as <- <- <- end.
  repeat wp_step; try exact I.
  world_simpl. cbv zeta. rewrite !insert_touch, !append_nil.
  unfold imageTypeOf. destruct (bool_decide (contentType = Some "image/png")).
  - change (worldFileExt (Some "png")) with "pgw".
    repeat split; files_lookup; auto.
  - change (worldFileExt (Some "jpeg")) with "jgw".
    repeat split; files_lookup; auto.
Qed.

(** C9. For a tile that is fetched with success and written without a
    rejected call, the image is stored as [.png] exactly when the
    Content-Type header is ["image/png"] and as [.jpeg] otherwise, and
    the world file is the [.pgw] of the PNG case and the [.jgw] of the
    JPEG case; the file of the other suffix is left as it was. *)
Theorem tileBody_format Ldir lod totalLevelTiles x y w contentType data w' :
  files w !! (Ldir, filePath (tileNames lod x y) "png") = None ->
  files w !! (Ldir, filePath (tileNames lod x y) "jpeg") = None ->
  network (tileUrl metadata lod x y) = Response true contentType data ->
  body Ldir lod totalLevelTiles x y w = (inr tt, w') ->
  let content :=
    worldFileContent renderOther metadata (tileSize metadata) (resolution lod) x y in
  if bool_decide (contentType = Some "image/png")
  then files w' !! (Ldir, filePath (tileNames lod x y) "png") = Some data
       /\ files w' !! (Ldir, filePath (tileNames lod x y) "jpeg") = None
       /\ files w' !! (Ldir, filePath (tileNames lod x y) "pgw") = Some content
       /\ files w' !! (Ldir, filePath (tileNames lod x y) "jgw")
          = files w !! (Ldir, filePath (tileNames lod x y) "jgw")
  else files w' !! (Ldir, filePath (tileNames lod x y) "jpeg") = Some data
       /\ files w' !! (Ldir, filePath (tileNames lod x y) "png") = None
       /\ files w' !! (Ldir, filePath (tileNames lod x y) "jgw") = Some content
       /\ files w' !! (Ldir, filePath (tileNames lod x y) "pgw")
          = files w !! (Ldir, filePath (tileNames lod x y) "pgw").
Proof.
  intros Hpng Hjpeg Hnet Hrun.
  pose proof (tileBody_fetched_format Ldir lod totalLevelTiles x y w contentType data
                Hpng Hjpeg Hnet) as H.
  unfold wp in H. rewrite Hrun in H. exact H.
Qed.


End TaskFacts.

(** ** A second run over the same directory *)

Section Idempotence.

Variable renderOther : Q -> string.
Variable metadata : Metadata.
Variable bbox : Extent.



End Idempotence.

(** ** Worked runs of one task *)

(** A witness: the PNG tile of level 2, column 5, row 5 fetched into an
    empty directory. *)
Lemma tileBody_format_witness :
  files emptyWorld !! ("L02", filePath (tileNames level2 5 5) "png") = None
  /\ files emptyWorld !! ("L02", filePath (tileNames level2 5 5) "jpeg") = None
  /\ servesPng (tileUrl threeLevels level2 5 5) = Response true (Some "image/png") "PNG"
  /\ (let w' :=
        snd (tileBody noRender servesPng noFaults threeLevels southExtent
               "L02" level2 2 5 5 emptyWorld) in
      let content := worldFileContent noRender threeLevels (tileSize threeLevels) 1 5 5 in
      files w' !! ("L02", filePath (tileNames level2 5 5) "png") = Some "PNG"
      /\ files w' !! ("L02", filePath (tileNames level2 5 5) "jpeg") = None
      /\ files w' !! ("L02", filePath (tileNames level2 5 5) "pgw") = Some content
      /\ files w' !! ("L02", filePath (tileNames level2 5 5) "jgw")
         = files emptyWorld !! ("L02", filePath (tileNames level2 5 5) "jgw")).
Proof.
  assert (H1 : files emptyWorld !! ("L02", filePath (tileNames level2 5 5) "png") = None)
    by reflexivity.
  assert (H2 : files emptyWorld !! ("L02", filePath (tileNames level2 5 5) "jpeg") = None)
    by reflexivity.
  assert (H3 : servesPng (tileUrl threeLevels level2 5 5)
               = Response true (Some "image/png") "PNG") by reflexivity.
  assert (H4 : tileBody noRender servesPng noFaults threeLevels southExtent
                 "L02" level2 2 5 5 emptyWorld
               = (inr tt, snd (tileBody noRender servesPng noFaults threeLevels
                                 southExtent "L02" level2 2 5 5 emptyWorld)))
    by (vm_compute; reflexivity).
  exact (conj H1 (conj H2 (conj H3
    (tileBody_format noRender servesPng noFaults threeLevels southExtent
       "L02" level2 2 5 5 emptyWorld (Some "image/png") "PNG" _ H1 H2 H3 H4)))).
Defined.


(** The body throws on a rejected fetch and on a rejected write; the
    counters stay at zero and the handler logs the tile. *)
Example tileTask_throws :
  (let w' :=
     tileTask noRender (fun _ => NetworkError) noFaults threeLevels southExtent
       "L02" level2 2 5 5 emptyWorld in
   fst (tileBody noRender (fun _ => NetworkError) noFaults threeLevels southExtent
          "L02" level2 2 5 5 emptyWorld) = inl FetchFailed
   /\ downloadedTiles w' = 0 /\ downloadedLevelTiles w' = 0
   /\ warned w' = [["Missing tile:"; "https://tiles.example/arcgis/tile/2/5/5"]])
  /\ (let w' :=
        tileTask noRender servesPng (fun rank => Nat.eqb rank 2) threeLevels southExtent
          "L02" level2 2 5 5 emptyWorld in
      fst (tileBody noRender servesPng (fun rank => Nat.eqb rank 2) threeLevels
             southExtent "L02" level2 2 5 5 emptyWorld) = inl FileSystemFailed
      /\ downloadedTiles w' = 0 /\ downloadedLevelTiles w' = 0
      /\ warned w' = [["Missing tile:"; "https://tiles.example/arcgis/tile/2/5/5"]]).
Proof. split; vm_compute; repeat split. Qed.

(** ** A tile the server does not have *)

(** [wp_step] where no file-system call rejects. *)
Ltac wp_step_ok Hall :=
  lazymatch goal with
  | |- wp (getFileHandle _ _ _) _ _ _ => apply wp_getFileHandle
  | |- wp (createWritable _ _) _ _ _ => apply wp_createWritable
  | |- wp (write _ _ _) _ _ _ => apply wp_write
  | |- wp (close _ _) _ _ _ => apply wp_close
  | |- wp (pipeTo _ _ _) _ _ _ => apply wp_pipeTo
  end;
  [ let Hrej := fresh "Hrej" in intros Hrej; rewrite Hall in Hrej; discriminate Hrej
  | intros _ ];
  cbv beta iota.

(** What the task does for every tile the server answers with a
    non-success status, when the tile is not on disk and no file-system
    call rejects: the [.jgw] world file is written, the tile is counted,
    and nothing is logged. *)
Lemma tileTask_not_ok renderOther network rejects metadata bbox
    Ldir lod totalLevelTiles x y w contentType data :
  files w !! (Ldir, filePath (tileNames lod x y) "png") = None ->
  files w !! (Ldir, filePath (tileNames lod x y) "jpeg") = None ->
  network (tileUrl metadata lod x y) = Response false contentType data ->
  (forall rank, rejects rank = false) ->
  let w' := tileTask renderOther network rejects metadata bbox
              Ldir lod totalLevelTiles x y w in
  files w'
  = <[(Ldir, filePath (tileNames lod x y) "jgw")
      := worldFileContent renderOther metadata (tileSize metadata) (resolution lod) x y]>
      (files w)
  /\ fetched w' = tileUrl metadata lod x y :: fetched w
  /\ warned w' = warned w
  /\ downloadedTiles w' = downloadedTiles w + 1
  /\ downloadedLevelTiles w' = downloadedLevelTiles w + 1.
Proof.
  intros Hpng Hjpeg Hnet Hall w'.
  assert (H : wp (tileBody renderOther network rejects metadata bbox
                    Ldir lod totalLevelTiles x y)
                (fun _ w1 =>
                   files w1
                   = <[(Ldir, filePath (tileNames lod x y) "jgw")
                       := worldFileContent renderOther metadata (tileSize metadata)
                            (resolution lod) x y]> (files w)
                   /\ fetched w1 = tileUrl metadata lod x y :: fetched w
                   /\ warned w1 = warned w
                   /\ downloadedTiles w1 = downloadedTiles w + 1
                   /\ downloadedLevelTiles w1 = downloadedLevelTiles w + 1)
                (fun _ _ => False) w).
  { unfold tileBody. cbv zeta. fold (tileNames lod x y).
    repeat wp_step. rewrite Hpng, Hjpeg.
    change (bool_decide (is_Some (@None string))) with false. cbn [negb andb].
    wp_step. wp_step; [rewrite Hnet in *; discriminate |].
    rewrite Hnet in *.
    match goal with
    | Heq : Response _ _ _ = Response _ _ _ |- _ => injection Heq as <- <- <-
    end.
    repeat first [wp_step_ok Hall | wp_step].
    world_simpl. change (worldFileExt None) with "jgw".
    rewrite insert_touch, append_nil. repeat split. }
  unfold wp in H. subst w'. unfold tileTask, tryCatch.
  destruct (tileBody renderOther network rejects metadata bbox Ldir lod
              totalLevelTiles x y w) as [[e | []] w1]; [destruct H | exact H].
Qed.

(** C1, on the code. The tile [(2,5,5)] is answered 404 in an empty
    directory: no exception is thrown, so the task writes the [.jgw]
    world file of the tile, counts the tile as downloaded and logs no
    warning.  The run goes on: over an extent whose finest level holds
    the tiles [(5,5)] and [(5,6)], with a server that has only the
    latter, the run ends normally with every tile requested, the image
    and the [.pgw] of [(5,6)] stored, and a [.jgw] for each missing tile. *)
Theorem missing_tile_gets_sidecar (renderOther : Q -> string) :
  let content := JSString.join LF ["1.000000"; "0"; "0"; "-1"; "1280"; "-1280"] in
  (let w' :=
     tileTask renderOther notFound noFaults threeLevels southExtent
       "L02" level2 2 5 5 emptyWorld in
   files w' = {[ ("L02", "R00000005C00000005.jgw") := content ]}
   /\ fetched w' = ["https://tiles.example/arcgis/tile/2/5/5"]
   /\ warned w' = []
   /\ downloadedTiles w' = 1
   /\ downloadedLevelTiles w' = 1)
  /\ (let run :=
        downloadAllLevelsForArcGIS renderOther onlyRow6 noFaults threeLevels southExtent
          true emptyWorld in
      fst run = inr tt
      /\ files (snd run) !! ("L02", "R00000005C00000005.png") = None
      /\ files (snd run) !! ("L02", "R00000005C00000005.jpeg") = None
      /\ files (snd run) !! ("L02", "R00000005C00000005.jgw") = Some content
      /\ files (snd run) !! ("L02", "R00000006C00000005.png") = Some "PNG-2-6-5"
      /\ is_Some (files (snd run) !! ("L02", "R00000006C00000005.pgw"))
      /\ is_Some (files (snd run) !! ("L02", "convert.sh"))
      /\ fetched (snd run)
         = ["https://tiles.example/arcgis/tile/2/6/5";
            "https://tiles.example/arcgis/tile/2/5/5";
            "https://tiles.example/arcgis/tile/1/3/2";
            "https://tiles.example/arcgis/tile/1/2/2";
            "https://tiles.example/arcgis/tile/0/1/1"]
      /\ warned (snd run) = []
      /\ downloadedTiles (snd run) = 5).
Proof. split; vm_compute; repeat split; eexists; reflexivity. Qed.

(** ** Georeference sidecar *)



(** ** Total tile count and overall progress *)

Lemma fold_left_add_shift (count : Lod -> Z) (levels : list Lod) (acc : Z) :
  fold_left (fun a lod => a + count lod) levels acc
  = acc + sumOverLevels count levels.
Proof.
  unfold sumOverLevels. revert acc.
  induction levels as [| lod levels IH]; intros acc; cbn [fold_left map foldr].
  - lia.
  - rewrite IH. lia.
Qed.

Section ProgressFacts.

Variable renderOther : Q -> string.
Variable network : string -> FetchResult.
Variable rejects : nat -> bool.
Variable metadata : Metadata.
Variable bbox : Extent.

Lemma tileBody_progress Ldir lod totalLevelTiles x y w :
  wp (tileBody renderOther network rejects metadata bbox Ldir lod totalLevelTiles x y)
    (fun _ w' =>
       progress w'
       = ((inject_Z (downloadedTiles w + 1) / inject_Z (totalTiles metadata bbox))%Q,
          levelMessage metadata lod (downloadedLevelTiles w + 1) totalLevelTiles)
         :: progress w)
    (fun _ w' => progress w' = progress w)
    w.
Proof.
  unfold tileBody. cbv zeta. repeat wp_step.
  repeat match goal with
         | |- context [bool_decide (is_Some (files ?w0 !! ?k))] =>
             destruct (bool_decide (is_Some (files w0 !! k)))
         end;
    cbn [negb andb]; repeat first [wp_step | wp_if]; reflexivity.
Qed.

End ProgressFacts.

Section RunProgress.

Variable renderOther : Q -> string.
Variable network : string -> FetchResult.
Variable rejects : nat -> bool.
Variable metadata : Metadata.
Variable bbox : Extent.

Lemma reportsOver_refl total w w' : progress w' = progress w -> reportsOver total w w'.
Proof. intros E. exists []. split; [exact E | constructor]. Qed.

Lemma reportsOver_trans total w1 w2 w3 :
  reportsOver total w1 w2 -> reportsOver total w2 w3 -> reportsOver total w1 w3.
Proof.
  intros (n1 & E1 & F1) (n2 & E2 & F2). exists (n2 ++ n1)%list. split.
  - rewrite E2, E1, app_assoc. reflexivity.
  - apply Forall_app; split; assumption.
Qed.

Lemma reportsOver_cons total w w' entry :
  progress w' = entry :: progress w ->
  (fst entry = 0%Q \/ exists done, fst entry = (inject_Z done / inject_Z total)%Q) ->
  reportsOver total w w'.
Proof.
  intros E H. exists [entry]. split; [exact E | constructor; [exact H | constructor]].
Qed.

Lemma tileTask_reportsOver Ldir lod totalLevelTiles x y w :
  reportsOver (totalTiles metadata bbox) w
    (tileTask renderOther network rejects metadata bbox Ldir lod totalLevelTiles x y w).
Proof.
  pose proof (tileBody_progress renderOther network rejects metadata bbox
                Ldir lod totalLevelTiles x y w) as H.
  unfold wp in H. unfold tileTask, tryCatch.
  destruct (tileBody renderOther network rejects metadata bbox Ldir lod
              totalLevelTiles x y w) as [[e | []] w'].
  - apply reportsOver_refl. cbn [console_warn setWarned progress]. exact H.
  - eapply reportsOver_cons; [exact H |]. right. eexists. reflexivity.
Qed.

Lemma runTasks_reportsOver Ldir lod totalLevelTiles tiles w :
  reportsOver (totalTiles metadata bbox) w
    (runTasks renderOther network rejects metadata bbox Ldir lod totalLevelTiles tiles w).
Proof.
  unfold runTasks. revert w.
  induction tiles as [| [x y] tiles IH]; intros w; cbn [fold_left].
  - apply reportsOver_refl. reflexivity.
  - eapply reportsOver_trans; [apply tileTask_reportsOver | apply IH].
Qed.

Lemma wp_weaken {A} (m : M A) (Qv Qv' : A -> World -> Prop) (Qe Qe' : Exn -> World -> Prop) w :
  wp m Qv Qe w ->
  (forall a w', Qv a w' -> Qv' a w') -> (forall e w', Qe e w' -> Qe' e w') ->
  wp m Qv' Qe' w.
Proof.
  unfold wp. destruct (m w) as [[e | a] w']; intros H Hv He; [apply He | apply Hv]; exact H.
Qed.

Lemma runLevel_reportsOver lod w0 w :
  reportsOver (totalTiles metadata bbox) w0 w ->
  wp (runLevel renderOther network rejects metadata bbox lod)
    (fun _ w' => reportsOver (totalTiles metadata bbox) w0 w')
    (fun _ w' => reportsOver (totalTiles metadata bbox) w0 w')
    w.
Proof.
  intros Hw. unfold runLevel, getDirectoryHandle. cbv zeta.
  apply wp_bind, wp_bind, wp_fallible; intros _; [exact Hw |].
  apply wp_ret, wp_bind. unfold wp at 1. cbv beta iota.
  apply wp_bind, wp_setProgress, wp_bind. unfold wp at 1. cbv beta iota.
  match goal with
  | |- wp _ _ _ ?w1 =>
      assert (Hw1 : reportsOver (totalTiles metadata bbox) w0 w1)
  end.
  { eapply reportsOver_trans; [exact Hw |].
    eapply reportsOver_trans; [| apply runTasks_reportsOver].
    eapply reportsOver_cons; [reflexivity | left; reflexivity]. }
  revert Hw1. generalize (runTasks renderOther network rejects metadata bbox
                            (levelDirName lod) lod
                            (tileCount (tileRangeForExtent (tileGrid metadata) bbox
                                          (resolution lod)))
                            (tilesOf (tileRangeForExtent (tileGrid metadata) bbox
                                        (resolution lod)))
                            (setProgressLog
                               ((0%Q, levelStartMessage metadata bbox lod)
                                :: progress (setDownloadedLevelTiles 0 (tick w)))
                               (setDownloadedLevelTiles 0 (tick w)))).
  intros w1 Hw1.
  repeat wp_step; world_simpl;
    (eapply reportsOver_trans; [exact Hw1 | apply reportsOver_refl; reflexivity]).
Qed.

Lemma forEachLevel_reportsOver levels w0 w :
  reportsOver (totalTiles metadata bbox) w0 w ->
  wp (forEachLevel renderOther network rejects metadata bbox levels)
    (fun _ w' => reportsOver (totalTiles metadata bbox) w0 w')
    (fun _ w' => reportsOver (totalTiles metadata bbox) w0 w')
    w.
Proof.
  revert w. induction levels as [| lod levels IH]; intros w Hw; cbn [forEachLevel].
  - apply wp_ret, Hw.
  - apply wp_bind.
    eapply wp_weaken; [apply runLevel_reportsOver, Hw | | intros e w' H; exact H].
    intros [] w' H. apply IH, H.
Qed.

Lemma downloadAll_reportsOver hasDirectoryPicker w :
  wp (downloadAllLevelsForArcGIS renderOther network rejects metadata bbox
        hasDirectoryPicker)
    (fun _ w' => reportsOver (totalTiles metadata bbox) w w')
    (fun _ w' => reportsOver (totalTiles metadata bbox) w w')
    w.
Proof.
  unfold downloadAllLevelsForArcGIS, getDirectoryHandle.
  destruct hasDirectoryPicker; cbn [negb].
  - apply wp_bind, wp_fallible; intros _; [apply reportsOver_refl; reflexivity |].
    apply wp_bind, wp_bind, wp_fallible; intros _; [apply reportsOver_refl; reflexivity |].
    apply wp_ret, wp_bind. unfold wp at 1. cbv beta iota.
    apply forEachLevel_reportsOver, reportsOver_refl. reflexivity.
  - apply wp_ret, reportsOver_refl. reflexivity.
Qed.

End RunProgress.

(** C6. [totalTiles] is the sum over the levels of the descriptor of
    [(maxX - minX + 1) * (maxY - minY + 1)] for the range of the level;
    it is a function of the descriptor and the extent alone; every task
    that runs to its end reports the progress [downloadedTiles /
    totalTiles] over that total, and every progress report of a whole
    run is 0 (the start of a level) or a count over that same total. *)
Theorem totalTiles_sum (metadata : Metadata) (bbox : Extent) :
  let total :=
    sumOverLevels
      (fun lod =>
         let range := tileRangeForExtent (tileGrid metadata) bbox (resolution lod) in
         (maxX range - minX range + 1) * (maxY range - minY range + 1))
      (lods (tileInfo metadata)) in
  totalTiles metadata bbox = total
  /\ (forall renderOther network rejects Ldir lod totalLevelTiles x y w,
        match tileBody renderOther network rejects metadata bbox
                Ldir lod totalLevelTiles x y w with
        | (inr _, w') =>
            progress w'
            = ((inject_Z (downloadedTiles w + 1) / inject_Z total)%Q,
               levelMessage metadata lod (downloadedLevelTiles w + 1) totalLevelTiles)
              :: progress w
        | (inl _, w') => progress w' = progress w
        end)
  /\ (forall renderOther network rejects hasDirectoryPicker w,
        reportsOver total w
          (snd (downloadAllLevelsForArcGIS renderOther network rejects metadata bbox
                  hasDirectoryPicker w))).
Proof.
  intros total.
  assert (Hsum : totalTiles metadata bbox = total).
  { unfold totalTiles, tileCount, total. rewrite fold_left_add_shift. cbv zeta. lia. }
  split; [exact Hsum |]. rewrite <- Hsum. split.
  - intros renderOther network rejects Ldir lod totalLevelTiles x y w.
    exact (tileBody_progress renderOther network rejects metadata bbox
             Ldir lod totalLevelTiles x y w).
  - intros renderOther network rejects hasDirectoryPicker w.
    pose proof (downloadAll_reportsOver renderOther network rejects metadata bbox
                  hasDirectoryPicker w) as H.
    unfold wp in H.
    destruct (downloadAllLevelsForArcGIS renderOther network rejects metadata bbox
                hasDirectoryPicker w) as [[e | []] w']; exact H.
Qed.

(** The totals of the two extents over three levels: 1 + 4 + 9 tiles
    and 1 + 2 + 2 tiles. *)
Example totalTiles_threeLevels :
  totalTiles threeLevels exampleExtent = 14 /\ totalTiles threeLevels southExtent = 5.
Proof. split; reflexivity. Qed.

(** The tiles of the finest level of the extent south of the origin, in
    submission order. *)
Example tilesOf_southExtent :
  tilesOf (tileRangeForExtent (tileGrid threeLevels) southExtent (resolution level2))
  = [(5, 5); (5, 6)].
Proof. reflexivity. Qed.

(** ** The bounded pool and the level barrier *)

Module PoolFacts.
Import Pool.












End PoolFacts.



(** * Further properties *)

(** ** The nested loops over a range *)

Lemma elem_of_upTo (lo hi z : Z) : z ∈ upTo lo hi <-> lo <= z <= hi.
Proof.
  unfold upTo. rewrite list_elem_of_fmap. split.
  - intros (i & -> & Hi). apply elem_of_seq in Hi. lia.
  - intros Hz. exists (Z.to_nat (z - lo)). split; [lia |]. apply elem_of_seq. lia.
Qed.

Lemma NoDup_upTo (lo hi : Z) : NoDup (upTo lo hi).
Proof.
  unfold upTo. apply NoDup_fmap_2; [| apply NoDup_seq].
  intros i j E. lia.
Qed.

Lemma length_upTo (lo hi : Z) : Z.of_nat (length (upTo lo hi)) = Z.max 0 (hi - lo + 1).
Proof. unfold upTo. rewrite length_map, length_seq. lia. Qed.

Lemma length_bind_const {A B} (f : A -> list B) (n : nat) (l : list A) :
  (forall a, length (f a) = n) -> length (l ≫= f) = (length l * n)%nat.
Proof.
  intros Hf. induction l as [| a l IH]; [reflexivity |].
  rewrite bind_cons, length_app, IH, Hf. reflexivity.
Qed.

Lemma elem_of_tilesOf (range : TileRange) (x y : Z) :
  (x, y) ∈ tilesOf range
  <-> minX range <= x <= maxX range /\ minY range <= y <= maxY range.
Proof.
  unfold tilesOf. rewrite list_elem_of_bind. split.
  - intros (x' & Hy & Hx). apply list_elem_of_bind in Hy as (y' & Hxy & Hy).
    apply list_elem_of_singleton in Hxy. injection Hxy as -> ->.
    apply elem_of_upTo in Hx, Hy. auto.
  - intros [Hx Hy]. exists x. split; [| apply elem_of_upTo, Hx].
    apply list_elem_of_bind. exists y. split; [apply list_elem_of_singleton; reflexivity |].
    apply elem_of_upTo, Hy.
Qed.

Lemma length_tilesOf (range : TileRange) :
  Z.of_nat (length (tilesOf range))
  = Z.max 0 (maxX range - minX range + 1) * Z.max 0 (maxY range - minY range + 1).
Proof.
  unfold tilesOf.
  rewrite (length_bind_const _ (length (upTo (minY range) (maxY range)))).
  - rewrite Nat2Z.inj_mul, !length_upTo. reflexivity.
  - intros x. rewrite (length_bind_const _ 1%nat); [lia | reflexivity].
Qed.

Lemma NoDup_tilesOf (range : TileRange) : NoDup (tilesOf range).
Proof.
  unfold tilesOf. apply NoDup_bind; [| | apply NoDup_upTo].
  - intros x1 x2 [x y] _ _ H1 H2.
    apply list_elem_of_bind in H1 as (y1 & H1 & _), H2 as (y2 & H2 & _).
    apply list_elem_of_singleton in H1, H2. congruence.
  - intros x _. apply NoDup_bind; [| | apply NoDup_upTo].
    + intros y1 y2 xy _ _ H1 H2. apply list_elem_of_singleton in H1, H2. congruence.
    + intros y _. apply NoDup_singleton.
Qed.

(** X1. The nested [for] loops submit exactly the tiles of the range,
    each one once and in no other number: a tile [(x, y)] is submitted
    if and only if [minX <= x <= maxX] and [minY <= y <= maxY], and the
    number of tasks is the product of the two loop lengths, each one
    zero when its upper bound is below its lower bound. *)
Theorem tilesOf_exact (range : TileRange) :
  (forall x y,
     (x, y) ∈ tilesOf range
     <-> minX range <= x <= maxX range /\ minY range <= y <= maxY range)
  /\ NoDup (tilesOf range)
  /\ Z.of_nat (length (tilesOf range))
     = Z.max 0 (maxX range - minX range + 1) * Z.max 0 (maxY range - minY range + 1).
Proof.
  split; [apply elem_of_tilesOf |]. split; [apply NoDup_tilesOf | apply length_tilesOf].
Qed.
(** The corner of a tile is what lines 5 and 6 of its world file show. *)
Lemma worldFileLines_upperLeft renderOther metadata sizePx resolution x y :
  worldFileLines renderOther metadata sizePx resolution x y !! 4%nat
  = Some (Number_toString renderOther (upperLeft metadata sizePx resolution x y).1)
  /\ worldFileLines renderOther metadata sizePx resolution x y !! 5%nat
    = Some (Number_toString renderOther (upperLeft metadata sizePx resolution x y).2).
Proof. split; reflexivity. Qed.





(** ** What a task writes and requests *)

Lemma writesOnly_refl keys fs : writesOnly keys fs fs.
Proof. intros k. split; auto. Qed.

Lemma writesOnly_insert keys fs fs1 k v :
  k ∈ keys -> writesOnly keys fs fs1 -> writesOnly keys fs (<[k := v]> fs1).
Proof.
  intros Hk H k'. destruct (H k') as [H1 H2]. split.
  - intros Hn. rewrite lookup_insert_ne by (intros ->; contradiction). auto.
  - intros Hs. destruct (decide (k = k')) as [-> | Hne].
    + rewrite lookup_insert_eq. eauto.
    + rewrite lookup_insert_ne by exact Hne. auto.
Qed.

Lemma writesOnly_touch keys fs fs1 k :
  k ∈ keys -> writesOnly keys fs fs1 -> writesOnly keys fs (touch k fs1).
Proof.
  intros Hk H. unfold touch. destruct (fs1 !! k); [exact H |].
  apply writesOnly_insert; assumption.
Qed.

Lemma writesOnly_trans keys fs1 fs2 fs3 :
  writesOnly keys fs1 fs2 -> writesOnly keys fs2 fs3 -> writesOnly keys fs1 fs3.
Proof.
  intros H12 H23 k. destruct (H12 k) as [A1 A2], (H23 k) as [B1 B2]. split.
  - intros Hn. rewrite B1, A1; auto.
  - auto.
Qed.

(** A suffix among the four a task writes. *)
Ltac suffix_elem :=
  repeat first [ apply elem_of_cons; left; reflexivity | apply elem_of_cons; right ].

Lemma worldFileExt_elem imageFileType : worldFileExt imageFileType ∈ ["png"; "jpeg"; "pgw"; "jgw"].
Proof. unfold worldFileExt. destruct (bool_decide _); suffix_elem. Qed.

Lemma imageTypeOf_elem contentType : imageTypeOf contentType ∈ ["png"; "jpeg"; "pgw"; "jgw"].
Proof. unfold imageTypeOf. destruct (bool_decide _); suffix_elem. Qed.

Lemma tileFiles_elem Ldir names ext :
  ext ∈ ["png"; "jpeg"; "pgw"; "jgw"] -> (Ldir, filePath names ext) ∈ tileFiles Ldir names.
Proof.
  intros H. unfold tileFiles. apply list_elem_of_fmap. exists ext. split; [reflexivity | exact H].
Qed.

(** A directory written by a chain of creations and replacements of
    files of the tile. *)
Ltac writes_only :=
  repeat first
    [ apply writesOnly_refl
    | apply writesOnly_insert;
        [apply tileFiles_elem; first [apply worldFileExt_elem | apply imageTypeOf_elem] |]
    | apply writesOnly_touch;
        [apply tileFiles_elem; first [apply worldFileExt_elem | apply imageTypeOf_elem] |] ].

Section TaskFrame.

Variable renderOther : Q -> string.
Variable network : string -> FetchResult.
Variable rejects : nat -> bool.
Variable metadata : Metadata.
Variable bbox : Extent.

Lemma tileBody_writesOnly Ldir lod totalLevelTiles x y w :
  wp (tileBody renderOther network rejects metadata bbox Ldir lod totalLevelTiles x y)
    (fun _ w' => writesOnly (tileFiles Ldir (tileNames lod x y)) (files w) (files w'))
    (fun _ w' => writesOnly (tileFiles Ldir (tileNames lod x y)) (files w) (files w'))
    w.
Proof.
  unfold tileBody. cbv zeta. fold (tileNames lod x y).
  repeat wp_step.
  repeat match goal with
         | |- context [bool_decide (is_Some (files ?w0 !! ?k))] =>
             destruct (bool_decide (is_Some (files w0 !! k)))
         end;
    cbn [negb andb]; repeat first [wp_step | wp_if]; world_simpl; writes_only.
Qed.

End TaskFrame.

(** X3. Whatever the server answers and whichever calls reject, a task
    creates or rewrites no file but the image and the world file of its
    own tile in its own level directory ([.png], [.jpeg], [.pgw],
    [.jgw]), and removes no file. *)
Theorem tileTask_writesOnly renderOther network rejects metadata bbox
    Ldir lod totalLevelTiles x y w :
  writesOnly (tileFiles Ldir (toArcGISNames (level lod) x y)) (files w)
    (files (tileTask renderOther network rejects metadata bbox
              Ldir lod totalLevelTiles x y w)).
Proof.
  pose proof (tileBody_writesOnly renderOther network rejects metadata bbox
                Ldir lod totalLevelTiles x y w) as H.
  unfold wp in H. unfold tileTask, tryCatch.
  destruct (tileBody renderOther network rejects metadata bbox Ldir lod
              totalLevelTiles x y w) as [[e | []] w']; world_simpl; exact H.
Qed.
Section TaskRequests.

Variable renderOther : Q -> string.
Variable network : string -> FetchResult.
Variable rejects : nat -> bool.
Variable metadata : Metadata.
Variable bbox : Extent.

Lemma tileBody_requests Ldir lod totalLevelTiles x y w :
  let post := fun (w' : World) =>
    match probed Ldir (tileNames lod x y) (files w) with
    | Some _ =>
        fetched w' = fetched w
        /\ files w' !! (Ldir, filePath (tileNames lod x y) "png")
           = files w !! (Ldir, filePath (tileNames lod x y) "png")
        /\ files w' !! (Ldir, filePath (tileNames lod x y) "jpeg")
           = files w !! (Ldir, filePath (tileNames lod x y) "jpeg")
    | None => fetched w' = tileUrl metadata lod x y :: fetched w
    end in
  wp (tileBody renderOther network rejects metadata bbox Ldir lod totalLevelTiles x y)
    (fun _ => post) (fun _ => post) w.
Proof.
  unfold probed, tileBody. cbv zeta. fold (tileNames lod x y).
  repeat wp_step.
  destruct (bool_decide (is_Some (files w !! (Ldir, filePath (tileNames lod x y) "png"))));
    [| destruct (bool_decide
                   (is_Some (files w !! (Ldir, filePath (tileNames lod x y) "jpeg"))))];
    cbn [negb andb].
  - change (worldFileExt (Some "png")) with "pgw".
    repeat wp_step; world_simpl; files_lookup; auto.
  - change (worldFileExt (Some "jpeg")) with "jgw".
    repeat wp_step; world_simpl; files_lookup; auto.
  - repeat first [wp_step | wp_if]; world_simpl; reflexivity.
Qed.

End TaskRequests.


Section TaskResumes.

Variable renderOther : Q -> string.
Variable network : string -> FetchResult.
Variable rejects : nat -> bool.
Variable metadata : Metadata.
Variable bbox : Extent.

Hypothesis no_rejection : forall rank, rejects rank = false.

Lemma tileBody_resumes Ldir lod totalLevelTiles x y w :
  is_Some (probed Ldir (tileNames lod x y) (files w)) ->
  wp (tileBody renderOther network rejects metadata bbox Ldir lod totalLevelTiles x y)
    (fun _ w' =>
       files w'
       = <[(Ldir, filePath (tileNames lod x y)
                    (worldFileExt (probed Ldir (tileNames lod x y) (files w))))
           := worldFileContent renderOther metadata (tileSize metadata) (resolution lod) x y]>
           (files w)
       /\ fetched w' = fetched w
       /\ warned w' = warned w
       /\ downloadedTiles w' = downloadedTiles w + 1
       /\ downloadedLevelTiles w' = downloadedLevelTiles w + 1)
    (fun _ _ => False)
    w.
Proof.
  unfold probed, tileBody. cbv zeta. fold (tileNames lod x y).
  intros Himage. repeat wp_step.
  destruct (bool_decide (is_Some (files w !! (Ldir, filePath (tileNames lod x y) "png"))));
    [| destruct (bool_decide
                   (is_Some (files w !! (Ldir, filePath (tileNames lod x y) "jpeg"))))];
    cbn [negb andb].
  - repeat first [wp_step_ok no_rejection | wp_step].
    world_simpl. rewrite insert_touch, append_nil. repeat split.
  - repeat first [wp_step_ok no_rejection | wp_step].
    world_simpl. rewrite insert_touch, append_nil. repeat split.
  - destruct Himage as [? [=]].
Qed.

End TaskResumes.

(** X5. Over a directory that already holds the image of the tile
    (whatever its content), and with no rejected file-system call, a
    task makes no request and changes one file only: it writes the world
    file of the tile anew, [.pgw] beside a [.png] and [.jgw] beside a
    [.jpeg] alone; the tile is counted and nothing is logged. *)
Theorem tileTask_resumes renderOther network rejects metadata bbox
    Ldir lod totalLevelTiles x y w :
  let names := toArcGISNames (level lod) x y in
  is_Some (probed Ldir names (files w)) ->
  (forall rank, rejects rank = false) ->
  let w' := tileTask renderOther network rejects metadata bbox
              Ldir lod totalLevelTiles x y w in
  files w'
  = <[(Ldir, filePath names (worldFileExt (probed Ldir names (files w))))
      := worldFileContent renderOther metadata (tileSize metadata) (resolution lod) x y]>
      (files w)
  /\ fetched w' = fetched w
  /\ warned w' = warned w
  /\ downloadedTiles w' = downloadedTiles w + 1
  /\ downloadedLevelTiles w' = downloadedLevelTiles w + 1.
Proof.
  intros names Himage Hall w'.
  pose proof (tileBody_resumes renderOther network rejects metadata bbox Hall
                Ldir lod totalLevelTiles x y w Himage) as H.
  unfold wp in H. subst w' names. unfold tileTask, tryCatch.
  destruct (tileBody renderOther network rejects metadata bbox Ldir lod
              totalLevelTiles x y w) as [[e | []] w']; [destruct H | exact H].
Qed.

(** A witness: the tile of level 2, column 5, row 5 over a directory
    that holds its PNG and a stale world file, with a server that would
    answer 404. *)
Lemma tileTask_resumes_witness :
  is_Some (probed "L02" (toArcGISNames (level level2) 5 5) (files resumedWorld))
  /\ (forall rank, noFaults rank = false)
  /\ (let names := toArcGISNames (level level2) 5 5 in
      let w' := tileTask noRender notFound noFaults threeLevels southExtent
                  "L02" level2 2 5 5 resumedWorld in
      files w'
      = <[("L02", filePath names (worldFileExt (probed "L02" names (files resumedWorld))))
          := worldFileContent noRender threeLevels (tileSize threeLevels)
               (resolution level2) 5 5]>
          (files resumedWorld)
      /\ fetched w' = fetched resumedWorld
      /\ warned w' = warned resumedWorld
      /\ downloadedTiles w' = downloadedTiles resumedWorld + 1
      /\ downloadedLevelTiles w' = downloadedLevelTiles resumedWorld + 1).
Proof.
  assert (H1 : is_Some (probed "L02" (toArcGISNames (level level2) 5 5)
                          (files resumedWorld)))
    by (exists "png"; vm_compute; reflexivity).
  assert (H2 : forall rank, noFaults rank = false) by (intros rank; reflexivity).
  exact (conj H1 (conj H2
    (tileTask_resumes noRender notFound noFaults threeLevels southExtent
       "L02" level2 2 5 5 resumedWorld H1 H2))).
Defined.

Lemma touch_absent (k : FileHandle) (fs : gmap (string * string) string) :
  fs !! k = None -> touch k fs = <[k := EmptyString]> fs.
Proof. intros E. unfold touch. rewrite E. reflexivity. Qed.





(** ** The namer over all integers *)

Section ReadBack.
  Import JSString JSNumber.

Variable radix : Z.
(** What is done to the numeral after padding, character by character. *)
Variable upc : ascii -> ascii.
Variable f : string -> string.

Hypothesis radix_ge_2 : 2 <= radix.
Hypothesis f_nil : f EmptyString = EmptyString.
Hypothesis f_cons : forall c s, f (String c s) = String (upc c) (f s).
Hypothesis upc_minus : upc "-" = "-"%char.
Hypothesis upc_digit :
  forall d, 0 <= d < radix ->
    NameSpec.digitOf (upc (digitChar d)) = d /\ Ascii.eqb (upc (digitChar d)) "-" = false.

Lemma f_app a b : f (a +:+ b) = f a +:+ f b.
Proof.
  induction a as [| c a IH]; [rewrite f_nil; reflexivity |].
  rewrite append_cons, !f_cons, append_cons, IH. reflexivity.
Qed.

Lemma readSigned_digit d tl neg a :
  0 <= d < radix ->
  readSigned radix (String (upc (digitChar d)) tl) neg a
  = readSigned radix tl neg (radix * a + d).
Proof.
  intros Hd. destruct (upc_digit d Hd) as [Hv Hm].
  cbn [readSigned]. rewrite Hm, Hv. reflexivity.
Qed.

Lemma readSigned_zeros k tl neg :
  readSigned radix (f (zeros k) +:+ tl) neg 0 = readSigned radix tl neg 0.
Proof.
  induction k as [| k IH]; [cbn [zeros]; rewrite f_nil; reflexivity |].
  cbn [zeros]. rewrite f_cons, append_cons.
  change "0"%char with (digitChar 0). rewrite readSigned_digit by lia.
  rewrite Z.mul_0_r. exact IH.
Qed.

Lemma readSigned_digitsOf :
  forall fuel n rest,
    0 <= n < radix ^ Z.of_nat (S fuel) ->
    exists d,
      digitsOf (S fuel) radix n rest = d +:+ rest
      /\ forall neg a tl,
           readSigned radix (f d +:+ tl) neg a
           = readSigned radix tl neg (a * radix ^ Z.of_nat (String.length d) + n).
Proof.
  induction fuel as [| fuel IH]; intros n rest Hn.
  - assert (Hq : n / radix = 0) by (apply Z.div_small; rewrite Z.pow_1_r in Hn; lia).
    assert (Hm : n mod radix = n) by (apply Z.mod_small; rewrite Z.pow_1_r in Hn; lia).
    exists (String (digitChar n) EmptyString). rewrite digitsOf_S, Hq, Hm. cbn [Z.eqb].
    split; [reflexivity |]. intros neg a tl.
    rewrite f_cons, f_nil, append_cons, append_nil.
    rewrite readSigned_digit by (rewrite Z.pow_1_r in Hn; lia).
    cbn [String.length]. rewrite Z.pow_1_r. f_equal. lia.
  - rewrite digitsOf_S. destruct (Z.eqb_spec (n / radix) 0) as [Hq | Hq].
    + assert (Hlt : 0 <= n < radix).
      { split; [lia |]. apply Z.div_small_iff in Hq; lia. }
      rewrite (Z.mod_small n radix Hlt).
      exists (String (digitChar n) EmptyString).
      split; [reflexivity |]. intros neg a tl.
      rewrite f_cons, f_nil, append_cons, append_nil.
      rewrite readSigned_digit by exact Hlt.
      cbn [String.length]. rewrite Z.pow_1_r. f_equal. lia.
    + assert (Hn' : 0 <= n / radix < radix ^ Z.of_nat (S fuel)).
      { split; [apply Z.div_pos; lia |].
        apply Z.div_lt_upper_bound; [lia |].
        rewrite <- Z.pow_succ_r by lia. rewrite <- Nat2Z.inj_succ. lia. }
      destruct (IH (n / radix) (String (digitChar (n mod radix)) rest) Hn')
        as (d & Hd & Hread).
      exists (d +:+ String (digitChar (n mod radix)) EmptyString).
      rewrite Hd, append_assoc, append_cons, append_nil.
      split; [reflexivity |]. intros neg a tl.
      rewrite f_app, f_cons, f_nil, append_assoc, append_cons, append_nil.
      rewrite Hread, readSigned_digit by (apply Z.mod_pos_bound; lia).
      rewrite length_append. cbn [String.length].
      f_equal. rewrite Nat2Z.inj_add, Z.pow_add_r, Z.pow_1_r by lia.
      pose proof (Z.div_mod n radix). lia.
Qed.

Lemma natToString_fuel n :
  0 <= n -> 0 <= n < radix ^ Z.of_nat (S (Z.to_nat (Z.log2 n))).
Proof.
  intros Hn. split; [lia |].
  rewrite Nat2Z.inj_succ, Z2Nat.id by apply Z.log2_nonneg.
  destruct (Z.eq_dec n 0) as [-> | Hn0].
  - apply Z.pow_pos_nonneg; cbn; lia.
  - apply Z.lt_le_trans with (2 ^ Z.succ (Z.log2 n)).
    + apply Z.log2_spec. lia.
    + apply Z.pow_le_mono_l. lia.
Qed.

Lemma readSigned_natToString n neg :
  0 <= n ->
  readSigned radix (f (natToString radix n)) neg 0 = if neg then - n else n.
Proof.
  intros Hn. unfold natToString.
  destruct (readSigned_digitsOf _ n EmptyString (natToString_fuel n Hn)) as (d & Hd & Hread).
  rewrite Hd, append_nil_r. specialize (Hread neg 0 EmptyString).
  rewrite append_nil_r in Hread. rewrite Hread. cbn [readSigned].
  destruct neg; f_equal; lia.
Qed.

Lemma padStart_zeros k s :
  exists j, padStart k "0" s = zeros j +:+ s.
Proof.
  unfold padStart. destruct (k <=? String.length s)%nat.
  - exists 0%nat. reflexivity.
  - exists (k - String.length s)%nat. rewrite (proj1 (fill_zeros _)). reflexivity.
Qed.

Lemma readSigned_padStart k n :
  readSigned radix (f (padStart k "0" (toStringRadix radix n))) false 0 = n.
Proof.
  destruct (padStart_zeros k (toStringRadix radix n)) as [j ->].
  rewrite f_app. unfold toStringRadix. destruct (Z.ltb_spec n 0) as [Hneg | Hpos].
  - rewrite f_cons, upc_minus.
    rewrite <- (append_nil_r (String "-" _)), readSigned_zeros, append_nil_r.
    cbn [readSigned]. change (Ascii.eqb "-" "-") with true. cbv iota.
    rewrite readSigned_natToString by lia. lia.
  - rewrite <- (append_nil_r (f (natToString radix n))), readSigned_zeros, append_nil_r.
    apply readSigned_natToString. exact Hpos.
Qed.

End ReadBack.

Lemma decimal_digit_read d :
  0 <= d < 10 ->
  NameSpec.digitOf (JSNumber.digitChar d) = d /\ Ascii.eqb (JSNumber.digitChar d) "-" = false.
Proof.
  intros Hd.
  assert (H : d = 0 \/ d = 1 \/ d = 2 \/ d = 3 \/ d = 4 \/ d = 5 \/ d = 6 \/ d = 7 \/
              d = 8 \/ d = 9) by lia.
  repeat (destruct H as [-> | H]; [split; reflexivity |]). subst d. split; reflexivity.
Qed.

Lemma hex_digit_read d :
  0 <= d < 16 ->
  NameSpec.digitOf (JSString.upperChar (JSNumber.digitChar d)) = d
  /\ Ascii.eqb (JSString.upperChar (JSNumber.digitChar d)) "-" = false.
Proof.
  intros Hd.
  assert (H : d = 0 \/ d = 1 \/ d = 2 \/ d = 3 \/ d = 4 \/ d = 5 \/ d = 6 \/ d = 7 \/
              d = 8 \/ d = 9 \/ d = 10 \/ d = 11 \/ d = 12 \/ d = 13 \/ d = 14 \/ d = 15)
    by lia.
  repeat (destruct H as [-> | H]; [split; reflexivity |]). subst d. split; reflexivity.
Qed.

Lemma readSigned_decimal k n :
  readSigned 10 (JSString.padStart k "0" (JSNumber.toStringRadix 10 n)) false 0 = n.
Proof.
  apply (readSigned_padStart 10 (fun c => c) (fun s => s)); auto using decimal_digit_read.
  lia.
Qed.

Lemma readSigned_hex k n :
  readSigned 16
    (JSString.toUpperCase (JSString.padStart k "0" (JSNumber.toStringRadix 16 n))) false 0
  = n.
Proof.
  apply (readSigned_padStart 16 JSString.upperChar JSString.toUpperCase);
    auto using hex_digit_read.
  lia.
Qed.


Section FileNames.
  Import JSString JSNumber.

Lemma length_toUpperCase s : String.length (toUpperCase s) = String.length s.
Proof. induction s as [| c s IH]; [reflexivity |]. cbn [toUpperCase String.length]. lia. Qed.

Lemma length_zeros k : String.length (zeros k) = k.
Proof. induction k as [| k IH]; [reflexivity |]. cbn [zeros String.length]. lia. Qed.

Lemma length_padStart k s :
  String.length (padStart k "0" s) = Nat.max k (String.length s).
Proof.
  unfold padStart. destruct (Nat.leb_spec k (String.length s)) as [Hle | Hlt]; [lia |].
  rewrite (proj1 (fill_zeros _)), length_append, length_zeros. lia.
Qed.

Lemma length_natToString radix k n :
  2 <= radix -> 0 <= n < radix ^ Z.of_nat (S k) ->
  (String.length (natToString radix n) <= S k)%nat.
Proof.
  intros Hr Hn. unfold natToString.
  destruct (digitsOf_fixedDigits radix Hr _ k n EmptyString
              (natToString_fuel radix Hr n (proj1 Hn)) (proj2 Hn)) as (d & Hd & Hlen & _).
  rewrite Hd, append_nil_r. exact Hlen.
Qed.

Lemma length_hex8 n :
  - 16 ^ 7 < n < 16 ^ 8 ->
  String.length (toUpperCase (padStart 8 "0" (toStringRadix 16 n))) = 8%nat.
Proof.
  intros Hn. rewrite length_toUpperCase, length_padStart. unfold toStringRadix.
  destruct (Z.ltb_spec n 0) as [Hneg | Hpos].
  - pose proof (length_natToString 16 6 (- n)) as H. cbn [String.length].
    change (16 ^ Z.of_nat 7) with (16 ^ 7) in H. lia.
  - pose proof (length_natToString 16 7 n) as H.
    change (16 ^ Z.of_nat 8) with (16 ^ 8) in H. lia.
Qed.

Lemma append_inj_length a a' b b' :
  String.length a = String.length a' -> a +:+ b = a' +:+ b' -> a = a' /\ b = b'.
Proof.
  revert a'. induction a as [| c a IH]; intros [| c' a'] Hlen E; try discriminate Hlen.
  - split; [reflexivity | exact E].
  - rewrite !append_cons in E. injection E as -> E.
    cbn [String.length] in Hlen. destruct (IH a' ltac:(lia) E) as [-> ->]. split; reflexivity.
Qed.

Lemma filePath_tile_inj z x y ext z' x' y' ext' :
  - 16 ^ 7 < x < 16 ^ 8 -> - 16 ^ 7 < y < 16 ^ 8 ->
  - 16 ^ 7 < x' < 16 ^ 8 -> - 16 ^ 7 < y' < 16 ^ 8 ->
  filePath (toArcGISNames z x y) ext = filePath (toArcGISNames z' x' y') ext' ->
  x = x' /\ y = y' /\ ext = ext'.
Proof.
  intros Hx Hy Hx' Hy'. unfold filePath, toArcGISNames. cbn [R C].
  rewrite !append_assoc, !append_cons, !append_nil. intros E. injection E as E.
  apply append_inj_length in E as [Ey E]; [| rewrite !length_hex8 by assumption; reflexivity].
  injection E as E.
  apply append_inj_length in E as [Ex E]; [| rewrite !length_hex8 by assumption; reflexivity].
  injection E as E.
  apply (f_equal (fun s => readSigned 16 s false 0)) in Ex, Ey.
  rewrite !readSigned_hex in Ex, Ey. auto.
Qed.

End FileNames.

(** Beyond eight hexadecimal digits the row and the column run into one
    another in the file name: two tiles, one file. *)
Example filePath_collision :
  filePath (toArcGISNames 0 1 4294967308) "png" = "R10000000CC00000001.png"
  /\ filePath (toArcGISNames 0 51539607553 268435456) "png" = "R10000000CC00000001.png".
Proof. split; reflexivity. Qed.

(** X9. The tasks of two tiles of a level write different files:
    for columns and rows that fit eight characters ([-16^7 < n < 16^8]),
    the file name [<R><C>.<ext>] gives the column, the row and the
    suffix back, and a task leaves every file of every other tile as it
    was, whatever the server answers and whichever calls reject. *)
Theorem tileTask_other_tile renderOther network rejects metadata bbox
    Ldir lod totalLevelTiles x y w z' x' y' ext' :
  - 16 ^ 7 < x < 16 ^ 8 -> - 16 ^ 7 < y < 16 ^ 8 ->
  - 16 ^ 7 < x' < 16 ^ 8 -> - 16 ^ 7 < y' < 16 ^ 8 ->
  (x, y) <> (x', y') ->
  (forall ext, filePath (toArcGISNames (level lod) x y) ext
               <> filePath (toArcGISNames z' x' y') ext')
  /\ files (tileTask renderOther network rejects metadata bbox
              Ldir lod totalLevelTiles x y w)
       !! (Ldir, filePath (toArcGISNames z' x' y') ext')
     = files w !! (Ldir, filePath (toArcGISNames z' x' y') ext').
Proof.
  intros Hx Hy Hx' Hy' Hne.
  assert (Hdiff : forall ext, filePath (toArcGISNames (level lod) x y) ext
                              <> filePath (toArcGISNames z' x' y') ext').
  { intros ext E. apply filePath_tile_inj in E as (-> & -> & _); try assumption.
    apply Hne. reflexivity. }
  split; [exact Hdiff |].
  pose proof (tileBody_writesOnly renderOther network rejects metadata bbox
                Ldir lod totalLevelTiles x y w) as H.
  unfold wp in H. unfold tileTask, tryCatch.
  assert (Hout : (Ldir, filePath (toArcGISNames z' x' y') ext')
                 ∉ tileFiles Ldir (tileNames lod x y)).
  { unfold tileFiles. rewrite list_elem_of_fmap. intros (ext & E & _).
    exact (Hdiff ext (eq_sym (f_equal snd E))). }
  destruct (tileBody renderOther network rejects metadata bbox Ldir lod
              totalLevelTiles x y w) as [[e | []] w1]; world_simpl;
    apply (proj1 (H _)), Hout.
Qed.

(** A witness: the tiles [(5, 5)] and [(5, 6)] of level 2. *)
Lemma tileTask_other_tile_witness :
  - 16 ^ 7 < 5 < 16 ^ 8 /\ - 16 ^ 7 < 6 < 16 ^ 8
  /\ (5, 5) <> (5, 6)
  /\ ((forall ext, filePath (toArcGISNames (level level2) 5 5) ext
                   <> filePath (toArcGISNames 2 5 6) "png")
      /\ files (tileTask noRender servesPng noFaults threeLevels southExtent
                  "L02" level2 2 5 5 emptyWorld)
           !! ("L02", filePath (toArcGISNames 2 5 6) "png")
         = files emptyWorld !! ("L02", filePath (toArcGISNames 2 5 6) "png")).
Proof.
  assert (H5 : - 16 ^ 7 < 5 < 16 ^ 8) by (cbn; lia).
  assert (H6 : - 16 ^ 7 < 6 < 16 ^ 8) by (cbn; lia).
  assert (Hne : (5, 5) <> (5, 6)) by discriminate.
  exact (conj H5 (conj H6 (conj Hne
    (tileTask_other_tile noRender servesPng noFaults threeLevels southExtent
       "L02" level2 2 5 5 emptyWorld 2 5 6 "png" H5 H5 H5 H6 Hne)))).
Defined.
(** ** The pixel-size lines of the world file *)

Section FixedText.
  Import JSString JSNumber.













End FixedText.




(** The text of that resolution. *)
Example toFixed_example :
  toFixed noRender 6 (5971642 # 10000000) = "0.597164"
  /\ toFixed noRender 6 (1 # 4000000) = "0.000000"
  /\ toFixed noRender 6 (3 # 4000000) = "0.000001"
  /\ toFixed noRender 6 256 = "256.000000"
  /\ negatedText noRender (toFixed noRender 6 256) = "-256".
Proof. repeat split; reflexivity. Qed.
(** ** The url of a tile *)

Section UrlFacts.
  Import JSString JSNumber.







End UrlFacts.

(** ** The whole run *)

Lemma script_not_tile (d Ldir : string) z x y :
  (d, "convert.sh") ∉ tileFiles Ldir (toArcGISNames z x y).
Proof.
  unfold tileFiles. rewrite list_elem_of_fmap. intros (ext & E & _).
  apply (f_equal snd) in E. cbn [snd] in E. revert E.
  unfold filePath, toArcGISNames. cbn [R]. rewrite !append_assoc, !append_cons.
  discriminate.
Qed.

Section RunFacts.

Variable renderOther : Q -> string.
Variable network : string -> FetchResult.
Variable rejects : nat -> bool.
Variable metadata : Metadata.
Variable bbox : Extent.

Lemma tileTask_keeps Ldir lod totalLevelTiles x y w k :
  k ∉ tileFiles Ldir (tileNames lod x y) ->
  files (tileTask renderOther network rejects metadata bbox Ldir lod totalLevelTiles x y w)
    !! k
  = files w !! k.
Proof.
  intros Hk.
  pose proof (tileBody_writesOnly renderOther network rejects metadata bbox
                Ldir lod totalLevelTiles x y w) as H.
  unfold wp in H. unfold tileTask, tryCatch.
  destruct (tileBody renderOther network rejects metadata bbox Ldir lod
              totalLevelTiles x y w) as [[e | []] w1]; world_simpl;
    apply (proj1 (H _)), Hk.
Qed.

Lemma runTasks_keeps Ldir lod totalLevelTiles tiles w k :
  (forall x y, k ∉ tileFiles Ldir (tileNames lod x y)) ->
  files (runTasks renderOther network rejects metadata bbox Ldir lod totalLevelTiles tiles w)
    !! k
  = files w !! k.
Proof.
  intros Hk. unfold runTasks. revert w.
  induction tiles as [| [x y] tiles IH]; intros w; cbn [fold_left]; [reflexivity |].
  rewrite IH. apply tileTask_keeps, Hk.
Qed.

Hypothesis no_rejection : forall rank, rejects rank = false.

Lemma runLevel_scripts lod w (dirs : list string) :
  (forall d, d ∈ dirs -> files w !! (d, "convert.sh") = Some (scriptContent metadata)) ->
  wp (runLevel renderOther network rejects metadata bbox lod)
    (fun _ w' =>
       forall d, d ∈ levelDirName lod :: dirs ->
         files w' !! (d, "convert.sh") = Some (scriptContent metadata))
    (fun _ _ => False)
    w.
Proof.
  intros Hw. unfold runLevel, getDirectoryHandle. cbv zeta.
  apply wp_bind, wp_bind, wp_fallible;
    [intros Hrej; rewrite no_rejection in Hrej; discriminate Hrej | intros _].
  apply wp_ret, wp_bind. unfold wp at 1. cbv beta iota.
  apply wp_bind, wp_setProgress, wp_bind. unfold wp at 1. cbv beta iota.
  match goal with
  | |- wp _ _ _ (runTasks _ _ _ _ _ ?Ldir ?l ?total ?tiles ?w0) =>
      assert (Hw1 : forall d, d ∈ dirs ->
                files (runTasks renderOther network rejects metadata bbox
                         Ldir l total tiles w0) !! (d, "convert.sh")
                = Some (scriptContent metadata));
      [| revert Hw1;
         generalize (runTasks renderOther network rejects metadata bbox
                       Ldir l total tiles w0) ]
  end.
  { intros d Hd. rewrite runTasks_keeps by (intros; apply script_not_tile).
    world_simpl. apply Hw, Hd. }
  intros w1 Hw1.
  repeat first [wp_step_ok no_rejection | wp_step].
  world_simpl. rewrite insert_touch, append_nil.
  intros d Hd. destruct (decide (d = levelDirName lod)) as [-> | Hne].
  - apply lookup_insert_eq.
  - rewrite lookup_insert_ne by congruence. apply Hw1.
    apply elem_of_cons in Hd as [Hd | Hd]; [contradiction | exact Hd].
Qed.

Lemma forEachLevel_scripts levels w (dirs : list string) :
  (forall d, d ∈ dirs -> files w !! (d, "convert.sh") = Some (scriptContent metadata)) ->
  wp (forEachLevel renderOther network rejects metadata bbox levels)
    (fun _ w' =>
       forall d, d ∈ ((levelDirName <$> levels) ++ dirs)%list ->
         files w' !! (d, "convert.sh") = Some (scriptContent metadata))
    (fun _ _ => False)
    w.
Proof.
  revert w dirs. induction levels as [| lod levels IH]; intros w dirs Hw; cbn [forEachLevel].
  - apply wp_ret. exact Hw.
  - apply wp_bind.
    eapply wp_weaken; [apply (runLevel_scripts lod w dirs Hw) | | intros e w' []].
    intros [] w' H. cbv beta.
    eapply wp_weaken; [apply (IH w' (levelDirName lod :: dirs) H) | | intros e w2 []].
    intros [] w2 H2 d Hd. apply H2.
    rewrite fmap_cons in Hd. rewrite elem_of_app, elem_of_cons in Hd.
    rewrite elem_of_app, elem_of_cons. tauto.
Qed.

End RunFacts.

(** X12. Nothing the server does stops a run: when the directory picker
    is there and no file-system call rejects, the run resolves for every
    server, and leaves in every level directory a [convert.sh] with the
    conversion script of the pyramid's projection. *)
Theorem run_resolves renderOther network rejects metadata bbox w :
  (forall rank, rejects rank = false) ->
  let run := downloadAllLevelsForArcGIS renderOther network rejects metadata bbox true w in
  fst run = inr tt
  /\ forall lod, lod ∈ lods (tileInfo metadata) ->
       files (snd run) !! (levelDirName lod, "convert.sh") = Some (scriptContent metadata).
Proof.
  intros Hall run.
  assert (H : wp (downloadAllLevelsForArcGIS renderOther network rejects metadata bbox true)
                (fun _ w' =>
                   forall d, d ∈ ((levelDirName <$> lods (tileInfo metadata)) ++ [])%list ->
                     files w' !! (d, "convert.sh") = Some (scriptContent metadata))
                (fun _ _ => False) w).
  { unfold downloadAllLevelsForArcGIS, getDirectoryHandle. cbn [negb].
    apply wp_bind, wp_fallible;
      [intros Hrej; rewrite Hall in Hrej; discriminate Hrej | intros _].
    apply wp_bind, wp_bind, wp_fallible;
      [intros Hrej; rewrite Hall in Hrej; discriminate Hrej | intros _].
    apply wp_ret, wp_bind. unfold wp at 1. cbv beta iota.
    apply forEachLevel_scripts; [exact Hall |]. intros d Hd. inversion Hd. }
  unfold wp in H. subst run.
  destruct (downloadAllLevelsForArcGIS renderOther network rejects metadata bbox true w)
    as [[e | []] w']; [destruct H |].
  split; [reflexivity |]. intros lod Hlod. apply H.
  rewrite app_nil_r. apply list_elem_of_fmap. exists lod. split; [reflexivity | exact Hlod].
Qed.

(** A witness: the run over the extent south of the origin, with a
    server that has one tile of the five. *)
Lemma run_resolves_witness :
  (forall rank, noFaults rank = false)
  /\ (let run := downloadAllLevelsForArcGIS noRender onlyRow6 noFaults threeLevels
                   southExtent true emptyWorld in
      fst run = inr tt
      /\ forall lod, lod ∈ lods (tileInfo threeLevels) ->
           files (snd run) !! (levelDirName lod, "convert.sh")
           = Some (scriptContent threeLevels)).
Proof.
  assert (H : forall rank, noFaults rank = false) by (intros rank; reflexivity).
  exact (conj H (run_resolves noRender onlyRow6 noFaults threeLevels southExtent
                   emptyWorld H)).
Defined.
(** ** Counting and reporting over a run *)

Lemma fraction_within (done total : Z) :
  0 <= done <= total -> 0 < total ->
  (0 <= inject_Z done / inject_Z total)%Q /\ (inject_Z done / inject_Z total <= 1)%Q.
Proof.
  intros Hd Ht.
  assert (Hpos : (0 < inject_Z total)%Q) by (change 0%Q with (inject_Z 0); rewrite <- Zlt_Qlt; lia).
  split.
  - apply Qle_shift_div_l; [exact Hpos |]. rewrite Qmult_0_l.
    change 0%Q with (inject_Z 0). rewrite <- Zle_Qle. lia.
  - apply Qle_shift_div_r; [exact Hpos |]. rewrite Qmult_1_l. rewrite <- Zle_Qle. lia.
Qed.

Section RunCounts.

Variable renderOther : Q -> string.
Variable network : string -> FetchResult.
Variable rejects : nat -> bool.
Variable metadata : Metadata.
Variable bbox : Extent.

Lemma counted_same n w0 w w' :
  downloadedTiles w' = downloadedTiles w -> progress w' = progress w ->
  counted n w0 w -> counted n w0 w'.
Proof.
  intros Hd Hp [Hn (new & E & F)]. split; [rewrite Hd; exact Hn |].
  exists new. rewrite Hp. auto.
Qed.

Lemma counted_mono n m w0 w : n <= m -> counted n w0 w -> counted m w0 w.
Proof. intros Hnm [Hn F]. split; [lia | exact F]. Qed.

Lemma counted_report n w0 w w' fraction message :
  downloadedTiles w' = downloadedTiles w ->
  progress w' = (fraction, message) :: progress w ->
  (0 <= fraction)%Q /\ (fraction <= 1)%Q /\ message <> EmptyString ->
  counted n w0 w -> counted n w0 w'.
Proof.
  intros Hd Hp Hf [Hn (new & E & F)]. split; [rewrite Hd; exact Hn |].
  exists ((fraction, message) :: new). rewrite Hp, E. split; [reflexivity |].
  constructor; [exact Hf | exact F].
Qed.

Lemma tileTask_counted Ldir lod totalLevelTiles x y n w0 w :
  counted n w0 w -> n + 1 <= totalTiles metadata bbox ->
  counted (n + 1) w0
    (tileTask renderOther network rejects metadata bbox Ldir lod totalLevelTiles x y w).
Proof.
  intros [Hn (new & E & F)] Htotal.
  pose proof (tileBody_counters renderOther network rejects metadata bbox
                Ldir lod totalLevelTiles x y w) as Hc.
  pose proof (tileBody_progress renderOther network rejects metadata bbox
                Ldir lod totalLevelTiles x y w) as Hp.
  unfold wp in Hc, Hp. unfold tileTask, tryCatch.
  destruct (tileBody renderOther network rejects metadata bbox Ldir lod
              totalLevelTiles x y w) as [[e | []] w'].
  - destruct Hc as (Hd & _ & _). split; world_simpl; [lia |].
    exists new. world_simpl. rewrite Hp. auto.
  - destruct Hc as (Hd & _ & _). split; [lia |].
    exists (((inject_Z (downloadedTiles w + 1) / inject_Z (totalTiles metadata bbox))%Q,
            levelMessage metadata lod (downloadedLevelTiles w + 1) totalLevelTiles) :: new).
    rewrite Hp, E. split; [reflexivity |].
    constructor; [| exact F]. cbn [fst snd].
    destruct (fraction_within (downloadedTiles w + 1) (totalTiles metadata bbox))
      as [Hlo Hhi]; [lia | lia |].
    split; [exact Hlo |]. split; [exact Hhi |].
    unfold levelMessage. rewrite append_cons. discriminate.
Qed.

Lemma runTasks_counted Ldir lod totalLevelTiles tiles n w0 w :
  counted n w0 w -> n + Z.of_nat (length tiles) <= totalTiles metadata bbox ->
  counted (n + Z.of_nat (length tiles)) w0
    (runTasks renderOther network rejects metadata bbox Ldir lod totalLevelTiles tiles w).
Proof.
  unfold runTasks. revert n w.
  induction tiles as [| [x y] tiles IH]; intros n w Hw Htotal; cbn [fold_left length].
  - cbn [length] in *. replace (n + Z.of_nat 0) with n by lia. exact Hw.
  - cbn [length] in Htotal.
    replace (n + Z.of_nat (S (length tiles))) with (n + 1 + Z.of_nat (length tiles)) by lia.
    apply IH; [| lia]. apply tileTask_counted; [exact Hw | lia].
Qed.

Lemma runLevel_counted lod n w0 w :
  counted n w0 w ->
  n + Z.of_nat (length (levelTiles metadata bbox lod)) <= totalTiles metadata bbox ->
  let post := fun (w' : World) =>
    counted (n + Z.of_nat (length (levelTiles metadata bbox lod))) w0 w' in
  wp (runLevel renderOther network rejects metadata bbox lod) (fun _ => post) (fun _ => post) w.
Proof.
  intros Hw Htotal post. subst post. unfold runLevel, getDirectoryHandle, levelTiles in *.
  cbv zeta.
  apply wp_bind, wp_bind, wp_fallible; intros _.
  { eapply counted_mono; [| eapply counted_same; [| | exact Hw]]; [lia | reflexivity ..]. }
  apply wp_ret, wp_bind. unfold wp at 1. cbv beta iota.
  apply wp_bind, wp_setProgress, wp_bind. unfold wp at 1. cbv beta iota.
  match goal with
  | |- wp _ _ _ (runTasks _ _ _ _ _ ?Ldir ?l ?total ?tiles ?w1) =>
      pose proof (runTasks_counted Ldir l total tiles n w0 w1) as Hw1;
      revert Hw1;
      generalize (runTasks renderOther network rejects metadata bbox Ldir l total tiles w1)
  end.
  intros w2 Hw2.
  assert (Hw2' : counted
                   (n + Z.of_nat (length (tilesOf (tileRangeForExtent (tileGrid metadata) bbox
                                                     (resolution lod))))) w0 w2).
  { apply Hw2; [| exact Htotal].
    apply (counted_report n w0 w _ 0%Q (levelStartMessage metadata bbox lod));
      [reflexivity | reflexivity | | exact Hw].
    split; [apply Qle_refl |]. split; [intros E; discriminate E |].
    unfold levelStartMessage. rewrite append_cons. discriminate. }
  clear Hw2.
  repeat wp_step; world_simpl;
    (eapply counted_same; [| | exact Hw2']; reflexivity).
Qed.

Lemma forEachLevel_counted levels n w0 w :
  counted n w0 w ->
  n + sumOverLevels (fun lod => Z.of_nat (length (levelTiles metadata bbox lod))) levels
  <= totalTiles metadata bbox ->
  let post := fun (w' : World) => counted (totalTiles metadata bbox) w0 w' in
  wp (forEachLevel renderOther network rejects metadata bbox levels)
    (fun _ => post) (fun _ => post) w.
Proof.
  intros Hw Htotal post. subst post. revert n w Hw Htotal.
  induction levels as [| lod levels IH]; intros n w Hw Htotal; cbn [forEachLevel].
  - apply wp_ret. eapply counted_mono; [| exact Hw].
    unfold sumOverLevels in Htotal. cbn [map foldr] in Htotal. lia.
  - unfold sumOverLevels in Htotal. cbn [map foldr] in Htotal.
    fold (sumOverLevels (fun lod => Z.of_nat (length (levelTiles metadata bbox lod))) levels)
      in Htotal.
    assert (Hrest : 0 <= sumOverLevels
                           (fun lod => Z.of_nat (length (levelTiles metadata bbox lod))) levels).
    { clear. unfold sumOverLevels. induction levels as [| l ls IHl]; cbn [map foldr]; lia. }
    apply wp_bind.
    eapply wp_weaken; [apply (runLevel_counted lod n w0 w Hw); lia | |].
    + intros [] w' H. cbv beta. apply (IH _ w' H). lia.
    + intros e w' H. cbv beta. eapply counted_mono; [| exact H]. lia.
Qed.

End RunCounts.
Lemma sumOverLevels_ext (f g : Lod -> Z) (levels : list Lod) :
  Forall (fun lod => f lod = g lod) levels -> sumOverLevels f levels = sumOverLevels g levels.
Proof.
  unfold sumOverLevels. induction 1 as [| lod levels E _ IH]; cbn [map foldr]; [reflexivity |].
  rewrite E, IH. reflexivity.
Qed.

Section WellFormedRun.

Variable metadata : Metadata.
Variable bbox : Extent.

Hypothesis resolutions_positive :
  Forall (fun lod => (0 < resolution lod)%Q) (lods (tileInfo metadata)).
Hypothesis tileSize_positive : (0 < tileSize metadata)%Q.
Hypothesis x_ordered : (xmin bbox <= xmax bbox)%Q.
Hypothesis y_ordered : (ymin bbox <= ymax bbox)%Q.

Lemma length_levelTiles lod :
  (0 < resolution lod)%Q ->
  Z.of_nat (length (levelTiles metadata bbox lod))
  = tileCount (tileRangeForExtent (tileGrid metadata) bbox (resolution lod))
  /\ 1 <= tileCount (tileRangeForExtent (tileGrid metadata) bbox (resolution lod)).
Proof.
  intros Hres. unfold levelTiles.
  set (range := tileRangeForExtent (tileGrid metadata) bbox (resolution lod)).
  assert (Hw : (0 < resolution lod * tileSize metadata)%Q).
  { rewrite <- (Qmult_0_l (tileSize metadata)). apply Qmult_lt_r; assumption. }
  assert (Hord : minX range <= maxX range /\ minY range <= maxY range).
  { subst range. unfold tileRangeForExtent, tileGrid, tileGridOf.
    cbn [getOrigin getTileSize minX maxX minY maxY].
    change (firstDimension (tile_size (tileInfo metadata))) with (tileSize metadata).
    split; apply Qfloor_div_mono; try exact Hw; lra. }
  rewrite length_tilesOf. unfold tileCount. split; [f_equal; lia | nia].
Qed.

Lemma totalTiles_submitted :
  totalTiles metadata bbox
  = sumOverLevels (fun lod => Z.of_nat (length (levelTiles metadata bbox lod)))
      (lods (tileInfo metadata)).
Proof.
  unfold totalTiles. rewrite fold_left_add_shift, Z.add_0_l.
  symmetry. apply sumOverLevels_ext.
  eapply Forall_impl; [exact resolutions_positive |].
  intros lod Hres. apply (length_levelTiles lod Hres).
Qed.

End WellFormedRun.

(** X13. For positive resolution and tile size and an extent with
    [xmin <= xmax] and [ymin <= ymax], the loops of a level submit as
    many tasks as the level counts in [totalLevelTiles], and at least
    one. *)
Theorem level_tasks_counted (metadata : Metadata) (bbox : Extent) (lod : Lod) :
  (0 < resolution lod)%Q ->
  (0 < tileSize metadata)%Q ->
  (xmin bbox <= xmax bbox)%Q ->
  (ymin bbox <= ymax bbox)%Q ->
  let range := tileRangeForExtent (tileGrid metadata) bbox (resolution lod) in
  Z.of_nat (length (tilesOf range)) = tileCount range /\ 1 <= tileCount range.
Proof.
  intros Hres Hsize Hx Hy range.
  exact (length_levelTiles metadata bbox Hsize Hx Hy lod Hres).
Qed.

(** A witness: the finest level of the three-level pyramid over the
    extent south of the origin. *)
Lemma level_tasks_counted_witness :
  (0 < resolution level2)%Q /\ (0 < tileSize threeLevels)%Q
  /\ (xmin southExtent <= xmax southExtent)%Q
  /\ (ymin southExtent <= ymax southExtent)%Q
  /\ (let range := tileRangeForExtent (tileGrid threeLevels) southExtent (resolution level2) in
      Z.of_nat (length (tilesOf range)) = tileCount range /\ 1 <= tileCount range).
Proof.
  assert (H1 : (0 < resolution level2)%Q) by reflexivity.
  assert (H2 : (0 < tileSize threeLevels)%Q) by reflexivity.
  assert (H3 : (xmin southExtent <= xmax southExtent)%Q) by (intros E; discriminate E).
  assert (H4 : (ymin southExtent <= ymax southExtent)%Q) by (intros E; discriminate E).
  exact (conj H1 (conj H2 (conj H3 (conj H4
    (level_tasks_counted threeLevels southExtent level2 H1 H2 H3 H4))))).
Defined.

(** X14. Over a pyramid with positive resolutions and tile size and an
    extent with [xmin <= xmax] and [ymin <= ymax], a run that starts
    with nothing counted never counts more tiles than [totalTiles],
    however it ends, and every progress report it makes shows a
    fraction between 0 and 1 and a message that is not empty, so
    [setProgress] never falls back on its default text. *)
Theorem progress_bounded renderOther network rejects metadata bbox hasDirectoryPicker w :
  Forall (fun lod => (0 < resolution lod)%Q) (lods (tileInfo metadata)) ->
  (0 < tileSize metadata)%Q ->
  (xmin bbox <= xmax bbox)%Q ->
  (ymin bbox <= ymax bbox)%Q ->
  downloadedTiles w = 0 ->
  let w' := snd (downloadAllLevelsForArcGIS renderOther network rejects metadata bbox
                   hasDirectoryPicker w) in
  0 <= downloadedTiles w' <= totalTiles metadata bbox
  /\ exists new,
       progress w' = (new ++ progress w)%list
       /\ Forall (fun entry : Q * string =>
                    (0 <= fst entry)%Q /\ (fst entry <= 1)%Q /\ snd entry <> EmptyString)
            new.
Proof.
  intros Hres Hsize Hx Hy Hzero w'.
  pose proof (totalTiles_submitted metadata bbox Hres Hsize Hx Hy) as Htotal.
  assert (Hnonneg : 0 <= totalTiles metadata bbox).
  { rewrite Htotal. clear. unfold sumOverLevels.
    induction (lods (tileInfo metadata)) as [| l ls IH]; cbn [map foldr]; lia. }
  assert (Hstart : forall w1, downloadedTiles w1 = 0 -> progress w1 = progress w ->
                     counted 0 w w1).
  { intros w1 Hd Hp. split; [lia |]. exists []. split; [exact Hp | constructor]. }
  assert (H : wp (downloadAllLevelsForArcGIS renderOther network rejects metadata bbox
                    hasDirectoryPicker)
                (fun _ w1 => counted (totalTiles metadata bbox) w w1)
                (fun _ w1 => counted (totalTiles metadata bbox) w w1) w).
  { unfold downloadAllLevelsForArcGIS, getDirectoryHandle.
    destruct hasDirectoryPicker; cbn [negb].
    - apply wp_bind, wp_fallible; intros _;
        [eapply counted_mono; [exact Hnonneg | apply Hstart; [exact Hzero | reflexivity]] |].
      apply wp_bind, wp_bind, wp_fallible; intros _;
        [eapply counted_mono; [exact Hnonneg | apply Hstart; [exact Hzero | reflexivity]] |].
      apply wp_ret, wp_bind. unfold wp at 1. cbv beta iota.
      apply (forEachLevel_counted renderOther network rejects metadata bbox _ 0);
        [apply Hstart; reflexivity | lia].
    - apply wp_ret. eapply counted_mono; [exact Hnonneg |].
      apply Hstart; [exact Hzero | reflexivity]. }
  unfold wp in H. subst w'.
  destruct (downloadAllLevelsForArcGIS renderOther network rejects metadata bbox
              hasDirectoryPicker w) as [[e | []] w1]; exact H.
Qed.

Lemma threeLevels_positive :
  Forall (fun lod => (0 < resolution lod)%Q) (lods (tileInfo threeLevels)).
Proof.
  constructor; [reflexivity |]. constructor; [reflexivity |].
  constructor; [reflexivity | constructor].
Defined.

Lemma southExtent_ordered :
  (xmin southExtent <= xmax southExtent)%Q /\ (ymin southExtent <= ymax southExtent)%Q.
Proof. split; intros E; discriminate E. Defined.

(** A witness: the same run, cut short or not. *)
Lemma progress_bounded_witness :
  Forall (fun lod => (0 < resolution lod)%Q) (lods (tileInfo threeLevels))
  /\ (0 < tileSize threeLevels)%Q
  /\ (xmin southExtent <= xmax southExtent)%Q
  /\ (ymin southExtent <= ymax southExtent)%Q
  /\ downloadedTiles emptyWorld = 0
  /\ (let w' := snd (downloadAllLevelsForArcGIS noRender onlyRow6 thirdCallFails
                       threeLevels southExtent true emptyWorld) in
      0 <= downloadedTiles w' <= totalTiles threeLevels southExtent
      /\ exists new,
           progress w' = (new ++ progress emptyWorld)%list
           /\ Forall (fun entry : Q * string =>
                        (0 <= fst entry)%Q /\ (fst entry <= 1)%Q
                        /\ snd entry <> EmptyString) new).
Proof.
  assert (H2 : (0 < tileSize threeLevels)%Q) by reflexivity.
  assert (H5 : downloadedTiles emptyWorld = 0) by reflexivity.
  exact (conj threeLevels_positive (conj H2 (conj (proj1 southExtent_ordered)
    (conj (proj2 southExtent_ordered) (conj H5
      (progress_bounded noRender onlyRow6 thirdCallFails threeLevels southExtent true
         emptyWorld threeLevels_positive H2 (proj1 southExtent_ordered)
         (proj2 southExtent_ordered) H5)))))).
Defined.

Section RunCompletes.

Variable renderOther : Q -> string.
Variable network : string -> FetchResult.
Variable rejects : nat -> bool.
Variable metadata : Metadata.
Variable bbox : Extent.

Hypothesis no_rejection : forall rank, rejects rank = false.
Hypothesis no_network_error : forall url, network url <> NetworkError.

Lemma tileBody_completes Ldir lod totalLevelTiles x y w :
  wp (tileBody renderOther network rejects metadata bbox Ldir lod totalLevelTiles x y)
    (fun _ w' => downloadedTiles w' = downloadedTiles w + 1 /\ warned w' = warned w)
    (fun _ _ => False)
    w.
Proof.
  unfold tileBody. cbv zeta.
  repeat wp_step.
  repeat match goal with
         | |- context [bool_decide (is_Some (files ?w0 !! ?k))] =>
             destruct (bool_decide (is_Some (files w0 !! k)))
         end;
    cbn [negb andb]; repeat first [wp_step_ok no_rejection | wp_step | wp_if].
  all: try (exfalso; eapply no_network_error; eassumption).
  all: world_simpl; split; reflexivity.
Qed.

Lemma runTasks_completes Ldir lod totalLevelTiles tiles w :
  let w' := runTasks renderOther network rejects metadata bbox
              Ldir lod totalLevelTiles tiles w in
  downloadedTiles w' = downloadedTiles w + Z.of_nat (length tiles) /\ warned w' = warned w.
Proof.
  cbv zeta. unfold runTasks. revert w.
  induction tiles as [| [x y] tiles IH]; intros w; cbn [fold_left length].
  - split; [lia | reflexivity].
  - destruct (IH (tileTask renderOther network rejects metadata bbox
                    Ldir lod totalLevelTiles x y w)) as [Hd Hw].
    rewrite Hd, Hw.
    pose proof (tileBody_completes Ldir lod totalLevelTiles x y w) as H.
    unfold wp in H. unfold tileTask, tryCatch.
    destruct (tileBody renderOther network rejects metadata bbox Ldir lod
                totalLevelTiles x y w) as [[e | []] w1]; [destruct H |].
    destruct H as [H1 H2]. rewrite H1, H2. split; [lia | reflexivity].
Qed.

Lemma runLevel_completes lod w :
  wp (runLevel renderOther network rejects metadata bbox lod)
    (fun _ w' =>
       downloadedTiles w'
       = downloadedTiles w + Z.of_nat (length (levelTiles metadata bbox lod))
       /\ warned w' = warned w)
    (fun _ _ => False)
    w.
Proof.
  unfold runLevel, getDirectoryHandle, levelTiles. cbv zeta.
  apply wp_bind, wp_bind, wp_fallible;
    [intros Hrej; rewrite no_rejection in Hrej; discriminate Hrej | intros _].
  apply wp_ret, wp_bind. unfold wp at 1. cbv beta iota.
  apply wp_bind, wp_setProgress, wp_bind. unfold wp at 1. cbv beta iota.
  match goal with
  | |- wp _ _ _ (runTasks _ _ _ _ _ ?Ldir ?l ?total ?tiles ?w1) =>
      pose proof (runTasks_completes Ldir l total tiles w1) as Hw1;
      cbv zeta in Hw1; revert Hw1;
      generalize (runTasks renderOther network rejects metadata bbox Ldir l total tiles w1)
  end.
  world_simpl. intros w2 [Hd Hw].
  repeat first [wp_step_ok no_rejection | wp_step].
  world_simpl. split; assumption.
Qed.

Lemma forEachLevel_completes levels w :
  wp (forEachLevel renderOther network rejects metadata bbox levels)
    (fun _ w' =>
       downloadedTiles w'
       = downloadedTiles w
         + sumOverLevels (fun lod => Z.of_nat (length (levelTiles metadata bbox lod))) levels
       /\ warned w' = warned w)
    (fun _ _ => False)
    w.
Proof.
  revert w. induction levels as [| lod levels IH]; intros w; cbn [forEachLevel].
  - apply wp_ret. unfold sumOverLevels. cbn [map foldr]. split; [lia | reflexivity].
  - apply wp_bind.
    eapply wp_weaken; [apply (runLevel_completes lod w) | | intros e w' []].
    intros [] w1 [Hd Hw]. cbv beta.
    eapply wp_weaken; [apply (IH w1) | | intros e w' []].
    intros [] w2 [Hd2 Hw2]. cbv beta. rewrite Hd2, Hw2, Hd, Hw.
    unfold sumOverLevels. cbn [map foldr]. split; [lia | reflexivity].
Qed.

End RunCompletes.

(** X15. When no file-system call rejects and no request fails at the
    network, the run counts every tile, whatever status the server
    answers with: over a pyramid with positive resolutions and tile
    size and an extent with [xmin <= xmax] and [ymin <= ymax], it
    resolves with [downloadedTiles] equal to [totalTiles] and logs no
    warning. *)
Theorem run_completes renderOther network rejects metadata bbox w :
  Forall (fun lod => (0 < resolution lod)%Q) (lods (tileInfo metadata)) ->
  (0 < tileSize metadata)%Q ->
  (xmin bbox <= xmax bbox)%Q ->
  (ymin bbox <= ymax bbox)%Q ->
  (forall rank, rejects rank = false) ->
  (forall url, network url <> NetworkError) ->
  let run := downloadAllLevelsForArcGIS renderOther network rejects metadata bbox true w in
  fst run = inr tt
  /\ downloadedTiles (snd run) = totalTiles metadata bbox
  /\ warned (snd run) = warned w.
Proof.
  intros Hres Hsize Hx Hy Hall Hnet run.
  rewrite (totalTiles_submitted metadata bbox Hres Hsize Hx Hy).
  assert (H : wp (downloadAllLevelsForArcGIS renderOther network rejects metadata bbox true)
                (fun _ w' =>
                   downloadedTiles w'
                   = sumOverLevels
                       (fun lod => Z.of_nat (length (levelTiles metadata bbox lod)))
                       (lods (tileInfo metadata))
                   /\ warned w' = warned w)
                (fun _ _ => False) w).
  { unfold downloadAllLevelsForArcGIS, getDirectoryHandle. cbn [negb].
    apply wp_bind, wp_fallible;
      [intros Hrej; rewrite Hall in Hrej; discriminate Hrej | intros _].
    apply wp_bind, wp_bind, wp_fallible;
      [intros Hrej; rewrite Hall in Hrej; discriminate Hrej | intros _].
    apply wp_ret, wp_bind. unfold wp at 1. cbv beta iota.
    eapply wp_weaken;
      [apply (forEachLevel_completes renderOther network rejects metadata bbox Hall Hnet)
      | | intros e w' []].
    intros [] w' [Hd Hw]. cbv beta. rewrite Hd, Hw. world_simpl. split; [lia | reflexivity]. }
  unfold wp in H. subst run.
  destruct (downloadAllLevelsForArcGIS renderOther network rejects metadata bbox true w)
    as [[e | []] w']; [destruct H |].
  destruct H as [Hd Hw]. cbn [fst snd]. auto.
Qed.

(** A witness: the same run against the server that has one tile of
    the five and answers 404 for the others. *)
Lemma run_completes_witness :
  Forall (fun lod => (0 < resolution lod)%Q) (lods (tileInfo threeLevels))
  /\ (0 < tileSize threeLevels)%Q
  /\ (xmin southExtent <= xmax southExtent)%Q
  /\ (ymin southExtent <= ymax southExtent)%Q
  /\ (forall rank, noFaults rank = false)
  /\ (forall url, onlyRow6 url <> NetworkError)
  /\ (let run := downloadAllLevelsForArcGIS noRender onlyRow6 noFaults threeLevels
                   southExtent true emptyWorld in
      fst run = inr tt
      /\ downloadedTiles (snd run) = totalTiles threeLevels southExtent
      /\ warned (snd run) = warned emptyWorld).
Proof.
  assert (H2 : (0 < tileSize threeLevels)%Q) by reflexivity.
  assert (H5 : forall rank, noFaults rank = false) by (intros rank; reflexivity).
  assert (H6 : forall url, onlyRow6 url <> NetworkError)
    by (intros url; unfold onlyRow6; destruct (String.eqb _ _); discriminate).
  exact (conj threeLevels_positive (conj H2 (conj (proj1 southExtent_ordered)
    (conj (proj2 southExtent_ordered) (conj H5 (conj H6
      (run_completes noRender onlyRow6 noFaults threeLevels southExtent emptyWorld
         threeLevels_positive H2 (proj1 southExtent_ordered)
         (proj2 southExtent_ordered) H5 H6))))))).
Defined.
(** ** The requests of a run *)

Section RunRequests.

Variable renderOther : Q -> string.
Variable network : string -> FetchResult.
Variable rejects : nat -> bool.
Variable metadata : Metadata.
Variable bbox : Extent.
Variable levels : list Lod.

Lemma requested_same n m w0 w w' :
  fetched w' = fetched w -> n <= m ->
  requested metadata bbox levels n w0 w -> requested metadata bbox levels m w0 w'.
Proof.
  intros Hf Hnm (new & E & Hlen & F). exists new. rewrite Hf.
  split; [exact E |]. split; [lia | exact F].
Qed.

Lemma tileTask_requested Ldir lod totalLevelTiles x y n w0 w :
  lod ∈ levels -> (x, y) ∈ levelTiles metadata bbox lod ->
  requested metadata bbox levels n w0 w ->
  requested metadata bbox levels (n + 1) w0
    (tileTask renderOther network rejects metadata bbox Ldir lod totalLevelTiles x y w).
Proof.
  intros Hlod Hxy Hw.
  pose proof (tileBody_requests renderOther network rejects metadata bbox
                Ldir lod totalLevelTiles x y w) as H.
  cbv zeta in H. unfold wp in H.
  assert (Hcase : forall w1 : World,
            match probed Ldir (tileNames lod x y) (files w) with
            | Some _ =>
                fetched w1 = fetched w
                /\ files w1 !! (Ldir, filePath (tileNames lod x y) "png")
                   = files w !! (Ldir, filePath (tileNames lod x y) "png")
                /\ files w1 !! (Ldir, filePath (tileNames lod x y) "jpeg")
                   = files w !! (Ldir, filePath (tileNames lod x y) "jpeg")
            | None => fetched w1 = tileUrl metadata lod x y :: fetched w
            end ->
            forall w2 : World, fetched w2 = fetched w1 ->
            requested metadata bbox levels (n + 1) w0 w2).
  { intros w1 Hw1 w2 Hw2. destruct (probed Ldir (tileNames lod x y) (files w)).
    - destruct Hw1 as [Hf _]. eapply requested_same; [| | exact Hw]; [congruence | lia].
    - destruct Hw as (new & E & Hlen & F). exists (tileUrl metadata lod x y :: new).
      rewrite Hw2, Hw1, E. split; [reflexivity |]. split; [cbn [length]; lia |].
      constructor; [| exact F]. exists lod, x, y. auto. }
  unfold tileTask, tryCatch.
  destruct (tileBody renderOther network rejects metadata bbox Ldir lod
              totalLevelTiles x y w) as [[e | []] w1];
    apply (Hcase w1 H); reflexivity.
Qed.

Lemma runTasks_requested Ldir lod totalLevelTiles tiles n w0 w :
  lod ∈ levels ->
  Forall (fun xy => xy ∈ levelTiles metadata bbox lod) tiles ->
  requested metadata bbox levels n w0 w ->
  requested metadata bbox levels (n + Z.of_nat (length tiles)) w0
    (runTasks renderOther network rejects metadata bbox Ldir lod totalLevelTiles tiles w).
Proof.
  intros Hlod. unfold runTasks. revert n w.
  induction tiles as [| [x y] tiles IH]; intros n w Htiles Hw; cbn [fold_left length].
  - eapply requested_same; [reflexivity | | exact Hw]. lia.
  - apply Forall_cons in Htiles as [Hxy Htiles].
    replace (n + Z.of_nat (S (length tiles))) with (n + 1 + Z.of_nat (length tiles)) by lia.
    apply IH; [exact Htiles |]. apply tileTask_requested; assumption.
Qed.

Lemma runLevel_requested lod n w0 w :
  lod ∈ levels ->
  requested metadata bbox levels n w0 w ->
  let post := fun (w' : World) =>
    requested metadata bbox levels
      (n + Z.of_nat (length (levelTiles metadata bbox lod))) w0 w' in
  wp (runLevel renderOther network rejects metadata bbox lod) (fun _ => post) (fun _ => post) w.
Proof.
  intros Hlod Hw post. subst post. unfold runLevel, getDirectoryHandle. cbv zeta.
  fold (levelTiles metadata bbox lod).
  apply wp_bind, wp_bind, wp_fallible; intros _.
  { eapply requested_same; [reflexivity | | exact Hw]. lia. }
  apply wp_ret, wp_bind. unfold wp at 1. cbv beta iota.
  apply wp_bind, wp_setProgress, wp_bind. unfold wp at 1. cbv beta iota.
  match goal with
  | |- wp _ _ _ (runTasks _ _ _ _ _ ?Ldir ?l ?total ?tiles ?w1) =>
      pose proof (runTasks_requested Ldir l total tiles n w0 w1 Hlod) as Hw1;
      revert Hw1;
      generalize (runTasks renderOther network rejects metadata bbox Ldir l total tiles w1)
  end.
  intros w2 Hw2.
  assert (Hw2' : requested metadata bbox levels
                   (n + Z.of_nat (length (levelTiles metadata bbox lod))) w0 w2).
  { apply Hw2.
    - apply Forall_forall. auto.
    - eapply requested_same; [reflexivity | | exact Hw]. lia. }
  clear Hw2.
  repeat wp_step; world_simpl;
    (eapply requested_same; [| | exact Hw2']; [reflexivity | lia]).
Qed.

Lemma forEachLevel_requested turns n w0 w :
  Forall (fun lod => lod ∈ levels) turns ->
  requested metadata bbox levels n w0 w ->
  let post := fun (w' : World) =>
    requested metadata bbox levels
      (n + sumOverLevels (fun lod => Z.of_nat (length (levelTiles metadata bbox lod))) turns)
      w0 w' in
  wp (forEachLevel renderOther network rejects metadata bbox turns)
    (fun _ => post) (fun _ => post) w.
Proof.
  intros Hturns Hw post. subst post. revert n w Hw.
  induction Hturns as [| lod turns Hlod _ IH]; intros n w Hw; cbn [forEachLevel].
  - apply wp_ret. eapply requested_same; [reflexivity | | exact Hw].
    unfold sumOverLevels. cbn [map foldr]. lia.
  - assert (Hrest : 0 <= sumOverLevels
                           (fun lod => Z.of_nat (length (levelTiles metadata bbox lod))) turns).
    { clear. unfold sumOverLevels. induction turns as [| l ls IHl]; cbn [map foldr]; lia. }
    assert (Hsum : sumOverLevels
                     (fun lod => Z.of_nat (length (levelTiles metadata bbox lod)))
                     (lod :: turns)
                   = Z.of_nat (length (levelTiles metadata bbox lod))
                     + sumOverLevels
                         (fun lod => Z.of_nat (length (levelTiles metadata bbox lod))) turns)
      by reflexivity.
    rewrite Hsum. apply wp_bind.
    eapply wp_weaken; [apply (runLevel_requested lod n w0 w Hlod Hw) | |].
    + intros [] w' H. cbv beta.
      eapply wp_weaken; [apply (IH _ w' H) | |];
        intros ? w2 H2; cbv beta;
        (eapply requested_same; [reflexivity | | exact H2]; lia).
    + intros e w' H. cbv beta. eapply requested_same; [reflexivity | | exact H]. lia.
Qed.

End RunRequests.

Lemma downloadAll_requested renderOther network rejects metadata bbox hasDirectoryPicker w :
  requested metadata bbox (lods (tileInfo metadata))
    (sumOverLevels (fun lod => Z.of_nat (length (levelTiles metadata bbox lod)))
       (lods (tileInfo metadata)))
    w
    (snd (downloadAllLevelsForArcGIS renderOther network rejects metadata bbox
            hasDirectoryPicker w)).
Proof.
  set (total := sumOverLevels (fun lod => Z.of_nat (length (levelTiles metadata bbox lod)))
                  (lods (tileInfo metadata))).
  assert (Hnonneg : 0 <= total).
  { subst total. unfold sumOverLevels.
    induction (lods (tileInfo metadata)) as [| l ls IH]; cbn [map foldr]; lia. }
  assert (Hstart : forall w1 : World, fetched w1 = fetched w ->
            requested metadata bbox (lods (tileInfo metadata)) 0 w w1).
  { intros w1 Hf. exists []. rewrite Hf. split; [reflexivity |].
    split; [cbn [length]; lia | constructor]. }
  assert (H : wp (downloadAllLevelsForArcGIS renderOther network rejects metadata bbox
                    hasDirectoryPicker)
                (fun _ w1 => requested metadata bbox (lods (tileInfo metadata)) total w w1)
                (fun _ w1 => requested metadata bbox (lods (tileInfo metadata)) total w w1)
                w).
  { unfold downloadAllLevelsForArcGIS, getDirectoryHandle.
    destruct hasDirectoryPicker; cbn [negb].
    - apply wp_bind, wp_fallible; intros _;
        [eapply requested_same; [reflexivity | exact Hnonneg | apply Hstart; reflexivity] |].
      apply wp_bind, wp_bind, wp_fallible; intros _;
        [eapply requested_same; [reflexivity | exact Hnonneg | apply Hstart; reflexivity] |].
      apply wp_ret, wp_bind. unfold wp at 1. cbv beta iota.
      eapply wp_weaken;
        [apply (forEachLevel_requested renderOther network rejects metadata bbox
                  (lods (tileInfo metadata)) (lods (tileInfo metadata)) 0 w);
           [apply Forall_forall; auto | apply Hstart; reflexivity]
        | |];
        intros ? w1 H1; cbv beta; exact H1.
    - apply wp_ret. eapply requested_same; [reflexivity | exact Hnonneg |].
      apply Hstart. reflexivity. }
  unfold wp in H.
  destruct (downloadAllLevelsForArcGIS renderOther network rejects metadata bbox
              hasDirectoryPicker w) as [[e | []] w1]; exact H.
Qed.

(** X16. A run asks the server for nothing but tiles of the ranges of
    its levels: every request it makes is for the url of a tile
    [(x, y)] that the loops of some level of the pyramid submit, and it
    makes at most one request per submitted task. *)
Theorem run_requests renderOther network rejects metadata bbox hasDirectoryPicker w :
  let w' := snd (downloadAllLevelsForArcGIS renderOther network rejects metadata bbox
                   hasDirectoryPicker w) in
  exists new,
    fetched w' = (new ++ fetched w)%list
    /\ Z.of_nat (length new)
       <= sumOverLevels
            (fun lod =>
               Z.of_nat (length (tilesOf (tileRangeForExtent (tileGrid metadata) bbox
                                            (resolution lod)))))
            (lods (tileInfo metadata))
    /\ Forall (fun u => exists lod x y,
                 lod ∈ lods (tileInfo metadata)
                 /\ (x, y) ∈ tilesOf (tileRangeForExtent (tileGrid metadata) bbox
                                        (resolution lod))
                 /\ u = tileUrl metadata lod x y) new.
Proof.
  exact (downloadAll_requested renderOther network rejects metadata bbox hasDirectoryPicker w).
Qed.
(** ** What a run leaves for every tile *)

Lemma levelDirName_inj lod lod' : levelDirName lod = levelDirName lod' -> level lod = level lod'.
Proof.
  unfold levelDirName. rewrite !append_cons, !append_nil. intros E. injection E as E.
  apply (f_equal (fun s => readSigned 10 s false 0)) in E.
  rewrite !readSigned_decimal in E. exact E.
Qed.

Lemma tileFiles_disjoint Ldir z x y z' x' y' k :
  fitsEight x -> fitsEight y -> fitsEight x' -> fitsEight y' ->
  (x, y) <> (x', y') ->
  k ∈ tileFiles Ldir (toArcGISNames z x y) -> k ∉ tileFiles Ldir (toArcGISNames z' x' y').
Proof.
  unfold tileFiles. intros Hx Hy Hx' Hy' Hne Hk Hk'.
  apply list_elem_of_fmap in Hk as (ext & -> & _), Hk' as (ext' & E & _).
  apply (f_equal snd) in E. cbn [snd] in E.
  apply filePath_tile_inj in E as (-> & -> & _); try assumption.
  apply Hne. reflexivity.
Qed.

Lemma tileFiles_dir Ldir names d name :
  (d, name) ∈ tileFiles Ldir names -> d = Ldir.
Proof.
  unfold tileFiles. intros H. apply list_elem_of_fmap in H as (ext & E & _).
  exact (f_equal fst E).
Qed.

Section Settled.

Variable renderOther : Q -> string.
Variable network : string -> FetchResult.
Variable rejects : nat -> bool.
Variable metadata : Metadata.
Variable bbox : Extent.

Local Abbreviation settles := (settled renderOther network metadata).

Lemma settled_outside Ldir lod x y fs k :
  k ∉ tileFiles Ldir (tileNames lod x y) -> settles Ldir lod x y fs !! k = fs !! k.
Proof.
  intros Hk.
  assert (Hne : forall ext, ext ∈ ["png"; "jpeg"; "pgw"; "jgw"] ->
                  (Ldir, filePath (tileNames lod x y) ext) <> k).
  { intros ext Hext <-. apply Hk, tileFiles_elem, Hext. }
  unfold settled. cbv zeta. destruct (probed Ldir (tileNames lod x y) fs) as [t |].
  - rewrite lookup_insert_ne by (apply Hne, worldFileExt_elem). reflexivity.
  - destruct (network (tileUrl metadata lod x y)) as [| [] contentType data].
    + rewrite lookup_insert_ne by (apply Hne; suffix_elem). reflexivity.
    + rewrite !lookup_insert_ne
        by (apply Hne; first [apply worldFileExt_elem | apply imageTypeOf_elem]).
      reflexivity.
    + rewrite lookup_insert_ne by (apply Hne; suffix_elem). reflexivity.
Qed.

Lemma lookup_insert_agree (fs1 fs2 : gmap (string * string) string) key v k :
  fs1 !! k = fs2 !! k -> <[key := v]> fs1 !! k = <[key := v]> fs2 !! k.
Proof.
  intros E. destruct (decide (key = k)) as [-> | Hne].
  - rewrite !lookup_insert_eq. reflexivity.
  - rewrite !lookup_insert_ne by exact Hne. exact E.
Qed.

Lemma settled_local Ldir lod x y fs1 fs2 :
  (forall k, k ∈ tileFiles Ldir (tileNames lod x y) -> fs1 !! k = fs2 !! k) ->
  forall k, k ∈ tileFiles Ldir (tileNames lod x y) ->
    settles Ldir lod x y fs1 !! k = settles Ldir lod x y fs2 !! k.
Proof.
  intros Hagree k Hk.
  assert (Hprobed : probed Ldir (tileNames lod x y) fs1 = probed Ldir (tileNames lod x y) fs2).
  { unfold probed. rewrite !Hagree by (apply tileFiles_elem; suffix_elem). reflexivity. }
  unfold settled. cbv zeta. rewrite Hprobed.
  destruct (probed Ldir (tileNames lod x y) fs2) as [t |].
  - apply lookup_insert_agree, Hagree, Hk.
  - destruct (network (tileUrl metadata lod x y)) as [| [] contentType data];
      repeat apply lookup_insert_agree; apply Hagree, Hk.
Qed.

Hypothesis no_rejection : forall rank, rejects rank = false.
Hypothesis no_network_error : forall url, network url <> NetworkError.

Lemma tileBody_settled Ldir lod totalLevelTiles x y w :
  wp (tileBody renderOther network rejects metadata bbox Ldir lod totalLevelTiles x y)
    (fun _ w' => files w' = settles Ldir lod x y (files w))
    (fun _ _ => False)
    w.
Proof.
  unfold settled, probed, tileBody. cbv zeta. fold (tileNames lod x y).
  repeat wp_step.
  destruct (bool_decide (is_Some (files w !! (Ldir, filePath (tileNames lod x y) "png"))));
    [| destruct (bool_decide
                   (is_Some (files w !! (Ldir, filePath (tileNames lod x y) "jpeg"))))];
    cbn [negb andb].
  - repeat first [wp_step_ok no_rejection | wp_step].
    world_simpl. rewrite insert_touch, append_nil. reflexivity.
  - repeat first [wp_step_ok no_rejection | wp_step].
    world_simpl. rewrite insert_touch, append_nil. reflexivity.
  - wp_step. wp_step; [exact (no_network_error _ Hnet) |].
    rewrite Hnet. destruct ok.
    + repeat first [wp_step_ok no_rejection | wp_step].
      world_simpl. rewrite !insert_touch, !append_nil. reflexivity.
    + repeat first [wp_step_ok no_rejection | wp_step].
      world_simpl. rewrite insert_touch, append_nil. reflexivity.
Qed.

Lemma tileTask_settled Ldir lod totalLevelTiles x y w :
  files (tileTask renderOther network rejects metadata bbox Ldir lod totalLevelTiles x y w)
  = settles Ldir lod x y (files w).
Proof.
  pose proof (tileBody_settled Ldir lod totalLevelTiles x y w) as H.
  unfold wp in H. unfold tileTask, tryCatch.
  destruct (tileBody renderOther network rejects metadata bbox Ldir lod
              totalLevelTiles x y w) as [[e | []] w1]; [destruct H | exact H].
Qed.

Lemma runTasks_keeps_outside Ldir lod totalLevelTiles tiles w k :
  Forall (fun xy => k ∉ tileFiles Ldir (tileNames lod xy.1 xy.2)) tiles ->
  files (runTasks renderOther network rejects metadata bbox Ldir lod totalLevelTiles tiles w)
    !! k
  = files w !! k.
Proof.
  unfold runTasks. intros Hk. revert w.
  induction Hk as [| [x y] tiles Hxy _ IH]; intros w; cbn [fold_left]; [reflexivity |].
  rewrite IH. apply tileTask_keeps, Hxy.
Qed.

Lemma runTasks_settled Ldir lod totalLevelTiles tiles :
  NoDup tiles ->
  Forall (fun xy => fitsEight xy.1 /\ fitsEight xy.2) tiles ->
  forall w x y k,
    (x, y) ∈ tiles -> k ∈ tileFiles Ldir (tileNames lod x y) ->
    files (runTasks renderOther network rejects metadata bbox
             Ldir lod totalLevelTiles tiles w) !! k
    = settles Ldir lod x y (files w) !! k.
Proof.
  intros Hnodup. induction Hnodup as [| [a b] tiles Hnotin Hnodup IH];
    intros Hfit w x y k Hin Hk; [inversion Hin |].
  apply Forall_cons in Hfit as [[Ha Hb] Hfit]. cbn [fst snd] in Ha, Hb.
  change (runTasks renderOther network rejects metadata bbox Ldir lod totalLevelTiles
            ((a, b) :: tiles) w)
    with (runTasks renderOther network rejects metadata bbox Ldir lod totalLevelTiles tiles
            (tileTask renderOther network rejects metadata bbox
               Ldir lod totalLevelTiles a b w)).
  apply elem_of_cons in Hin as [E | Hin].
  - injection E as -> ->.
    rewrite runTasks_keeps_outside; [apply (f_equal (fun fs => fs !! k)), tileTask_settled |].
    apply Forall_forall. intros [x' y'] Hin'. cbn [fst snd].
    rewrite Forall_forall in Hfit. destruct (Hfit _ Hin') as [Hx' Hy']. cbn [fst snd] in *.
    apply (tileFiles_disjoint Ldir (level lod) a b (level lod) x' y'); try assumption.
    intros E. apply Hnotin. rewrite E. exact Hin'.
  - rewrite (IH Hfit _ x y k Hin Hk). apply settled_local; [| exact Hk].
    intros k' Hk'. apply tileTask_keeps.
    rewrite Forall_forall in Hfit. destruct (Hfit _ Hin) as [Hx Hy]. cbn [fst snd] in *.
    apply (tileFiles_disjoint Ldir (level lod) x y (level lod) a b); try assumption.
    intros E. apply Hnotin. rewrite <- E. exact Hin.
Qed.

(** The directory after the turn of a level: its tiles settled, the
    other directories as they were. *)
Lemma runLevel_settled lod w :
  Forall (fun xy => fitsEight xy.1 /\ fitsEight xy.2) (levelTiles metadata bbox lod) ->
  wp (runLevel renderOther network rejects metadata bbox lod)
    (fun _ w' =>
       (forall x y k,
          (x, y) ∈ levelTiles metadata bbox lod ->
          k ∈ tileFiles (levelDirName lod) (tileNames lod x y) ->
          files w' !! k = settles (levelDirName lod) lod x y (files w) !! k)
       /\ (forall d name, d <> levelDirName lod ->
             files w' !! (d, name) = files w !! (d, name)))
    (fun _ _ => False)
    w.
Proof.
  intros Hfit. unfold runLevel, getDirectoryHandle. cbv zeta.
  fold (levelTiles metadata bbox lod).
  apply wp_bind, wp_bind, wp_fallible;
    [intros Hrej; rewrite no_rejection in Hrej; discriminate Hrej | intros _].
  apply wp_ret, wp_bind. unfold wp at 1. cbv beta iota.
  apply wp_bind, wp_setProgress, wp_bind. unfold wp at 1. cbv beta iota.
  match goal with
  | |- wp _ _ _ (runTasks _ _ _ _ _ ?Ldir ?l ?total ?tiles ?w1) =>
      pose proof (runTasks_settled Ldir l total tiles
                    (NoDup_tilesOf _) Hfit w1) as Hin;
      pose proof (fun k => runTasks_keeps_outside Ldir l total tiles w1 k) as Hout;
      revert Hin Hout;
      generalize (runTasks renderOther network rejects metadata bbox Ldir l total tiles w1)
  end.
  world_simpl. intros w2 Hin Hout.
  repeat first [wp_step_ok no_rejection | wp_step].
  world_simpl. rewrite insert_touch, append_nil. split.
  - intros x y k Hxy Hk. rewrite lookup_insert_ne; [exact (Hin x y k Hxy Hk) |].
    intros <-. exact (script_not_tile _ _ _ _ _ Hk).
  - intros d name Hd. rewrite lookup_insert_ne by congruence.
    apply Hout, Forall_forall. intros [x y] _ Hk. apply tileFiles_dir in Hk. contradiction.
Qed.

Lemma forEachLevel_settled levels :
  NoDup (level <$> levels) ->
  Forall (fun lod => Forall (fun xy => fitsEight xy.1 /\ fitsEight xy.2)
                       (levelTiles metadata bbox lod)) levels ->
  forall w,
    wp (forEachLevel renderOther network rejects metadata bbox levels)
      (fun _ w' =>
         (forall lod x y k,
            lod ∈ levels -> (x, y) ∈ levelTiles metadata bbox lod ->
            k ∈ tileFiles (levelDirName lod) (tileNames lod x y) ->
            files w' !! k = settles (levelDirName lod) lod x y (files w) !! k)
         /\ (forall d name, Forall (fun lod => d <> levelDirName lod) levels ->
               files w' !! (d, name) = files w !! (d, name)))
      (fun _ _ => False)
      w.
Proof.
  induction levels as [| lod levels IH]; intros Hnodup Hfit w; cbn [forEachLevel].
  - apply wp_ret. split; [intros lod x y k Hin; inversion Hin | reflexivity].
  - rewrite fmap_cons in Hnodup. apply NoDup_cons in Hnodup as [Hnotin Hnodup].
    apply Forall_cons in Hfit as [Hfit0 Hfit].
    assert (Hothers : Forall (fun lod' => levelDirName lod <> levelDirName lod') levels).
    { apply Forall_forall. intros lod' Hin E. apply Hnotin.
      rewrite (levelDirName_inj _ _ E). apply list_elem_of_fmap. exists lod'. auto. }
    apply wp_bind.
    eapply wp_weaken; [apply (runLevel_settled lod w Hfit0) | | intros e w' []].
    intros [] w1 [Hin1 Hout1]. cbv beta.
    eapply wp_weaken; [apply (IH Hnodup Hfit w1) | | intros e w' []].
    intros [] w2 [Hin2 Hout2]. cbv beta. split.
    + intros lod' x y [d name] Hlod Hxy Hk.
      pose proof (tileFiles_dir _ _ _ _ Hk) as ->.
      apply elem_of_cons in Hlod as [-> | Hlod].
      * rewrite (Hout2 _ _ Hothers). apply Hin1; assumption.
      * rewrite (Hin2 lod' x y _ Hlod Hxy Hk). apply settled_local; [| exact Hk].
        intros [d' name'] Hk'. pose proof (tileFiles_dir _ _ _ _ Hk') as ->.
        apply Hout1. rewrite Forall_forall in Hothers. intros E.
        exact (Hothers lod' Hlod (eq_sym E)).
    + intros d name Hd. apply Forall_cons in Hd as [Hd0 Hd].
      rewrite (Hout2 _ _ Hd). apply Hout1, Hd0.
Qed.

End Settled.

Lemma probed_None (Ldir : string) (names : ArcGISNames)
    (fs : gmap (string * string) string) :
  probed Ldir names fs = None ->
  fs !! (Ldir, filePath names "png") = None /\ fs !! (Ldir, filePath names "jpeg") = None.
Proof.
  unfold probed.
  destruct (fs !! (Ldir, filePath names "png")) as [png |]; [discriminate |].
  destruct (fs !! (Ldir, filePath names "jpeg")) as [jpeg |]; [discriminate |].
  split; reflexivity.
Qed.

Lemma worldFileExt_not_image imageFileType contentType :
  worldFileExt imageFileType <> "png" /\ worldFileExt imageFileType <> "jpeg"
  /\ worldFileExt imageFileType <> imageTypeOf contentType.
Proof.
  unfold worldFileExt, imageTypeOf.
  destruct (bool_decide (imageFileType = Some "png")),
    (bool_decide (contentType = Some "image/png")); repeat split; discriminate.
Qed.

(** X17. What a run leaves for every tile.  When no file-system call
    rejects, no request fails at the network, no two levels of the
    pyramid share their number and the columns and rows of the ranges
    fit eight hexadecimal characters, the run resolves, and for every
    tile [(x, y)] of the range of every level: where the level
    directory held an image of the tile before the run, both image
    files are as they were and the world file beside that image holds
    the georeference of the tile; where it held none and the server
    answers with success, the image is the body of the response, under
    the suffix of its Content-Type, beside its world file; and where the
    server answers without success, there is no image and the [.jgw]
    holds the georeference. *)
Theorem run_settles_every_tile renderOther network rejects metadata bbox w lod x y :
  (forall rank, rejects rank = false) ->
  (forall url, network url <> NetworkError) ->
  NoDup (level <$> lods (tileInfo metadata)) ->
  (forall lod' x' y',
     lod' ∈ lods (tileInfo metadata) ->
     (x', y') ∈ tilesOf (tileRangeForExtent (tileGrid metadata) bbox (resolution lod')) ->
     - 16 ^ 7 < x' < 16 ^ 8 /\ - 16 ^ 7 < y' < 16 ^ 8) ->
  lod ∈ lods (tileInfo metadata) ->
  (x, y) ∈ tilesOf (tileRangeForExtent (tileGrid metadata) bbox (resolution lod)) ->
  let run := downloadAllLevelsForArcGIS renderOther network rejects metadata bbox true w in
  let file := fun ext => (levelDirName lod, filePath (toArcGISNames (level lod) x y) ext) in
  let content :=
    worldFileContent renderOther metadata (tileSize metadata) (resolution lod) x y in
  fst run = inr tt
  /\ match probed (levelDirName lod) (toArcGISNames (level lod) x y) (files w) with
     | Some imageFileType =>
         files (snd run) !! file "png" = files w !! file "png"
         /\ files (snd run) !! file "jpeg" = files w !! file "jpeg"
         /\ files (snd run) !! file (worldFileExt (Some imageFileType)) = Some content
     | None =>
         match network (tileUrl metadata lod x y) with
         | Response true contentType body =>
             files (snd run) !! file (imageTypeOf contentType) = Some body
             /\ files (snd run) !! file (worldFileExt (Some (imageTypeOf contentType)))
                = Some content
         | _ =>
             files (snd run) !! file "png" = None
             /\ files (snd run) !! file "jpeg" = None
             /\ files (snd run) !! file "jgw" = Some content
         end
     end.
Proof.
  intros Hall Hnet Hnodup Hfit Hlod Hxy run file content.
  assert (H : wp (downloadAllLevelsForArcGIS renderOther network rejects metadata bbox true)
                (fun _ w' =>
                   forall k, k ∈ tileFiles (levelDirName lod) (tileNames lod x y) ->
                     files w' !! k
                     = settled renderOther network metadata (levelDirName lod) lod x y
                         (files w) !! k)
                (fun _ _ => False) w).
  { unfold downloadAllLevelsForArcGIS, getDirectoryHandle. cbn [negb].
    apply wp_bind, wp_fallible;
      [intros Hrej; rewrite Hall in Hrej; discriminate Hrej | intros _].
    apply wp_bind, wp_bind, wp_fallible;
      [intros Hrej; rewrite Hall in Hrej; discriminate Hrej | intros _].
    apply wp_ret, wp_bind. unfold wp at 1. cbv beta iota.
    eapply wp_weaken;
      [apply (forEachLevel_settled renderOther network rejects metadata bbox Hall Hnet
                (lods (tileInfo metadata)) Hnodup)
      | | intros e w' []].
    - apply Forall_forall. intros lod' Hlod'. apply Forall_forall. intros [x' y'] Hxy'.
      exact (Hfit lod' x' y' Hlod' Hxy').
    - intros [] w' [Hin _] k Hk. cbv beta. exact (Hin lod x y k Hlod Hxy Hk). }
  unfold wp in H. subst run.
  destruct (downloadAllLevelsForArcGIS renderOther network rejects metadata bbox true w)
    as [[e | []] w']; [destruct H |].
  cbn [fst snd]. split; [reflexivity |].
  assert (Hfile : forall ext, ext ∈ ["png"; "jpeg"; "pgw"; "jgw"] ->
            files w' !! file ext
            = settled renderOther network metadata (levelDirName lod) lod x y (files w)
                !! file ext)
    by (intros ext Hext; apply H, tileFiles_elem, Hext).
  unfold settled in Hfile. cbv zeta in Hfile. fold content in Hfile.
  fold (tileNames lod x y) in *.
  destruct (probed (levelDirName lod) (tileNames lod x y) (files w))
    as [imageFileType |] eqn:Hprobed.
  - destruct (worldFileExt_not_image (Some imageFileType) None) as (Hpng & Hjpeg & _).
    rewrite !Hfile by first [apply worldFileExt_elem | suffix_elem]. subst file. cbv beta.
    rewrite !lookup_insert_ne by (apply handle_ne; assumption).
    rewrite lookup_insert_eq. auto.
  - apply probed_None in Hprobed as [Hpng Hjpeg].
    destruct (network (tileUrl metadata lod x y)) as [| [] contentType body].
    + rewrite !Hfile by suffix_elem. subst file. cbv beta.
      rewrite !lookup_insert_ne by (apply handle_ne; discriminate).
      rewrite lookup_insert_eq. auto.
    + destruct (worldFileExt_not_image (Some (imageTypeOf contentType)) contentType)
        as (_ & _ & Hne).
      rewrite !Hfile by first [apply worldFileExt_elem | apply imageTypeOf_elem].
      subst file. cbv beta.
      rewrite lookup_insert_ne by (apply handle_ne; exact Hne).
      rewrite !lookup_insert_eq. auto.
    + rewrite !Hfile by suffix_elem. subst file. cbv beta.
      rewrite !lookup_insert_ne by (apply handle_ne; discriminate).
      rewrite lookup_insert_eq. auto.
Qed.

(** A witness: the tile of column 5 and row 6 of the finest level, the
    one tile the server has. *)
Lemma run_settles_every_tile_witness :
  (forall rank, noFaults rank = false)
  /\ (forall url, onlyRow6 url <> NetworkError)
  /\ NoDup (level <$> lods (tileInfo threeLevels))
  /\ (forall lod' x' y',
        lod' ∈ lods (tileInfo threeLevels) ->
        (x', y') ∈ tilesOf (tileRangeForExtent (tileGrid threeLevels) southExtent
                              (resolution lod')) ->
        - 16 ^ 7 < x' < 16 ^ 8 /\ - 16 ^ 7 < y' < 16 ^ 8)
  /\ level2 ∈ lods (tileInfo threeLevels)
  /\ (5, 6) ∈ tilesOf (tileRangeForExtent (tileGrid threeLevels) southExtent
                         (resolution level2))
  /\ (let run := downloadAllLevelsForArcGIS noRender onlyRow6 noFaults threeLevels
                   southExtent true emptyWorld in
      let file := fun ext => (levelDirName level2, filePath (toArcGISNames (level level2) 5 6) ext) in
      let content :=
        worldFileContent noRender threeLevels (tileSize threeLevels) (resolution level2) 5 6 in
      fst run = inr tt
      /\ match probed (levelDirName level2) (toArcGISNames (level level2) 5 6)
                 (files emptyWorld) with
         | Some imageFileType =>
             files (snd run) !! file "png" = files emptyWorld !! file "png"
             /\ files (snd run) !! file "jpeg" = files emptyWorld !! file "jpeg"
             /\ files (snd run) !! file (worldFileExt (Some imageFileType)) = Some content
         | None =>
             match onlyRow6 (tileUrl threeLevels level2 5 6) with
             | Response true contentType body =>
                 files (snd run) !! file (imageTypeOf contentType) = Some body
                 /\ files (snd run) !! file (worldFileExt (Some (imageTypeOf contentType)))
                    = Some content
             | _ =>
                 files (snd run) !! file "png" = None
                 /\ files (snd run) !! file "jpeg" = None
                 /\ files (snd run) !! file "jgw" = Some content
             end
         end).
Proof.
  assert (H1 : forall rank, noFaults rank = false) by (intros rank; reflexivity).
  assert (H2 : forall url, onlyRow6 url <> NetworkError)
    by (intros url; unfold onlyRow6; destruct (String.eqb _ _); discriminate).
  assert (H3 : NoDup (level <$> lods (tileInfo threeLevels))).
  { cbn [threeLevels tileInfo lods fmap list_fmap level].
    repeat (apply NoDup_cons; split;
            [rewrite ?elem_of_cons, elem_of_nil; intros H; lia |]).
    apply NoDup_nil. constructor. }
  assert (H4 : forall lod' x' y',
            lod' ∈ lods (tileInfo threeLevels) ->
            (x', y') ∈ tilesOf (tileRangeForExtent (tileGrid threeLevels) southExtent
                                  (resolution lod')) ->
            - 16 ^ 7 < x' < 16 ^ 8 /\ - 16 ^ 7 < y' < 16 ^ 8).
  { intros lod' x' y' Hlod Hxy. rewrite elem_of_tilesOf in Hxy. revert Hxy.
    cbn [threeLevels tileInfo lods] in Hlod. rewrite !elem_of_cons, elem_of_nil in Hlod.
    destruct Hlod as [-> | [-> | [-> | []]]].
    all: match goal with
         | |- ?a <= _ <= ?b /\ ?c <= _ <= ?d -> _ =>
             let a' := eval vm_compute in a in
             let b' := eval vm_compute in b in
             let c' := eval vm_compute in c in
             let d' := eval vm_compute in d in
             change (a' <= x' <= b' /\ c' <= y' <= d' ->
                     - 268435456 < x' < 4294967296 /\ - 268435456 < y' < 4294967296)
         end; lia. }
  assert (H5 : level2 ∈ lods (tileInfo threeLevels))
    by (cbn [threeLevels tileInfo lods]; rewrite !elem_of_cons; auto).
  assert (H6 : (5, 6) ∈ tilesOf (tileRangeForExtent (tileGrid threeLevels) southExtent
                                   (resolution level2)))
    by (apply elem_of_tilesOf; vm_compute; repeat split; discriminate).
  exact (conj H1 (conj H2 (conj H3 (conj H4 (conj H5 (conj H6
    (run_settles_every_tile noRender onlyRow6 noFaults threeLevels southExtent emptyWorld
       level2 5 6 H1 H2 H3 H4 H5 H6))))))).
Defined.
(** ** Where a run writes *)

Lemma writesInto_refl dirs fs : writesInto dirs fs fs.
Proof. intros k. split; auto. Qed.

Lemma writesInto_trans dirs fs1 fs2 fs3 :
  writesInto dirs fs1 fs2 -> writesInto dirs fs2 fs3 -> writesInto dirs fs1 fs3.
Proof.
  intros H12 H23 k. destruct (H12 k) as [A1 A2], (H23 k) as [B1 B2]. split.
  - intros Hn. rewrite B1, A1; auto.
  - auto.
Qed.

Lemma writesInto_insert dirs fs d name v :
  d ∈ dirs -> writesInto dirs fs (<[(d, name) := v]> fs).
Proof.
  intros Hd k. split.
  - intros Hn. rewrite lookup_insert_ne; [reflexivity |]. intros <-. exact (Hn Hd).
  - intros Hs. destruct (decide ((d, name) = k)) as [<- | Hne].
    + rewrite lookup_insert_eq. eauto.
    + rewrite lookup_insert_ne by exact Hne. exact Hs.
Qed.

Lemma writesInto_touch dirs fs d name :
  d ∈ dirs -> writesInto dirs fs (touch (d, name) fs).
Proof.
  intros Hd. destruct (fs !! (d, name)) as [v |] eqn:E.
  - rewrite touch_present by eauto. apply writesInto_refl.
  - rewrite touch_absent by exact E. apply writesInto_insert, Hd.
Qed.

Lemma writesOnly_writesInto dirs Ldir names fs fs' :
  Ldir ∈ dirs -> writesOnly (tileFiles Ldir names) fs fs' -> writesInto dirs fs fs'.
Proof.
  intros Hd H k. destruct (H k) as [H1 H2]. split; [| exact H2].
  intros Hn. apply H1. intros Hk. destruct k as [d name].
  apply tileFiles_dir in Hk. cbn [fst] in Hn. subst d. exact (Hn Hd).
Qed.

Section RunWrites.

Variable renderOther : Q -> string.
Variable network : string -> FetchResult.
Variable rejects : nat -> bool.
Variable metadata : Metadata.
Variable bbox : Extent.
Variable dirs : list string.

Lemma runTasks_writesInto Ldir lod totalLevelTiles tiles w :
  Ldir ∈ dirs ->
  writesInto dirs (files w)
    (files (runTasks renderOther network rejects metadata bbox
              Ldir lod totalLevelTiles tiles w)).
Proof.
  intros Hd. unfold runTasks. revert w.
  induction tiles as [| [x y] tiles IH]; intros w; cbn [fold_left];
    [apply writesInto_refl |].
  eapply writesInto_trans; [| apply IH].
  apply (writesOnly_writesInto dirs Ldir (tileNames lod x y)); [exact Hd |].
  pose proof (tileBody_writesOnly renderOther network rejects metadata bbox
                Ldir lod totalLevelTiles x y w) as H.
  unfold wp in H. unfold tileTask, tryCatch.
  destruct (tileBody renderOther network rejects metadata bbox Ldir lod
              totalLevelTiles x y w) as [[e | []] w1]; world_simpl; exact H.
Qed.

Lemma runLevel_writesInto lod w0 w :
  levelDirName lod ∈ dirs ->
  writesInto dirs (files w0) (files w) ->
  let post := fun (w' : World) => writesInto dirs (files w0) (files w') in
  wp (runLevel renderOther network rejects metadata bbox lod) (fun _ => post) (fun _ => post) w.
Proof.
  intros Hd Hw post. subst post. unfold runLevel, getDirectoryHandle. cbv zeta.
  apply wp_bind, wp_bind, wp_fallible; intros _; [exact Hw |].
  apply wp_ret, wp_bind. unfold wp at 1. cbv beta iota.
  apply wp_bind, wp_setProgress, wp_bind. unfold wp at 1. cbv beta iota.
  match goal with
  | |- wp _ _ _ (runTasks _ _ _ _ _ ?Ldir ?l ?total ?tiles ?w1) =>
      pose proof (runTasks_writesInto Ldir l total tiles w1 Hd) as Hw1;
      revert Hw1;
      generalize (runTasks renderOther network rejects metadata bbox Ldir l total tiles w1)
  end.
  world_simpl. intros w2 Hw2.
  assert (Hw2' : writesInto dirs (files w0) (files w2))
    by (eapply writesInto_trans; [exact Hw | exact Hw2]).
  clear Hw2.
  repeat wp_step; world_simpl;
    repeat first
      [ exact Hw2'
      | eapply writesInto_trans; [| apply writesInto_insert, Hd]
      | eapply writesInto_trans; [| apply writesInto_touch, Hd] ].
Qed.

Lemma forEachLevel_writesInto levels w0 w :
  Forall (fun lod => levelDirName lod ∈ dirs) levels ->
  writesInto dirs (files w0) (files w) ->
  let post := fun (w' : World) => writesInto dirs (files w0) (files w') in
  wp (forEachLevel renderOther network rejects metadata bbox levels)
    (fun _ => post) (fun _ => post) w.
Proof.
  intros Hlevels Hw post. subst post. revert w Hw.
  induction Hlevels as [| lod levels Hd _ IH]; intros w Hw; cbn [forEachLevel].
  - apply wp_ret, Hw.
  - apply wp_bind.
    eapply wp_weaken; [apply (runLevel_writesInto lod w0 w Hd Hw) | | intros e w' H; exact H].
    intros [] w' H. apply IH, H.
Qed.

End RunWrites.

(** X18. However a run ends, it removes no file, and it creates or
    writes files in the level directories of the pyramid only: every
    file of any other directory is as it was. *)
Theorem run_writes_level_directories renderOther network rejects metadata bbox
    hasDirectoryPicker w :
  let w' := snd (downloadAllLevelsForArcGIS renderOther network rejects metadata bbox
                   hasDirectoryPicker w) in
  (forall d name,
     d ∉ levelDirName <$> lods (tileInfo metadata) ->
     files w' !! (d, name) = files w !! (d, name))
  /\ (forall d name, is_Some (files w !! (d, name)) -> is_Some (files w' !! (d, name))).
Proof.
  intros w'.
  assert (H : wp (downloadAllLevelsForArcGIS renderOther network rejects metadata bbox
                    hasDirectoryPicker)
                (fun _ w1 => writesInto (levelDirName <$> lods (tileInfo metadata))
                               (files w) (files w1))
                (fun _ w1 => writesInto (levelDirName <$> lods (tileInfo metadata))
                               (files w) (files w1))
                w).
  { unfold downloadAllLevelsForArcGIS, getDirectoryHandle.
    destruct hasDirectoryPicker; cbn [negb].
    - apply wp_bind, wp_fallible; intros _; [apply writesInto_refl |].
      apply wp_bind, wp_bind, wp_fallible; intros _; [apply writesInto_refl |].
      apply wp_ret, wp_bind. unfold wp at 1. cbv beta iota.
      apply forEachLevel_writesInto; [| apply writesInto_refl].
      apply Forall_forall. intros lod Hlod. apply list_elem_of_fmap. exists lod. auto.
    - apply wp_ret, writesInto_refl. }
  unfold wp in H. subst w'.
  destruct (downloadAllLevelsForArcGIS renderOther network rejects metadata bbox
              hasDirectoryPicker w) as [[e | []] w1]; cbn [snd];
    (split; intros d name Hd; [exact (proj1 (H (d, name)) Hd) | exact (proj2 (H (d, name)) Hd)]).
Qed.
(** ** The order of the tasks of a level *)

Section TaskOrder.

Variable renderOther : Q -> string.
Variable network : string -> FetchResult.
Variable rejects : nat -> bool.
Variable metadata : Metadata.
Variable bbox : Extent.

Hypothesis no_rejection : forall rank, rejects rank = false.
Hypothesis no_network_error : forall url, network url <> NetworkError.

Lemma runTasks_files_permutation Ldir lod totalLevelTiles tiles tiles' w :
  NoDup tiles ->
  Forall (fun xy => fitsEight xy.1 /\ fitsEight xy.2) tiles ->
  tiles ≡ₚ tiles' ->
  files (runTasks renderOther network rejects metadata bbox
           Ldir lod totalLevelTiles tiles w)
  = files (runTasks renderOther network rejects metadata bbox
             Ldir lod totalLevelTiles tiles' w).
Proof.
  intros Hnodup Hfit Hperm.
  assert (Hnodup' : NoDup tiles') by (rewrite <- Hperm; exact Hnodup).
  assert (Hfit' : Forall (fun xy => fitsEight xy.1 /\ fitsEight xy.2) tiles')
    by (rewrite <- Hperm; exact Hfit).
  apply map_eq. intros k.
  destruct (Forall_Exists_dec
              (fun xy : Z * Z => k ∉ tileFiles Ldir (tileNames lod xy.1 xy.2))
              (fun xy : Z * Z => k ∈ tileFiles Ldir (tileNames lod xy.1 xy.2))
              (fun xy => match decide (k ∈ tileFiles Ldir (tileNames lod xy.1 xy.2)) with
                         | left Hin => right Hin
                         | right Hout => left Hout
                         end) tiles) as [Hout | Hin].
  - etransitivity; [apply runTasks_keeps_outside, Hout |].
    symmetry. apply runTasks_keeps_outside. rewrite <- Hperm. exact Hout.
  - apply Exists_exists in Hin as ([x y] & Hxy & Hk). cbn [fst snd] in Hk.
    etransitivity;
      [apply (runTasks_settled renderOther network rejects metadata bbox
                no_rejection no_network_error Ldir lod totalLevelTiles tiles
                Hnodup Hfit w x y k Hxy Hk) |].
    symmetry. rewrite Hperm in Hxy.
    apply (runTasks_settled renderOther network rejects metadata bbox
             no_rejection no_network_error Ldir lod totalLevelTiles tiles'
             Hnodup' Hfit' w x y k Hxy Hk).
Qed.

End TaskOrder.

(** X19. The order in which the tasks of a level are run does not
    matter for what they leave: when no file-system call rejects and no
    request fails at the network, the tasks of distinct tiles whose
    columns and rows fit eight hexadecimal characters, run one after
    the other in any order, leave the same files, the same count of
    tiles and no warning. *)
Theorem runTasks_any_order renderOther network rejects metadata bbox
    Ldir lod totalLevelTiles tiles tiles' w :
  (forall rank, rejects rank = false) ->
  (forall url, network url <> NetworkError) ->
  NoDup tiles ->
  Forall (fun xy : Z * Z => - 16 ^ 7 < xy.1 < 16 ^ 8 /\ - 16 ^ 7 < xy.2 < 16 ^ 8) tiles ->
  tiles ≡ₚ tiles' ->
  let w1 := runTasks renderOther network rejects metadata bbox
              Ldir lod totalLevelTiles tiles w in
  let w2 := runTasks renderOther network rejects metadata bbox
              Ldir lod totalLevelTiles tiles' w in
  files w1 = files w2
  /\ downloadedTiles w1 = downloadedTiles w2
  /\ warned w1 = warned w /\ warned w2 = warned w.
Proof.
  intros Hall Hnet Hnodup Hfit Hperm w1 w2.
  split; [apply runTasks_files_permutation; assumption |].
  destruct (runTasks_completes renderOther network rejects metadata bbox Hall Hnet
              Ldir lod totalLevelTiles tiles w) as [Hd1 Hw1].
  destruct (runTasks_completes renderOther network rejects metadata bbox Hall Hnet
              Ldir lod totalLevelTiles tiles' w) as [Hd2 Hw2].
  subst w1 w2. rewrite Hd1, Hd2, Hw1, Hw2, Hperm. auto.
Qed.

(** A witness: the two tiles of the finest level, in both orders. *)
Lemma runTasks_any_order_witness :
  (forall rank, noFaults rank = false)
  /\ (forall url, onlyRow6 url <> NetworkError)
  /\ NoDup [(5, 5); (5, 6)]
  /\ Forall (fun xy : Z * Z => - 16 ^ 7 < xy.1 < 16 ^ 8 /\ - 16 ^ 7 < xy.2 < 16 ^ 8)
       [(5, 5); (5, 6)]
  /\ [(5, 5); (5, 6)] ≡ₚ [(5, 6); (5, 5)]
  /\ (let w1 := runTasks noRender onlyRow6 noFaults threeLevels southExtent
                  "L02" level2 2 [(5, 5); (5, 6)] emptyWorld in
      let w2 := runTasks noRender onlyRow6 noFaults threeLevels southExtent
                  "L02" level2 2 [(5, 6); (5, 5)] emptyWorld in
      files w1 = files w2
      /\ downloadedTiles w1 = downloadedTiles w2
      /\ warned w1 = warned emptyWorld /\ warned w2 = warned emptyWorld).
Proof.
  assert (H1 : forall rank, noFaults rank = false) by (intros rank; reflexivity).
  assert (H2 : forall url, onlyRow6 url <> NetworkError)
    by (intros url; unfold onlyRow6; destruct (String.eqb _ _); discriminate).
  assert (H3 : NoDup [(5, 5); (5, 6)]).
  { apply NoDup_cons. split; [rewrite elem_of_cons, elem_of_nil; intros [E | []]; discriminate E |].
    apply NoDup_cons. split; [apply not_elem_of_nil | apply NoDup_nil; constructor]. }
  assert (H4 : Forall (fun xy : Z * Z =>
                         - 16 ^ 7 < xy.1 < 16 ^ 8 /\ - 16 ^ 7 < xy.2 < 16 ^ 8)
                 [(5, 5); (5, 6)]).
  { constructor; [cbn [fst snd]; change (16 ^ 7) with 268435456;
                  change (16 ^ 8) with 4294967296; lia |].
    constructor; [cbn [fst snd]; change (16 ^ 7) with 268435456;
                  change (16 ^ 8) with 4294967296; lia | constructor]. }
  assert (H5 : [(5, 5); (5, 6)] ≡ₚ [(5, 6); (5, 5)]) by apply perm_swap.
  exact (conj H1 (conj H2 (conj H3 (conj H4 (conj H5
    (runTasks_any_order noRender onlyRow6 noFaults threeLevels southExtent
       "L02" level2 2 [(5, 5); (5, 6)] [(5, 6); (5, 5)] emptyWorld H1 H2 H3 H4 H5)))))).
Defined.
(** ** Loading the pyramid descriptor *)

Lemma belowNativeLevels_lt n lod :
  belowNativeLevels n lod = true <-> (inject_Z (level lod) < n)%Q.
Proof.
  unfold belowNativeLevels. rewrite negb_true_iff. split.
  - intros H. apply Qnot_le_lt. intros Hle. apply Qle_bool_iff in Hle. congruence.
  - intros H. destruct (Qle_bool n (inject_Z (level lod))) eqn:E; [| reflexivity].
    apply Qle_bool_iff in E. exfalso. exact (Qlt_not_le _ _ H E).
Qed.

Lemma filter_filter_same {A} (p : A -> bool) (l : list A) :
  List.filter p (List.filter p l) = List.filter p l.
Proof.
  induction l as [| a l IH]; [reflexivity |].
  cbn [List.filter]. destruct (p a) eqn:E; [| exact IH].
  cbn [List.filter]. rewrite E, IH. reflexivity.
Qed.

Lemma filter_sublist {A} (p : A -> bool) (l : list A) : sublist (List.filter p l) l.
Proof.
  induction l as [| a l IH]; [constructor |].
  cbn [List.filter]. destruct (p a); constructor; exact IH.
Qed.

(** X20. Loading keeps the levels below [nativeLevels] and nothing
    else of the descriptor changes: the levels kept are a sub-sequence
    of the levels given, in their order; a level is kept if and only if
    its number is below [nativeLevels], or [nativeLevels] is absent or
    zero (a zero keeps every level, not none); the url, the name, the
    origin, the tile size and the projection stay; and loading what was
    loaded changes nothing. *)
Theorem keepNativeLevels_levels (data : Metadata) :
  let loaded := keepNativeLevels data in
  sublist (lods (tileInfo loaded)) (lods (tileInfo data))
  /\ (forall lod,
        lod ∈ lods (tileInfo loaded)
        <-> lod ∈ lods (tileInfo data)
            /\ match nativeLevels data with
               | None => True
               | Some n => (n == 0)%Q \/ (inject_Z (level lod) < n)%Q
               end)
  /\ url loaded = url data
  /\ name loaded = name data
  /\ nativeLevels loaded = nativeLevels data
  /\ origin (tileInfo loaded) = origin (tileInfo data)
  /\ tile_size (tileInfo loaded) = tile_size (tileInfo data)
  /\ wkid (tileInfo loaded) = wkid (tileInfo data)
  /\ keepNativeLevels loaded = loaded.
Proof.
  unfold keepNativeLevels. destruct (nativeLevels data) as [n |] eqn:Hn.
  - destruct (Qeq_bool n 0) eqn:Hz.
    + cbv zeta. rewrite Hn, Hz.
      split; [reflexivity |]. split; [| repeat split; reflexivity].
      intros lod. split; [| intros [Hin _]; exact Hin].
      intros Hin. split; [exact Hin |]. left. apply Qeq_bool_iff, Hz.
    + cbv zeta.
      cbn [url name nativeLevels tileInfo lods origin tile_size wkid dpi].
      rewrite ?Hn, Hz, filter_filter_same.
      split; [apply filter_sublist |]. split; [| repeat split; reflexivity].
      intros lod. rewrite list_elem_of_In, filter_In, <- list_elem_of_In, belowNativeLevels_lt.
      split.
      * intros [Hin Hlt]. auto.
      * intros [Hin [Hzero | Hlt]]; [| auto].
        apply Qeq_bool_iff in Hzero. congruence.
  - cbv zeta. rewrite Hn.
    split; [reflexivity |]. split; [| repeat split; reflexivity].
    intros lod. split; [intros Hin; split; [exact Hin | exact I] | intros [Hin _]; exact Hin].
Qed.

(** Two of the three levels are native. *)
Example keepNativeLevels_twoNative :
  level <$> lods (tileInfo (keepNativeLevels twoNative)) = [0; 1]
  /\ keepNativeLevels threeLevels = threeLevels.
Proof. split; reflexivity. Qed.

(** X21. A run over a loaded descriptor asks for native levels only:
    with a [nativeLevels] other than zero, every request of the run is
    for a tile of the range of a level of the descriptor whose number is
    below [nativeLevels], at the url the descriptor gives. *)
Theorem native_run_requests renderOther network rejects data bbox hasDirectoryPicker w n :
  nativeLevels data = Some n ->
  ~ (n == 0)%Q ->
  let w' := snd (downloadAllLevelsForArcGIS renderOther network rejects
                   (keepNativeLevels data) bbox hasDirectoryPicker w) in
  exists new,
    fetched w' = (new ++ fetched w)%list
    /\ Forall (fun u => exists lod x y,
                 lod ∈ lods (tileInfo data)
                 /\ (inject_Z (level lod) < n)%Q
                 /\ (x, y) ∈ tilesOf (tileRangeForExtent (tileGrid data) bbox (resolution lod))
                 /\ u = tileUrl data lod x y) new.
Proof.
  intros Hn Hnz w'.
  destruct (downloadAll_requested renderOther network rejects (keepNativeLevels data) bbox
              hasDirectoryPicker w) as (new & E & _ & F).
  exists new. split; [exact E |].
  eapply Forall_impl; [exact F |]. cbv beta.
  intros u (lod & x & y & Hlod & Hxy & ->). exists lod, x, y.
  assert (Hz : Qeq_bool n 0 = false).
  { destruct (Qeq_bool n 0) eqn:Hz; [| reflexivity].
    exfalso. apply Hnz, Qeq_bool_iff, Hz. }
  revert Hlod Hxy. unfold levelTiles, tileUrl, keepNativeLevels. rewrite Hn, Hz.
  cbn [url tileInfo lods]. intros Hlod Hxy.
  rewrite list_elem_of_In, filter_In, <- list_elem_of_In, belowNativeLevels_lt in Hlod.
  destruct Hlod as [Hlod Hlt]. auto.
Qed.

(** A witness: the pyramid of which two levels are native. *)
Lemma native_run_requests_witness :
  nativeLevels twoNative = Some 2%Q
  /\ ~ (2 == 0)%Q
  /\ (let w' := snd (downloadAllLevelsForArcGIS noRender onlyRow6 noFaults
                       (keepNativeLevels twoNative) southExtent true emptyWorld) in
      exists new,
        fetched w' = (new ++ fetched emptyWorld)%list
        /\ Forall (fun u => exists lod x y,
                     lod ∈ lods (tileInfo twoNative)
                     /\ (inject_Z (level lod) < 2)%Q
                     /\ (x, y) ∈ tilesOf (tileRangeForExtent (tileGrid twoNative) southExtent
                                            (resolution lod))
                     /\ u = tileUrl twoNative lod x y) new).
Proof.
  assert (H1 : nativeLevels twoNative = Some 2%Q) by reflexivity.
  assert (H2 : ~ (2 == 0)%Q) by (intros E; discriminate E).
  exact (conj H1 (conj H2
    (native_run_requests noRender onlyRow6 noFaults twoNative southExtent true emptyWorld
       2 H1 H2))).
Defined.
